(** * BiPay transaction engine: ledger, anomaly scorer and payment orchestrators

    A shallow embedding of the transaction-processing core of the BiPay
    backend (app/blockchain/service.py, app/ai/service.py,
    app/main_enhanced.py, app/payments/router.py, app/config.py) and of
    the code around it (app/database.py, app/auth/biometric.py,
    app/auth/router.py, app/merchant/router.py, app/utils/security.py,
    app/realtime.py), together with the properties stated about it.

    Conventions of the embedding.
    - Python [float] values (amounts, balances, scores) are rationals [Q]:
      the arithmetic of the source is read over exact numbers.
    - Python [int] values are [Z]; [str] values are [string].
    - A naive [datetime] is the number of microseconds since the epoch.
    - A [dict] used as a keyed store is a [gmap]; a [list] is a [list].
    - Library calls whose result the source does not determine (the clock,
      uuid4, the fitted IsolationForest, numpy's transcendental functions,
      the biometric matcher, hashlib and json) are inputs of the functions
      or fields of an interface class. *)

From Stdlib Require Import ZArith QArith Qround Qminmax Qabs String Ascii List Lia DecimalString.
From stdpp Require Import gmap strings list.

Import ListNotations.
Local Open Scope string_scope.
Local Open Scope Z_scope.

(* ===================================================================== *)
(** * Part I. Definitions                                                 *)
(* ===================================================================== *)

(** ** Python primitives used by the source *)

Module Py.

(** Truthiness of a [str]: the empty string is falsy. *)
Definition truthy (s : string) : bool := negb (String.eqb s EmptyString).

(** [s[:d]] for a possibly negative [d]. *)
Definition slice_to (s : string) (d : Z) : string :=
  if 0 <=? d then substring 0 (Z.to_nat d) s
  else substring 0 (String.length s - Z.to_nat (- d)) s.

(** [c * d] for a string [c]: empty when [d <= 0]. *)
Fixpoint str_repeat (c : string) (n : nat) : string :=
  match n with
  | O => EmptyString
  | S n' => c ++ str_repeat c n'
  end.

Definition str_mul (c : string) (d : Z) : string := str_repeat c (Z.to_nat d).

(** [str(n)] for an [int]. *)
Definition str_of_int (n : Z) : string := NilZero.string_of_int (Z.to_int n).

(** [a > b], [a < b] on numbers. *)
Definition Qgtb (a b : Q) : bool := negb (Qle_bool a b).
Definition Qltb (a b : Q) : bool := negb (Qle_bool b a).

End Py.

(** ** SHA-256 (FIPS 180-4), the digest behind [hashlib.sha256] *)

Module Sha256.

Definition w32 (x : Z) : Z := x mod 4294967296.
Definition rotr (n x : Z) : Z := Z.lor (Z.shiftr x n) (w32 (Z.shiftl x (32 - n))).
Definition xor3 (a b c : Z) : Z := Z.lxor (Z.lxor a b) c.
Definition ch (x y z : Z) : Z := Z.lxor (Z.land x y) (Z.land (Z.lxor x 4294967295) z).
Definition maj (x y z : Z) : Z := xor3 (Z.land x y) (Z.land x z) (Z.land y z).
Definition bsig0 (x : Z) : Z := xor3 (rotr 2 x) (rotr 13 x) (rotr 22 x).
Definition bsig1 (x : Z) : Z := xor3 (rotr 6 x) (rotr 11 x) (rotr 25 x).
Definition ssig0 (x : Z) : Z := xor3 (rotr 7 x) (rotr 18 x) (Z.shiftr x 3).
Definition ssig1 (x : Z) : Z := xor3 (rotr 17 x) (rotr 19 x) (Z.shiftr x 10).

(** The round constants and the initial hash value are defined from the
    primes, as the standard does: the first 32 bits of the fractional parts
    of the cube roots of the first 64 primes, and of the square roots of
    the first 8. *)
Definition is_prime (n : nat) : bool :=
  forallb (fun d => negb (n mod d =? 0)%nat) (seq 2 (n - 2)).

Definition primes (count : nat) : list Z :=
  map Z.of_nat (firstn count (List.filter is_prime (seq 2 310))).

(** The largest [r] below [2 ^ bits] with [r ^ 3 <= n], found bit by bit. *)
Fixpoint cube_root (bits : nat) (n r : Z) : Z :=
  match bits with
  | O => r
  | S bits' =>
      let r' := r + 2 ^ Z.of_nat bits' in
      cube_root bits' n (if r' ^ 3 <=? n then r' else r)
  end.

Definition K : list Z :=
  Eval vm_compute in map (fun p => w32 (cube_root 40 (p * 2 ^ 96) 0)) (primes 64).

Definition H0 : list Z :=
  Eval vm_compute in map (fun p => w32 (Z.sqrt (p * 2 ^ 64))) (primes 8).

(** The message schedule, most recent word first while it is built. *)
Fixpoint extend (n : nat) (rev_ws : list Z) : list Z :=
  match n with
  | O => rev_ws
  | S n' =>
      let w := w32 (ssig1 (nth 1 rev_ws 0) + nth 6 rev_ws 0
                    + ssig0 (nth 14 rev_ws 0) + nth 15 rev_ws 0) in
      extend n' (w :: rev_ws)
  end.

Definition schedule (block : list Z) : list Z := rev (extend 48 (rev block)).

Definition round (st : list Z) (kw : Z * Z) : list Z :=
  match st with
  | [a; b; c; d; e; f; g; h] =>
      let t1 := h + bsig1 e + ch e f g + fst kw + snd kw in
      let t2 := bsig0 a + maj a b c in
      [w32 (t1 + t2); a; b; c; w32 (d + t1); e; f; g]
  | _ => st
  end.

Definition compress (hs : list Z) (block : list Z) : list Z :=
  let st := fold_left round (combine K (schedule block)) hs in
  map (fun p => w32 (fst p + snd p)) (combine hs st).

Definition bytes_of_string (s : string) : list Z :=
  map (fun c => Z.of_N (N_of_ascii c)) (list_ascii_of_string s).

Definition be_bytes (width : nat) (x : Z) : list Z :=
  map (fun i => Z.shiftr x (8 * Z.of_nat i) mod 256) (rev (seq 0 width)).

Definition pad (msg : list Z) : list Z :=
  let l := Z.of_nat (List.length msg) in
  let zeros := Z.to_nat ((55 - l) mod 64) in
  msg ++ [128] ++ repeat 0 zeros ++ be_bytes 8 (8 * l).

Fixpoint words (fuel : nat) (bs : list Z) : list Z :=
  match fuel, bs with
  | S fuel', b0 :: b1 :: b2 :: b3 :: rest =>
      (((b0 * 256 + b1) * 256 + b2) * 256 + b3) :: words fuel' rest
  | _, _ => []
  end.

Fixpoint blocks (fuel : nat) (ws : list Z) : list (list Z) :=
  match fuel, ws with
  | S fuel', _ :: _ => firstn 16 ws :: blocks fuel' (skipn 16 ws)
  | _, _ => []
  end.

Definition hex_digit (n : Z) : ascii :=
  nth (Z.to_nat n) (list_ascii_of_string "0123456789abcdef") "0"%char.

Definition hex_of_word (nibbles : nat) (w : Z) : string :=
  string_of_list_ascii
    (map (fun i => hex_digit (Z.shiftr w (4 * Z.of_nat i) mod 16)) (rev (seq 0 nibbles))).

Definition digest_words (s : string) : list Z :=
  let bs := pad (bytes_of_string s) in
  let ws := words (List.length bs) bs in
  fold_left compress (blocks (List.length ws) ws) H0.

(** [hashlib.sha256(s.encode()).hexdigest()] for an ASCII string [s]. *)
Definition hexdigest (s : string) : string :=
  String.concat EmptyString (map (hex_of_word 8) (digest_words s)).

End Sha256.

(** ** app/config.py: the defaults of [Settings] the core reads *)

Module Settings.

Definition mining_reward : Q := 10 # 1.
Definition blockchain_difficulty : Z := 4.
Definition anomaly_contamination : Q := 1 # 10.
Definition anomaly_threshold : Q := 1 # 2.
Definition fingerprint_threshold : Q := 80 # 1.
Definition fingerprint_timeout : Z := 30.
Definition access_token_expire_minutes : Z := 1440.

End Settings.

(** ** app/blockchain/service.py: the hash-chained ledger *)

Module Ledger.

Record Transaction := {
  from_user : string;
  to_user : string;
  amount : Q;
  transaction_type : string;
  tx_timestamp : string;
  transaction_id : string
}.

Record Block := {
  index : Z;
  timestamp : string;
  transactions : list Transaction;
  previous_hash : string;
  nonce : Z;
  hash : string
}.

(** The dictionary [calculate_hash] serialises: the block without its
    [hash] field. *)
Record BlockDict := {
  d_index : Z;
  d_timestamp : string;
  d_transactions : list Transaction;
  d_previous_hash : string;
  d_nonce : Z
}.

(** [json.dumps(_, sort_keys=True)] and [hashlib.sha256(_).hexdigest()]. *)
Class Hashlib := {
  json_dumps : BlockDict -> string;
  sha256_hexdigest : string -> string
}.

Record Blockchain := {
  chain : list Block;
  pending_transactions : list Transaction;
  mining_reward : Q;
  difficulty : Z
}.

(** The clock readings of one [mine_pending_transactions] call:
    [datetime.utcnow()] as an ISO string for the reward transaction and for
    the block, and [int(datetime.utcnow().timestamp() * 1000)]. *)
Record MineClock := {
  reward_time : string;
  reward_millis : Z;
  block_time : string
}.

Definition set_nonce (b : Block) (n : Z) : Block :=
  {| index := index b; timestamp := timestamp b; transactions := transactions b;
     previous_hash := previous_hash b; nonce := n; hash := hash b |}.

Definition set_hash (b : Block) (h : string) : Block :=
  {| index := index b; timestamp := timestamp b; transactions := transactions b;
     previous_hash := previous_hash b; nonce := nonce b; hash := h |}.

Definition set_transactions (b : Block) (txs : list Transaction) : Block :=
  {| index := index b; timestamp := timestamp b; transactions := txs;
     previous_hash := previous_hash b; nonce := nonce b; hash := hash b |}.

Definition set_amount (t : Transaction) (a : Q) : Transaction :=
  {| from_user := from_user t; to_user := to_user t; amount := a;
     transaction_type := transaction_type t; tx_timestamp := tx_timestamp t;
     transaction_id := transaction_id t |}.

Definition set_chain (bc : Blockchain) (c : list Block) : Blockchain :=
  {| chain := c; pending_transactions := pending_transactions bc;
     mining_reward := mining_reward bc; difficulty := difficulty bc |}.

Definition set_pending (bc : Blockchain) (p : list Transaction) : Blockchain :=
  {| chain := chain bc; pending_transactions := p;
     mining_reward := mining_reward bc; difficulty := difficulty bc |}.

(** The dictionary [get_blockchain_info] returns. *)
Record BlockchainInfo := {
  total_blocks : Z;
  total_transactions : Z;
  info_pending_transactions : Z;
  info_difficulty : Z;
  info_mining_reward : Q;
  is_valid : bool
}.

Section WithHashlib.
Context `{Hashlib}.

Definition calculate_hash (block : Block) : string :=
  sha256_hexdigest
    (json_dumps {| d_index := index block; d_timestamp := timestamp block;
                   d_transactions := transactions block;
                   d_previous_hash := previous_hash block; d_nonce := nonce block |}).

(** [block.hash[:difficulty] != "0" * difficulty] is false. *)
Definition has_prefix (d : Z) (h : string) : bool :=
  String.eqb (Py.slice_to h d) (Py.str_mul "0" d).

Definition create_genesis_block (bc : Blockchain) (now : string) : Blockchain :=
  let genesis_block :=
    {| index := 0; timestamp := now; transactions := []; previous_hash := "0";
       nonce := 0; hash := EmptyString |} in
  let genesis_block := set_hash genesis_block (calculate_hash genesis_block) in
  set_chain bc (chain bc ++ [genesis_block]).

(** [Blockchain.__init__]. *)
Definition init (now : string) : Blockchain :=
  create_genesis_block
    {| chain := []; pending_transactions := [];
       mining_reward := Settings.mining_reward;
       difficulty := Settings.blockchain_difficulty |} now.

Definition get_latest_block (bc : Blockchain) : option Block := last (chain bc).

Definition _validate_transaction (bc : Blockchain) (transaction : Transaction) : bool :=
  if negb (Py.truthy (from_user transaction)
           && Py.truthy (to_user transaction)
           && Py.Qgtb (amount transaction) 0
           && Py.truthy (transaction_id transaction))
  then false
  else
    negb (existsb (fun block =>
            existsb (fun tx => String.eqb (transaction_id tx) (transaction_id transaction))
                    (transactions block))
          (chain bc)).

Definition add_transaction (bc : Blockchain) (transaction : Transaction) : bool * Blockchain :=
  if negb (_validate_transaction bc transaction) then (false, bc)
  else (true, set_pending bc (pending_transactions bc ++ [transaction])).

(** The [while] loop of [mine_block]; [None] when [fuel] iterations do not
    reach a hash with the prefix. *)
Fixpoint mine_block (fuel : nat) (d : Z) (block : Block) : option Block :=
  if has_prefix d (hash block) then Some block
  else
    match fuel with
    | O => None
    | S fuel' =>
        let block := set_nonce block (nonce block + 1) in
        let block := set_hash block (calculate_hash block) in
        mine_block fuel' d block
    end.

Definition reward_transaction (bc : Blockchain) (mining_reward_address : string)
    (clock : MineClock) : Transaction :=
  {| from_user := "system"; to_user := mining_reward_address;
     amount := mining_reward bc; transaction_type := "mining_reward";
     tx_timestamp := reward_time clock;
     transaction_id := "reward_" ++ Py.str_of_int (reward_millis clock) |}.

(** [mine_pending_transactions]: the outer [option] is [None] when the
    mining loop does not end within [fuel] iterations; the inner one is the
    method's [Optional[Block]]. *)
Definition mine_pending_transactions (fuel : nat) (bc : Blockchain)
    (mining_reward_address : string) (clock : MineClock)
    : option (option Block * Blockchain) :=
  match pending_transactions bc with
  | [] => Some (None, bc)
  | _ :: _ =>
      match get_latest_block bc with
      | None => Some (None, bc)
      | Some latest =>
          let new_block :=
            {| index := Z.of_nat (List.length (chain bc)); timestamp := block_time clock;
               transactions := pending_transactions bc
                                 ++ [reward_transaction bc mining_reward_address clock];
               previous_hash := hash latest; nonce := 0; hash := EmptyString |} in
          match mine_block fuel (difficulty bc) new_block with
          | None => None
          | Some new_block =>
              Some (Some new_block, set_pending (set_chain bc (chain bc ++ [new_block])) [])
          end
      end
  end.

(** The loop of [is_chain_valid] from index [i] on, [previous_block] being
    [chain[i - 1]]. *)
Fixpoint is_chain_valid_from (d : Z) (previous_block : Block) (rest : list Block) : bool :=
  match rest with
  | [] => true
  | current_block :: rest' =>
      if negb (String.eqb (hash current_block) (calculate_hash current_block)) then false
      else if negb (String.eqb (previous_hash current_block) (hash previous_block)) then false
      else if negb (has_prefix d (hash current_block)) then false
      else is_chain_valid_from d current_block rest'
  end.

Definition is_chain_valid (bc : Blockchain) : bool :=
  match chain bc with
  | [] => true
  | genesis :: rest => is_chain_valid_from (difficulty bc) genesis rest
  end.

(** [BlockchainService.add_transaction]: append, then mine when five
    transactions are pending. *)
Definition service_add_transaction (fuel : nat) (bc : Blockchain)
    (from to : string) (amt : Q) (ty id now : string) (clock : MineClock)
    : option (bool * Blockchain) :=
  let transaction :=
    {| from_user := from; to_user := to; amount := amt; transaction_type := ty;
       tx_timestamp := now; transaction_id := id |} in
  let '(success, bc1) := add_transaction bc transaction in
  if success && (5 <=? Z.of_nat (List.length (pending_transactions bc1))) then
    match mine_pending_transactions fuel bc1 "system" clock with
    | None => None
    | Some (_, bc2) => Some (success, bc2)
    end
  else Some (success, bc1).

(** [BlockchainService.mine_block]: the reward goes to the default
    address. *)
Definition service_mine_block (fuel : nat) (bc : Blockchain) (clock : MineClock)
    : option (option Block * Blockchain) :=
  mine_pending_transactions fuel bc "system" clock.

(** [get_blockchain_info], which [get_blockchain_stats] returns as it is. *)
Definition get_blockchain_info (bc : Blockchain) : BlockchainInfo :=
  {| total_blocks := Z.of_nat (List.length (chain bc));
     total_transactions :=
       fold_right Z.add 0
         (map (fun block => Z.of_nat (List.length (transactions block))) (chain bc));
     info_pending_transactions := Z.of_nat (List.length (pending_transactions bc));
     info_difficulty := difficulty bc;
     info_mining_reward := mining_reward bc;
     is_valid := is_chain_valid bc |}.

(** *** Properties of a chain, as the design states them *)

(** For all [i > 0]: [chain[i].previous_hash == chain[i-1].hash] and
    [chain[i].hash == H(chain[i])]. *)
Definition chain_linked (c : list Block) : Prop :=
  forall i cur prev, c !! S i = Some cur -> c !! i = Some prev ->
    previous_hash cur = hash prev /\ hash cur = calculate_hash cur.

(** A block is sealed when its stored hash is the hash of its content. *)
Definition sealed (b : Block) : Prop := hash b = calculate_hash b.

(** What the mining loop leaves untouched. *)
Definition same_content (b b' : Block) : Prop :=
  index b' = index b /\ timestamp b' = timestamp b
  /\ transactions b' = transactions b /\ previous_hash b' = previous_hash b.

(** What every ledger built by the operations satisfies. *)
Definition ledger_inv (bc : Blockchain) : Prop :=
  0 < difficulty bc /\ chain bc <> [] /\ chain_linked (chain bc).

(** The three checks on the block at index [i]: its recomputed hash is its
    stored hash, its [previous_hash] is the hash of the block before it, and
    its hash has [d] leading zero characters. *)
Definition block_checks (d : Z) (c : list Block) (i : nat) : Prop :=
  forall cur, c !! i = Some cur ->
    hash cur = calculate_hash cur
    /\ (forall prev, (0 < i)%nat -> c !! (i - 1)%nat = Some prev ->
          previous_hash cur = hash prev)
    /\ has_prefix d (hash cur) = true.

(** The checks on every block of the chain, the genesis block included. *)
Definition every_block_checks (bc : Blockchain) : Prop :=
  forall i, block_checks (difficulty bc) (chain bc) i.

(** The checks on every block after the genesis block. *)
Definition every_later_block_checks (bc : Blockchain) : Prop :=
  forall i, (0 < i)%nat -> block_checks (difficulty bc) (chain bc) i.

(** The amount of transaction [k] of block [i] overwritten after sealing:
    the stored hash is left as it was. *)
Definition tamper_block (b : Block) (k : nat) (a : Q) : Block :=
  set_transactions b (alter (fun t => set_amount t a) k (transactions b)).

Definition tamper (bc : Blockchain) (i k : nat) (a : Q) : Blockchain :=
  set_chain bc (alter (fun b => tamper_block b k a) i (chain bc)).

(** What [_validate_transaction] asks of the transaction itself. *)
Definition well_formed (t : Transaction) : Prop :=
  from_user t <> EmptyString /\ to_user t <> EmptyString
  /\ (0 < amount t)%Q /\ transaction_id t <> EmptyString.

(** The id is carried by a transaction of a committed block. *)
Definition on_chain (bc : Blockchain) (id : string) : Prop :=
  exists b t, In b (chain bc) /\ In t (transactions b) /\ transaction_id t = id.

(** Block [i] carries the index [i]. *)
Definition numbered (c : list Block) : Prop :=
  forall i b, c !! i = Some b -> index b = Z.of_nat i.

(** Every block after the first has [d] leading zero characters. *)
Definition mined_after_genesis (d : Z) (c : list Block) : Prop :=
  forall i b, (0 < i)%nat -> c !! i = Some b -> has_prefix d (hash b) = true.

(** The transactions of a block that came from the pending buffer: all but
    the reward appended last. *)
Definition submitted (b : Block) : list Transaction :=
  removelast (transactions b).

(** No submitted transaction repeats an id of an earlier block, and no
    pending one repeats an id of the chain. *)
Definition ids_fresh (bc : Blockchain) : Prop :=
  (forall i j bi bj ti tj, (i < j)%nat ->
     chain bc !! i = Some bi -> chain bc !! j = Some bj ->
     In ti (transactions bi) -> In tj (submitted bj) ->
     transaction_id ti <> transaction_id tj)
  /\ (forall b t p, In b (chain bc) -> In t (transactions b) ->
        In p (pending_transactions bc) -> transaction_id t <> transaction_id p).

End WithHashlib.

(** One operation of the ledger and the states it links. *)
Inductive step `{Hashlib} : Blockchain -> Blockchain -> Prop :=
| step_add bc tx :
    step bc (snd (add_transaction bc tx))
| step_mine bc fuel addr clock r bc' :
    mine_pending_transactions fuel bc addr clock = Some (r, bc') ->
    step bc bc'.

Inductive reachable `{Hashlib} (now : string) : Blockchain -> Prop :=
| reach_init : reachable now (init now)
| reach_step bc bc' : reachable now bc -> step bc bc' -> reachable now bc'.

(** One call on [BlockchainService]: [add_transaction], which mines when
    five transactions are pending, or [mine_block]. *)
Inductive service_step `{Hashlib} : Blockchain -> Blockchain -> Prop :=
| service_add bc fuel from to amt ty id now clock ok bc' :
    service_add_transaction fuel bc from to amt ty id now clock = Some (ok, bc') ->
    service_step bc bc'
| service_mine bc fuel clock r bc' :
    service_mine_block fuel bc clock = Some (r, bc') ->
    service_step bc bc'.

Inductive service_reachable `{Hashlib} (now : string) : Blockchain -> Prop :=
| service_init : service_reachable now (init now)
| service_next bc bc' :
    service_reachable now bc -> service_step bc bc' -> service_reachable now bc'.

(** Two entries of a transaction list carry the same transaction id. *)
Definition duplicate_ids (txs : list Transaction) : Prop :=
  exists i j t1 t2, i <> j /\ txs !! i = Some t1 /\ txs !! j = Some t2
                    /\ transaction_id t1 = transaction_id t2.

End Ledger.

(** ** The serialisation [calculate_hash] hashes, made concrete *)

Module Json.

Definition quote : string := String "034"%char EmptyString.

Definition hex2 (n : Z) : string := Sha256.hex_of_word 2 n.

(** One character of a JSON string under [ensure_ascii=True]; a byte above
    127 is read as the code point of that number. *)
Definition escape_char (c : ascii) : string :=
  let n := Z.of_N (N_of_ascii c) in
  if n =? 34 then "\" ++ quote
  else if n =? 92 then "\\"
  else if n =? 10 then "\n"
  else if n =? 13 then "\r"
  else if n =? 9 then "\t"
  else if n =? 8 then "\b"
  else if n =? 12 then "\f"
  else if (n <? 32) || (127 <? n) then "\u00" ++ hex2 n
  else String c EmptyString.

Definition dumps_str (s : string) : string :=
  quote ++ String.concat EmptyString (map escape_char (list_ascii_of_string s)) ++ quote.

Definition dumps_int (n : Z) : string := Py.str_of_int n.

Fixpoint frac_digits (fuel : nat) (r d : Z) : string :=
  match fuel with
  | O => EmptyString
  | S fuel' =>
      if r =? 0 then EmptyString
      else Py.str_of_int (r * 10 / d) ++ frac_digits fuel' (r * 10 mod d) d
  end.

(** [repr] of a float whose value is a short terminating decimal of
    magnitude between 1e-4 and 1e16, the range where Python prints the plain
    decimal. *)
Definition dumps_float (q : Q) : string :=
  let n := Z.abs (Qnum q) in
  let d := Z.pos (Qden q) in
  let digits := frac_digits 17 (n mod d) d in
  (if Qnum q <? 0 then "-" else EmptyString)
    ++ Py.str_of_int (n / d) ++ "."
    ++ (if String.eqb digits EmptyString then "0" else digits).

Definition key (k : string) : string := quote ++ k ++ quote ++ ": ".

Definition dumps_transaction (t : Ledger.Transaction) : string :=
  "{" ++ key "amount" ++ dumps_float (Ledger.amount t)
      ++ ", " ++ key "from_user" ++ dumps_str (Ledger.from_user t)
      ++ ", " ++ key "timestamp" ++ dumps_str (Ledger.tx_timestamp t)
      ++ ", " ++ key "to_user" ++ dumps_str (Ledger.to_user t)
      ++ ", " ++ key "transaction_id" ++ dumps_str (Ledger.transaction_id t)
      ++ ", " ++ key "transaction_type" ++ dumps_str (Ledger.transaction_type t)
      ++ "}".

Definition dumps_block (b : Ledger.BlockDict) : string :=
  "{" ++ key "index" ++ dumps_int (Ledger.d_index b)
      ++ ", " ++ key "nonce" ++ dumps_int (Ledger.d_nonce b)
      ++ ", " ++ key "previous_hash" ++ dumps_str (Ledger.d_previous_hash b)
      ++ ", " ++ key "timestamp" ++ dumps_str (Ledger.d_timestamp b)
      ++ ", " ++ key "transactions" ++ "["
      ++ String.concat ", " (map dumps_transaction (Ledger.d_transactions b))
      ++ "]}".

(** hashlib and json as the source calls them. *)
Definition python_hashlib : Ledger.Hashlib :=
  {| Ledger.json_dumps := dumps_block; Ledger.sha256_hexdigest := Sha256.hexdigest |}.

End Json.

(** ** app/ai/service.py: feature extraction and anomaly scoring *)

Module Ai.

Local Open Scope Q_scope.

(** A timestamp string as [datetime.fromisoformat] reads it: either it
    denotes an instant (microseconds since the epoch) or parsing raises. *)
Inductive IsoString :=
| Iso (t : Z)
| NotIso.

Definition fromisoformat (s : IsoString) : option Z :=
  match s with
  | Iso t => Some t
  | NotIso => None
  end.

Definition hour (t : Z) : Z := ((t / 3600000000) mod 24)%Z.
Definition weekday (t : Z) : Z := ((t / 86400000000 + 3) mod 7)%Z.

(** [timedelta.total_seconds()] of a difference in microseconds. *)
Definition total_seconds (delta : Z) : Q := delta # 1000000.

(** The transaction dictionary; a field is [None] when its key is absent. *)
Record TransactionDict := {
  transaction_id : option string;
  amount : option Q;
  timestamp : option IsoString
}.

(** An entry of [user_history]. *)
Record HistoryDict := {
  h_amount : option Q;
  h_timestamp : option IsoString
}.

(** [d.get(key, default)]. *)
Definition get {A : Type} (field : option A) (default : A) : A :=
  match field with
  | Some v => v
  | None => default
  end.

(** numpy and [str] on floats: the parts whose values are not rational
    functions of the input. *)
Class Numerics := {
  log1p : Q -> Q;
  std : list Q -> Q;
  int_part_len : Q -> Z
}.

(** A fitted or unfitted [IsolationForest]: [None] is a raised exception
    (not fitted, or an input of the wrong width). *)
Record IsolationForest := {
  decision_function : list Q -> option Q;
  predict : list Q -> option Z
}.

(** [_train_with_basic_data]: the model fitted on the seeded synthetic
    data, or [None] when fitting raises (the method then only logs). *)
Class Sklearn := {
  fit_basic_data : IsolationForest -> option IsolationForest
}.

Record AnomalyDetectionService := {
  model : IsolationForest;
  is_trained : bool;
  contamination : Q;
  threshold : Q
}.

Record AnomalyResult := {
  r_transaction_id : option string;
  anomaly_score : Q;
  is_anomalous : bool;
  risk_factors : list string;
  model_prediction : string
}.

Definition Qsum (l : list Q) : Q := fold_right Qplus 0 l.
Definition len {A : Type} (l : list A) : Q := inject_Z (Z.of_nat (List.length l)).
Definition mean (l : list Q) : Q := Qsum l / len l.

Fixpoint insert_sorted {A : Type} (leb : A -> A -> bool) (x : A) (l : list A) : list A :=
  match l with
  | [] => [x]
  | y :: l' => if leb x y then x :: l else y :: insert_sorted leb x l'
  end.

Definition sorted {A : Type} (leb : A -> A -> bool) (l : list A) : list A :=
  fold_right (insert_sorted leb) [] l.

Definition median (l : list Q) : Q :=
  let s := sorted Qle_bool l in
  let n := List.length s in
  if Nat.even n
  then (nth (n / 2 - 1) s 0 + nth (n / 2) s 0) / 2
  else nth (n / 2) s 0.

Definition maximum (l : list Q) : Q :=
  match l with
  | [] => 0
  | x :: l' => fold_left (fun m y => if Py.Qgtb y m then y else m) l' x
  end.

Definition minimum (l : list Q) : Q :=
  match l with
  | [] => 0
  | x :: l' => fold_left (fun m y => if Py.Qltb y m then y else m) l' x
  end.

(** [[(ts[i] - ts[i-1]).total_seconds() for i in range(1, len(ts))]]. *)
Fixpoint gaps (ts : list Z) : list Q :=
  match ts with
  | t0 :: ((t1 :: _) as rest) => total_seconds (t1 - t0) :: gaps rest
  | _ => []
  end.

(** The timestamps of the history that parse; the others are skipped. *)
Definition parsed_timestamps (user_history : list HistoryDict) : list Z :=
  omap (fun tx => fromisoformat (get (h_timestamp tx) NotIso)) user_history.

Definition zeros (n : nat) : list Q := repeat 0 n.

(** [round(x, ndigits)]: to the nearest multiple of [10^-ndigits], halves
    to the even neighbour. *)
Definition round_half_even (x : Q) : Z :=
  let f := Qfloor x in
  match Qcompare (x - inject_Z f) (1 # 2) with
  | Lt => f
  | Gt => (f + 1)%Z
  | Eq => if Z.even f then f else (f + 1)%Z
  end.

Definition round (x : Q) (ndigits : nat) : Q :=
  let scale := Z.to_pos (10 ^ Z.of_nat ndigits) in
  Qmake (round_half_even (x * inject_Z (Z.pos scale))) scale.

Section WithLibraries.
Context `{Numerics} `{Sklearn}.

(** The velocity loop: one history entry folded into
    [(last_hour_count, last_day_count, last_hour_amount, last_day_amount)]. *)
Definition velocity_step (current_time : Z) (acc : Q * Q * Q * Q) (tx : HistoryDict)
    : Q * Q * Q * Q :=
  let '(last_hour_count, last_day_count, last_hour_amount, last_day_amount) := acc in
  match fromisoformat (get (h_timestamp tx) NotIso) with
  | None => acc
  | Some tx_time =>
      let time_diff := total_seconds (current_time - tx_time) in
      let '(last_hour_count, last_hour_amount) :=
        if Qle_bool time_diff 3600
        then (last_hour_count + 1, last_hour_amount + get (h_amount tx) 0)
        else (last_hour_count, last_hour_amount) in
      let '(last_day_count, last_day_amount) :=
        if Qle_bool time_diff 86400
        then (last_day_count + 1, last_day_amount + get (h_amount tx) 0)
        else (last_day_count, last_day_amount) in
      (last_hour_count, last_day_count, last_hour_amount, last_day_amount)
  end.

(** The [try] block of [extract_features]; [None] when it raises. [now] is
    the clock reading that stands in for a missing timestamp. *)
Definition extract_features_try (transaction : TransactionDict)
    (user_history : list HistoryDict) (now : Z) : option (list Q) :=
  let amount := get (amount transaction) 0 in
  match fromisoformat (get (timestamp transaction) (Iso now)) with
  | None => None
  | Some current_time =>
      let features :=
        [amount; log1p amount; inject_Z (int_part_len amount);
         inject_Z (hour current_time); inject_Z (weekday current_time)] in
      let features : list Q :=
        (features ++
        match user_history with
        | _ :: _ =>
            let amounts := map (fun tx => get (h_amount tx) 0) user_history in
            ([len amounts; mean amounts;
              if (1 <? List.length amounts)%nat then std amounts else 0;
              median amounts; maximum amounts; minimum amounts]
             ++
            match parsed_timestamps user_history with
            | (_ :: _) as timestamps =>
                let timestamps := sorted Z.leb timestamps in
                let time_diffs := gaps timestamps in
                match time_diffs with
                | [] => [0; 0; 0]
                | _ :: _ =>
                    [mean time_diffs;
                     if (1 <? List.length time_diffs)%nat then std time_diffs else 0;
                     len (List.filter (fun td => Py.Qltb td 300) time_diffs)
                       / len time_diffs]
                end
            | [] => [0; 0; 0]
            end)%list
        | [] => [0; 0; 0; 0; 0; 0; 0; 0; 0]
        end)%list in
      let '(last_hour_count, last_day_count, last_hour_amount, last_day_amount) :=
        fold_left (velocity_step current_time) user_history (0, 0, 0, 0) in
      Some (features ++ [last_hour_count; last_day_count; last_hour_amount; last_day_amount])%list
  end.

(** [extract_features]: the row of the returned array. *)
Definition extract_features (transaction : TransactionDict)
    (user_history : list HistoryDict) (now : Z) : list Q :=
  match extract_features_try transaction user_history now with
  | Some features => features
  | None => zeros 23
  end.

(** [if not self.is_trained: await self._train_with_basic_data()]. *)
Definition ensure_trained (svc : AnomalyDetectionService) : AnomalyDetectionService :=
  if is_trained svc then svc
  else
    match fit_basic_data (model svc) with
    | Some fitted =>
        {| model := fitted; is_trained := true;
           contamination := contamination svc; threshold := threshold svc |}
    | None => svc
    end.

(** The history entries less than 300 seconds before [tx_time]; [None]
    when one timestamp does not parse (the comprehension raises). *)
Fixpoint recent_transactions (tx_time : Z) (user_history : list HistoryDict)
    : option (list HistoryDict) :=
  match user_history with
  | [] => Some []
  | tx :: rest =>
      match fromisoformat (get (h_timestamp tx) NotIso) with
      | None => None
      | Some ts =>
          match recent_transactions tx_time rest with
          | None => None
          | Some recent =>
              if Py.Qltb (total_seconds (tx_time - ts)) 300
              then Some (tx :: recent) else Some recent
          end
      end
  end.

(** The "Rapid transactions" stage: skipped for an empty history, [None]
    when the comprehension raises. *)
Definition rapid_stage (tx_time : Z) (user_history : list HistoryDict)
    (risk_factors : list string) (normalized_score : Q) : option (list string * Q) :=
  if (0 <? List.length user_history)%nat
  then
    match recent_transactions tx_time user_history with
    | None => None
    | Some recent =>
        if (3 <? List.length recent)%nat
        then Some ((risk_factors ++ ["rapid_transactions"%string])%list,
                   normalized_score + (2 # 10))
        else Some (risk_factors, normalized_score)
    end
  else Some (risk_factors, normalized_score).

(** The [try] block of [check_transaction_anomaly] after the model has been
    made ready; [None] when a step raises. *)
Definition check_try (svc : AnomalyDetectionService) (transaction : TransactionDict)
    (user_history : list HistoryDict) (now : Z) : option AnomalyResult :=
  let features := extract_features transaction user_history now in
  match decision_function (model svc) features with
  | None => None
  | Some anomaly_score =>
      match predict (model svc) features with
      | None => None
      | Some label =>
          let is_outlier := (label =? -1)%Z in
          let normalized_score := Qmax 0 (Qmin 1 (((1 # 2) - anomaly_score) / 1)) in
          let amount := get (amount transaction) 0 in
          let risk_factors : list string := [] in
          let '(risk_factors, normalized_score) :=
            if Py.Qgtb amount 5000
            then ((risk_factors ++ ["large_amount"%string])%list, normalized_score + (2 # 10))
            else (risk_factors, normalized_score) in
          let '(risk_factors, normalized_score) :=
            if (List.length user_history =? 0)%nat && Py.Qgtb amount 1000
            then ((risk_factors ++ ["new_user_large_amount"%string])%list,
                  normalized_score + (3 # 10))
            else (risk_factors, normalized_score) in
          match fromisoformat (get (timestamp transaction) (Iso now)) with
          | None => None
          | Some tx_time =>
              let '(risk_factors, normalized_score) :=
                if (hour tx_time <? 6)%Z || (23 <? hour tx_time)%Z
                then ((risk_factors ++ ["unusual_time"%string])%list, normalized_score + (1 # 10))
                else (risk_factors, normalized_score) in
              match rapid_stage tx_time user_history risk_factors normalized_score with
              | None => None
              | Some (risk_factors, normalized_score) =>
                  let normalized_score := Qmin 1 normalized_score in
                  let is_anomalous :=
                    Py.Qgtb normalized_score (threshold svc) || is_outlier in
                  Some {| r_transaction_id := transaction_id transaction;
                          anomaly_score := round normalized_score 4;
                          is_anomalous := is_anomalous;
                          risk_factors := risk_factors;
                          model_prediction :=
                            if is_outlier then "outlier"%string else "normal"%string |}
              end
          end
      end
  end.

(** The result built by the [except] branch. *)
Definition analysis_error (transaction : TransactionDict) : AnomalyResult :=
  {| r_transaction_id := transaction_id transaction;
     anomaly_score := 0;
     is_anomalous := false;
     risk_factors := ["analysis_error"%string];
     model_prediction := "error"%string |}.

Definition check_transaction_anomaly (svc : AnomalyDetectionService)
    (transaction : TransactionDict) (user_history : list HistoryDict) (now : Z)
    : AnomalyResult * AnomalyDetectionService :=
  let svc := ensure_trained svc in
  match check_try svc transaction user_history now with
  | Some result => (result, svc)
  | None => (analysis_error transaction, svc)
  end.

(** *** The scoring rules, as the design lists them *)

(** The steps of the [try] block that can raise: the two model calls, the
    parse of the transaction's timestamp, the parse of a history timestamp. *)
Definition step_fails (svc : AnomalyDetectionService) (transaction : TransactionDict)
    (user_history : list HistoryDict) (now : Z) : Prop :=
  decision_function (model svc) (extract_features transaction user_history now) = None
  \/ predict (model svc) (extract_features transaction user_history now) = None
  \/ fromisoformat (get (timestamp transaction) (Iso now)) = None
  \/ exists tx, In tx user_history /\ fromisoformat (get (h_timestamp tx) NotIso) = None.

Definition clamp01 (x : Q) : Q := Qmax 0 (Qmin 1 x).

(** The fixed linear map of the raw decision value into [0, 1]. *)
Definition normalize (decision : Q) : Q := clamp01 ((1 # 2) - decision).

Definition large_amount_rule (amount : Q) : bool := Py.Qgtb amount 5000.

Definition new_user_rule (user_history : list HistoryDict) (amount : Q) : bool :=
  (List.length user_history =? 0)%nat && Py.Qgtb amount 1000.

(** The normal-activity window is the hours 6 to 23. *)
Definition unusual_time_rule (tx_time : Z) : bool :=
  (hour tx_time <? 6)%Z || (23 <? hour tx_time)%Z.

(** A history timestamp counts as recent when it lies less than 300 seconds
    before the transaction (any later one does too). *)
Definition is_recent (tx_time ts : Z) : bool :=
  Py.Qltb (total_seconds (tx_time - ts)) 300.

Definition rapid_rule (tx_time : Z) (user_history : list HistoryDict) : bool :=
  (3 <? List.length (List.filter (is_recent tx_time) (parsed_timestamps user_history)))%nat.

Definition adjustment (rule : bool) (bonus : Q) : Q := if rule then bonus else 0.

Definition tag (rule : bool) (name : string) : list string := if rule then [name] else [].

(** The normalized model score plus the adjustments whose rule holds,
    clamped to [0, 1]. *)
Definition adjusted_score (decision amount : Q) (user_history : list HistoryDict)
    (tx_time : Z) : Q :=
  clamp01 (normalize decision
           + adjustment (large_amount_rule amount) (2 # 10)
           + adjustment (new_user_rule user_history amount) (3 # 10)
           + adjustment (unusual_time_rule tx_time) (1 # 10)
           + adjustment (rapid_rule tx_time user_history) (2 # 10)).

Definition expected_tags (amount : Q) (user_history : list HistoryDict) (tx_time : Z)
    : list string :=
  (tag (large_amount_rule amount) "large_amount"
   ++ tag (new_user_rule user_history amount) "new_user_large_amount"
   ++ tag (unusual_time_rule tx_time) "unusual_time"
   ++ tag (rapid_rule tx_time user_history) "rapid_transactions")%list.

End WithLibraries.

(** [AnomalyDetectionService.__init__] given the unfitted estimator. *)
Definition new_service (unfitted : IsolationForest) : AnomalyDetectionService :=
  {| model := unfitted; is_trained := false;
     contamination := Settings.anomaly_contamination;
     threshold := Settings.anomaly_threshold |}.

End Ai.

(** ** app/main_enhanced.py: the in-memory orchestrator

    The WebSocket broadcast that ends a transfer only sends messages and
    drops dead connections; it touches none of the stores below and is
    left out. *)

Module Enhanced.

Local Open Scope Q_scope.

Inductive TransactionStatus :=
| DRAFT
| AUTHORIZED
| CONFIRMED
| DECLINED_RISK
| DECLINED_FUNDS
| DECLINED_LIMIT.

(** A value of [users_db]. [credit_mode], [credit_limit] and [credit_used]
    are read with [.get], so they may be absent. *)
Record User := {
  balance : Q;
  credit_mode : option bool;
  credit_limit : option Q;
  credit_used : option Q;
  total_transactions : Z;
  first_name : string;
  last_name : string
}.

Record P2PPaymentRequest := {
  to_user : string;
  amount : Q;
  description : option string;
  fingerprint_data : string;
  nonce : string;
  idempotency_key : string
}.

(** An element of [transactions_db]. *)
Record Transaction := {
  transaction_id : string;
  from_user : string;
  t_to_user : string;
  t_amount : Q;
  t_description : option string;
  transaction_type : string;
  status : TransactionStatus;
  created_at : Z;
  blockchain_recorded : bool;
  ai_fraud_score : Q;
  t_credit_used : bool;
  ledger_hash : option string
}.

(** An element of [blockchain_db]. *)
Record LedgerBlock := {
  block_id : Z;
  b_timestamp : Z;
  b_transaction : Transaction;
  b_hash : string
}.

(** The module-level stores. *)
Record State := {
  users_db : gmap string User;
  transactions_db : list Transaction;
  fingerprints_db : gmap string string;
  blockchain_db : list LedgerBlock;
  nonce_cache : gmap string Z;
  idempotency_cache : gmap string string
}.

Inductive Message :=
| AlreadyProcessed
| PaymentComplete (amount : Q) (first_name last_name : string).

Record PaymentResponse := {
  success : bool;
  r_transaction_id : string;
  message : Message;
  new_balance : option Q;
  recipient_name : option string;
  fraud_detected : bool;
  fraud_score : option Q;
  r_credit_used : bool;
  r_ledger_hash : option string
}.

Inductive Outcome :=
| HTTPException (status_code : Z) (detail : string) (error_code : option string)
| Returned (r : PaymentResponse).

(** What one request reads from outside the stores: [datetime.utcnow()],
    [datetime.now().hour] and [uuid.uuid4().hex[:16]]. *)
Record Env := {
  utcnow : Z;
  local_hour : Z;
  uuid_hex : string
}.

(** [hashlib.sha256(json.dumps(transaction_data, sort_keys=True))] inside
    [add_to_blockchain]; [None] when the [try] block raises. *)
Class TxDigest := {
  tx_digest : Transaction -> option string
}.

Definition set_balance (u : User) (b : Q) : User :=
  {| balance := b; credit_mode := credit_mode u; credit_limit := credit_limit u;
     credit_used := credit_used u; total_transactions := total_transactions u;
     first_name := first_name u; last_name := last_name u |}.

Definition set_credit_used (u : User) (c : Q) : User :=
  {| balance := balance u; credit_mode := credit_mode u; credit_limit := credit_limit u;
     credit_used := Some c; total_transactions := total_transactions u;
     first_name := first_name u; last_name := last_name u |}.

Definition incr_total (u : User) : User :=
  {| balance := balance u; credit_mode := credit_mode u; credit_limit := credit_limit u;
     credit_used := credit_used u; total_transactions := (total_transactions u + 1)%Z;
     first_name := first_name u; last_name := last_name u |}.

Definition set_ledger_hash (t : Transaction) (h : string) : Transaction :=
  {| transaction_id := transaction_id t; from_user := from_user t;
     t_to_user := t_to_user t; t_amount := t_amount t;
     t_description := t_description t; transaction_type := transaction_type t;
     status := status t; created_at := created_at t;
     blockchain_recorded := blockchain_recorded t;
     ai_fraud_score := ai_fraud_score t; t_credit_used := t_credit_used t;
     ledger_hash := Some h |}.

Definition set_users (st : State) (u : gmap string User) : State :=
  {| users_db := u; transactions_db := transactions_db st;
     fingerprints_db := fingerprints_db st; blockchain_db := blockchain_db st;
     nonce_cache := nonce_cache st; idempotency_cache := idempotency_cache st |}.

Definition set_transactions (st : State) (t : list Transaction) : State :=
  {| users_db := users_db st; transactions_db := t;
     fingerprints_db := fingerprints_db st; blockchain_db := blockchain_db st;
     nonce_cache := nonce_cache st; idempotency_cache := idempotency_cache st |}.

Definition set_blockchain (st : State) (b : list LedgerBlock) : State :=
  {| users_db := users_db st; transactions_db := transactions_db st;
     fingerprints_db := fingerprints_db st; blockchain_db := b;
     nonce_cache := nonce_cache st; idempotency_cache := idempotency_cache st |}.

Definition set_nonce_cache (st : State) (n : gmap string Z) : State :=
  {| users_db := users_db st; transactions_db := transactions_db st;
     fingerprints_db := fingerprints_db st; blockchain_db := blockchain_db st;
     nonce_cache := n; idempotency_cache := idempotency_cache st |}.

Definition set_idempotency (st : State) (i : gmap string string) : State :=
  {| users_db := users_db st; transactions_db := transactions_db st;
     fingerprints_db := fingerprints_db st; blockchain_db := blockchain_db st;
     nonce_cache := nonce_cache st; idempotency_cache := i |}.

Definition generate_transaction_id (env : Env) : string := ("tx_" ++ uuid_hex env)%string.

Definition verify_fingerprint (stored_fp provided_fp : string) : bool * Q :=
  let similarity := if String.eqb stored_fp provided_fp then 95 # 100 else 2 # 10 in
  (Py.Qgtb similarity (8 # 10), similarity).

Definition detect_fraud (user_id : string) (amount : Q)
    (transaction_history : list Transaction) (current_hour : Z) : bool * Q :=
  let fraud_score := 0 in
  let fraud_score := if Py.Qgtb amount 1000 then fraud_score + (3 # 10) else fraud_score in
  let recent_transactions :=
    List.filter (fun tx => String.eqb (from_user tx) user_id) transaction_history in
  let fraud_score :=
    if (5 <? List.length recent_transactions)%nat
    then fraud_score + (2 # 10) else fraud_score in
  let fraud_score :=
    if (current_hour <? 6)%Z || (23 <? current_hour)%Z
    then fraud_score + (1 # 10) else fraud_score in
  (Py.Qgtb fraud_score (5 # 10), fraud_score).

(** Nonces live five minutes: 300 000 000 microseconds. *)
Definition nonce_ttl : Z := 300000000.

(** [get_nonce] once [generate_nonce] has produced [n]. *)
Definition get_nonce (st : State) (n : string) (now : Z) : State :=
  set_nonce_cache st (<[n := now]> (nonce_cache st)).

Definition validate_nonce (cache : gmap string Z) (n : string) (now : Z)
    : bool * gmap string Z :=
  match cache !! n with
  | None => (false, cache)
  | Some issued =>
      if (nonce_ttl <? now - issued)%Z then (false, delete n cache)
      else (true, delete n cache)
  end.

Definition check_idempotency (st : State) (key : string) : option string :=
  idempotency_cache st !! key.

Definition store_idempotency (st : State) (key transaction_id : string) : State :=
  set_idempotency st (<[key := transaction_id]> (idempotency_cache st)).

(** What [blockchain_db] holds along a run: block ids counting from one,
    each block carrying a confirmed transaction of [transactions_db] whose
    [ledger_hash] is the hash of the block. *)
Definition ledger_consistent (st : State) : Prop :=
  forall i b, blockchain_db st !! i = Some b ->
    block_id b = (Z.of_nat i + 1)%Z
    /\ status (b_transaction b) = CONFIRMED
    /\ ledger_hash (b_transaction b) = Some (b_hash b)
    /\ In (b_transaction b) (transactions_db st).

(** The record of a declined payment and the error code returned with it. *)
Definition declined_as (t : Transaction) (error_code : option string) : Prop :=
  (status t = DECLINED_RISK /\ error_code = Some "FRAUD_DETECTED"%string)
  \/ (status t = DECLINED_FUNDS /\ error_code = Some "INSUFFICIENT_FUNDS"%string)
  \/ (status t = DECLINED_LIMIT /\ error_code = Some "CREDIT_LIMIT_EXCEEDED"%string).

Section WithDigest.
Context `{TxDigest}.

(** [add_to_blockchain]: the hash returned and the new [blockchain_db];
    the stored block shares the transaction dictionary, so [stored] is the
    dictionary as it stands when the request ends. *)
Definition add_to_blockchain (db : list LedgerBlock) (transaction_data stored : Transaction)
    (now : Z) : string * list LedgerBlock :=
  match tx_digest transaction_data with
  | Some h =>
      (h, (db ++ [{| block_id := (Z.of_nat (List.length db) + 1)%Z; b_timestamp := now;
                     b_transaction := stored; b_hash := h |}])%list)
  | None => (EmptyString, db)
  end.

Definition declined (payment_data : P2PPaymentRequest) (sender_id : string)
    (st : TransactionStatus) (fraud_score : Q) (env : Env) : Transaction :=
  {| transaction_id := generate_transaction_id env; from_user := sender_id;
     t_to_user := to_user payment_data; t_amount := amount payment_data;
     t_description := description payment_data; transaction_type := "p2p";
     status := st; created_at := utcnow env; blockchain_recorded := false;
     ai_fraud_score := fraud_score; t_credit_used := false; ledger_hash := None |}.

(** The tail of [p2p_payment] from the comment "Process payment" on. *)
Definition process_payment (st : State) (payment_data : P2PPaymentRequest)
    (idempotency_key sender_id : string) (new_balance fraud_score : Q)
    (credit_used : bool) (env : Env) : Outcome * State :=
  let tx_id := generate_transaction_id env in
  let users := alter (fun sender => set_balance sender new_balance) sender_id (users_db st) in
  let users := alter incr_total sender_id users in
  let users :=
    alter (fun recipient => set_balance recipient (balance recipient + amount payment_data))
          (to_user payment_data) users in
  let users := alter incr_total (to_user payment_data) users in
  let transaction :=
    {| transaction_id := tx_id; from_user := sender_id;
       t_to_user := to_user payment_data; t_amount := amount payment_data;
       t_description := description payment_data; transaction_type := "p2p";
       status := CONFIRMED; created_at := utcnow env; blockchain_recorded := true;
       ai_fraud_score := fraud_score; t_credit_used := credit_used;
       ledger_hash := None |} in
  let h := fst (add_to_blockchain (blockchain_db st) transaction transaction (utcnow env)) in
  let stored := set_ledger_hash transaction h in
  let chain := snd (add_to_blockchain (blockchain_db st) transaction stored (utcnow env)) in
  let st := set_users st users in
  let st := set_transactions st (transactions_db st ++ [stored])%list in
  let st := set_blockchain st chain in
  let st := store_idempotency st idempotency_key tx_id in
  let names :=
    match users !! to_user payment_data with
    | Some recipient => (first_name recipient, last_name recipient)
    | None => (EmptyString, EmptyString)
    end in
  (Returned {| success := true; r_transaction_id := tx_id;
               message := PaymentComplete (amount payment_data) (fst names) (snd names);
               new_balance := Some new_balance;
               recipient_name := Some (fst names ++ " " ++ snd names)%string;
               fraud_detected := false; fraud_score := Some fraud_score;
               r_credit_used := credit_used; r_ledger_hash := Some h |},
   st).

Definition decline (st : State) (payment_data : P2PPaymentRequest) (sender_id : string)
    (status : TransactionStatus) (fraud_score : Q) (env : Env)
    (detail code : string) : Outcome * State :=
  (HTTPException 400 detail (Some code),
   set_transactions st
     (transactions_db st ++ [declined payment_data sender_id status fraud_score env])%list).

Definition sender_id : string := "user_12345".

(** The rejection of a nonce. *)
Definition invalid_nonce : Outcome :=
  HTTPException 400 "Invalid or expired nonce" (Some "INVALID_NONCE"%string).

(** [p2p_payment] from the comment "Validate nonce" on. *)
Definition authorize_and_pay (st : State) (payment_data : P2PPaymentRequest)
    (idempotency_key : string) (env : Env) : Outcome * State :=
  let '(valid, cache) := validate_nonce (nonce_cache st) (nonce payment_data) (utcnow env) in
  let st := set_nonce_cache st cache in
  if negb valid then (invalid_nonce, st)
  else
    match users_db st !! to_user payment_data with
    | None => (HTTPException 404 "Recipient not found" (Some "RECIPIENT_NOT_FOUND"%string), st)
    | Some _ =>
        match users_db st !! sender_id with
        | None => (HTTPException 404 "Sender not found" None, st)
        | Some sender =>
            match fingerprints_db st !! sender_id with
            | None => (HTTPException 400 "Fingerprint not enrolled" None, st)
            | Some stored_fp =>
                let '(is_match, confidence) :=
                  verify_fingerprint stored_fp (fingerprint_data payment_data) in
                if negb is_match then
                  (HTTPException 401 "Fingerprint authentication failed"
                     (Some "AUTH_FAILED"%string), st)
                else
                  let transaction_history :=
                    List.filter (fun tx => String.eqb (from_user tx) sender_id)
                                (transactions_db st) in
                  let '(is_fraudulent, fraud_score) :=
                    detect_fraud sender_id (amount payment_data) transaction_history
                                 (local_hour env) in
                  if is_fraudulent then
                    decline st payment_data sender_id DECLINED_RISK fraud_score env
                            "Transaction flagged for fraud" "FRAUD_DETECTED"
                  else
                    let new_balance := balance sender - amount payment_data in
                    if Py.Qltb new_balance 0 then
                      if negb (Ai.get (credit_mode sender) false) then
                        decline st payment_data sender_id DECLINED_FUNDS fraud_score env
                                "Insufficient funds" "INSUFFICIENT_FUNDS"
                      else
                        let credit_limit := Ai.get (credit_limit sender) 0 in
                        if Py.Qgtb (Qabs new_balance) credit_limit then
                          decline st payment_data sender_id DECLINED_LIMIT fraud_score env
                                  "Credit limit exceeded" "CREDIT_LIMIT_EXCEEDED"
                        else
                          let st :=
                            set_users st
                              (alter (fun s => set_credit_used s (Qabs new_balance))
                                     sender_id (users_db st)) in
                          process_payment st payment_data idempotency_key sender_id
                                          new_balance fraud_score true env
                    else
                      process_payment st payment_data idempotency_key sender_id
                                      new_balance fraud_score false env
            end
        end
    end.

(** The response of the idempotency short-circuit. *)
Definition already_processed (st : State) (payment_data : P2PPaymentRequest)
    (existing_tx_id : string) : PaymentResponse :=
  {| success := true; r_transaction_id := existing_tx_id;
     message := AlreadyProcessed;
     new_balance :=
       Some (match users_db st !! to_user payment_data with
             | Some u => balance u
             | None => 0
             end);
     recipient_name := None; fraud_detected := false;
     fraud_score := None; r_credit_used := false; r_ledger_hash := None |}.

Definition p2p_payment (st : State) (payment_data : P2PPaymentRequest)
    (idempotency_key : string) (env : Env) : Outcome * State :=
  match check_idempotency st idempotency_key with
  | Some existing_tx_id =>
      if Py.truthy existing_tx_id
      then (Returned (already_processed st payment_data existing_tx_id), st)
      else authorize_and_pay st payment_data idempotency_key env
  | None => authorize_and_pay st payment_data idempotency_key env
  end.

(** *** Requests against the stores *)

(** The two endpoints that touch the nonce and idempotency stores:
    [get_nonce], with the nonce [generate_nonce] produced, and [p2p_payment]. *)
Inductive Request :=
| GetNonce (n : string) (now : Z)
| PostP2P (payment_data : P2PPaymentRequest) (idempotency_key : string) (env : Env).

Definition handle (st : State) (r : Request) : State :=
  match r with
  | GetNonce n now => get_nonce st n now
  | PostP2P payment_data idempotency_key env =>
      snd (p2p_payment st payment_data idempotency_key env)
  end.



(** The response is that of an executed transfer, not of a replay. *)
Definition executed (r : PaymentResponse) : Prop := message r <> AlreadyProcessed.

End WithDigest.

End Enhanced.

(** ** app/payments/router.py: the orchestrator over the stored collections

    The realtime broadcast after a transfer is non-fatal and touches no
    collection; it is left out. *)

Module Payments.

Local Open Scope Q_scope.

(** A document of the users collection; only the fields the payment flow
    reads or writes to move funds are kept. *)
Record UserDoc := {
  user_id : string;
  first_name : string;
  last_name : string;
  balance : Q
}.

(** A document of the transactions collection. *)
Record TransactionDoc := {
  transaction_id : string;
  from_user : string;
  to_user : string;
  amount : Q;
  description : option string;
  transaction_type : string;
  status : string;
  anomaly_score : Q;
  is_flagged : bool;
  created_at : Z;
  processed_at : option Z;
  blockchain_recorded : option bool
}.

Record P2PPaymentRequest := {
  p_to_user : string;
  p_amount : Q;
  p_description : option string;
  p_fingerprint_data : string
}.

Inductive Message :=
| FlaggedForReview
| SentSuccessfully (amount : Q) (first_name last_name : string).

Record PaymentResponse := {
  success : bool;
  r_transaction_id : string;
  message : Message;
  balance_after : option Q;
  recipient_name : option string;
  anomaly_flagged : bool;
  r_anomaly_score : option Q;
  r_blockchain_recorded : bool
}.

Inductive Outcome :=
| HTTPException (status_code : Z) (detail : string)
| Returned (r : PaymentResponse).

(** The answer of the biometric matcher for this request; decoding the
    stored template may raise. *)
Inductive AuthAnswer :=
| AuthRaises
| AuthNoMatch
| AuthMatch.

(** The collections (a fingerprint document is kept as the user id it
    belongs to), the ledger service and the anomaly service. *)
Record State := {
  users : list UserDoc;
  transactions : list TransactionDoc;
  fingerprints : list string;
  ledger : Ledger.Blockchain;
  anomaly_service : Ai.AnomalyDetectionService
}.

(** What one request reads from outside the stores. *)
Record Env := {
  uuid_hex : string;
  utcnow : Z;
  utcnow_iso : string;
  auth : AuthAnswer;
  mine_clock : Ledger.MineClock
}.

(** The cursor of [find({"$or": [{"from_user": id}, {"to_user": id}]})]
    over the transactions collection, as the storage backend answers it. *)
Class Storage := {
  find_by_party : list TransactionDoc -> string -> list TransactionDoc
}.

(** [find_one({"user_id": id})]: the first matching document. *)
Fixpoint find_one (docs : list UserDoc) (id : string) : option UserDoc :=
  match docs with
  | [] => None
  | u :: rest => if String.eqb (user_id u) id then Some u else find_one rest id
  end.

Definition set_balance (u : UserDoc) (b : Q) : UserDoc :=
  {| user_id := user_id u; first_name := first_name u; last_name := last_name u;
     balance := b |}.

(** [update_one({"user_id": id}, {"$set": {"balance": b, ...}})]: the first
    matching document is changed. *)
Fixpoint update_one (docs : list UserDoc) (id : string) (b : Q) : list UserDoc :=
  match docs with
  | [] => []
  | u :: rest =>
      if String.eqb (user_id u) id then set_balance u b :: rest
      else u :: update_one rest id b
  end.

Definition set_users (st : State) (u : list UserDoc) : State :=
  {| users := u; transactions := transactions st; fingerprints := fingerprints st;
     ledger := ledger st; anomaly_service := anomaly_service st |}.

Definition insert_one (st : State) (t : TransactionDoc) : State :=
  {| users := users st; transactions := (transactions st ++ [t])%list;
     fingerprints := fingerprints st; ledger := ledger st;
     anomaly_service := anomaly_service st |}.

Definition set_ledger (st : State) (l : Ledger.Blockchain) : State :=
  {| users := users st; transactions := transactions st; fingerprints := fingerprints st;
     ledger := l; anomaly_service := anomaly_service st |}.

Definition set_anomaly_service (st : State) (a : Ai.AnomalyDetectionService) : State :=
  {| users := users st; transactions := transactions st; fingerprints := fingerprints st;
     ledger := ledger st; anomaly_service := a |}.

Definition generate_transaction_id (env : Env) : string := ("tx_" ++ uuid_hex env)%string.

Definition history_entry (tx : TransactionDoc) : Ai.HistoryDict :=
  {| Ai.h_amount := Some (amount tx); Ai.h_timestamp := Some (Ai.Iso (created_at tx)) |}.

Section WithLibraries.
Context `{Ledger.Hashlib} `{Ai.Numerics} `{Ai.Sklearn} `{Storage}.

(** The history handed to the scorer: at most 50 entries. *)
Definition user_history (st : State) (sender_user_id : string) : list Ai.HistoryDict :=
  map history_entry (firstn 50 (find_by_party (transactions st) sender_user_id)).

(** The transaction dictionary handed to the scorer. *)
Definition scored_transaction (payment_request : P2PPaymentRequest) (env : Env)
    : Ai.TransactionDict :=
  {| Ai.transaction_id := Some (generate_transaction_id env);
     Ai.amount := Some (p_amount payment_request);
     Ai.timestamp := Some (Ai.Iso (utcnow env)) |}.

Definition pending_transaction (sender_user_id : string) (payment_request : P2PPaymentRequest)
    (anomaly_result : Ai.AnomalyResult) (env : Env) : TransactionDoc :=
  {| transaction_id := generate_transaction_id env; from_user := sender_user_id;
     to_user := p_to_user payment_request; amount := p_amount payment_request;
     description := p_description payment_request; transaction_type := "p2p";
     status := "pending"; anomaly_score := Ai.anomaly_score anomaly_result;
     is_flagged := Ai.is_anomalous anomaly_result; created_at := utcnow env;
     processed_at := None; blockchain_recorded := None |}.

Definition set_status (t : TransactionDoc) (s : string) : TransactionDoc :=
  {| transaction_id := transaction_id t; from_user := from_user t; to_user := to_user t;
     amount := amount t; description := description t;
     transaction_type := transaction_type t; status := s;
     anomaly_score := anomaly_score t; is_flagged := is_flagged t;
     created_at := created_at t; processed_at := processed_at t;
     blockchain_recorded := blockchain_recorded t |}.

Definition finalize (t : TransactionDoc) (now : Z) (recorded : bool) : TransactionDoc :=
  {| transaction_id := transaction_id t; from_user := from_user t; to_user := to_user t;
     amount := amount t; description := description t;
     transaction_type := transaction_type t; status := "completed";
     anomaly_score := anomaly_score t; is_flagged := is_flagged t;
     created_at := created_at t; processed_at := Some now;
     blockchain_recorded := Some recorded |}.

(** [process_p2p_payment]. [current_user] is the document the token
    resolved to. The result is [None] only when the ledger's mining loop
    does not end within [fuel] iterations. *)
Definition process_p2p_payment (fuel : nat) (st : State) (payment_request : P2PPaymentRequest)
    (current_user : UserDoc) (env : Env) : option (Outcome * State) :=
  let sender_user_id := user_id current_user in
  if negb (existsb (String.eqb sender_user_id) (fingerprints st))
  then Some (HTTPException 400 "Fingerprint not enrolled", st)
  else
    match auth env with
    | AuthRaises => Some (HTTPException 500 "Payment processing failed", st)
    | AuthNoMatch => Some (HTTPException 401 "Fingerprint authentication failed", st)
    | AuthMatch =>
        let sender_balance := balance current_user in
        if Py.Qltb sender_balance (p_amount payment_request) then
          Some (HTTPException 400 "Insufficient funds", st)
        else
          match find_one (users st) (p_to_user payment_request) with
          | None => Some (HTTPException 404 "Recipient not found", st)
          | Some recipient =>
              let transaction_id := generate_transaction_id env in
              let '(anomaly_result, svc) :=
                Ai.check_transaction_anomaly (anomaly_service st)
                  (scored_transaction payment_request env)
                  (user_history st sender_user_id) (utcnow env) in
              let st := set_anomaly_service st svc in
              let transaction :=
                pending_transaction sender_user_id payment_request anomaly_result env in
              if Ai.is_anomalous anomaly_result then
                Some (Returned {| success := false; r_transaction_id := transaction_id;
                        message := FlaggedForReview;
                        balance_after := None; recipient_name := None;
                        anomaly_flagged := true;
                        r_anomaly_score := Some (Ai.anomaly_score anomaly_result);
                        r_blockchain_recorded := false |},
                      insert_one st (set_status transaction "flagged"))
              else
                let new_sender_balance := sender_balance - p_amount payment_request in
                let new_recipient_balance := balance recipient + p_amount payment_request in
                let st := set_users st (update_one (users st) sender_user_id new_sender_balance) in
                let st :=
                  set_users st (update_one (users st) (p_to_user payment_request)
                                           new_recipient_balance) in
                match Ledger.service_add_transaction fuel (ledger st) sender_user_id
                        (p_to_user payment_request) (p_amount payment_request) "p2p"
                        transaction_id (utcnow_iso env) (mine_clock env) with
                | None => None
                | Some (blockchain_success, chain) =>
                    let st := set_ledger st chain in
                    let st :=
                      insert_one st (finalize transaction (utcnow env) blockchain_success) in
                    Some (Returned {| success := true; r_transaction_id := transaction_id;
                            message :=
                              SentSuccessfully (p_amount payment_request)
                                (first_name recipient) (last_name recipient);
                            balance_after := Some new_sender_balance;
                            recipient_name :=
                              Some (first_name recipient ++ " " ++ last_name recipient)%string;
                            anomaly_flagged := false;
                            r_anomaly_score := Some (Ai.anomaly_score anomaly_result);
                            r_blockchain_recorded := blockchain_success |},
                          st)
                end
          end
    end.

(** The request passes authentication, the balance check and the recipient
    lookup, so it reaches the fraud screen. *)
Definition reaches_fraud_screen (st : State) (payment_request : P2PPaymentRequest)
    (current_user : UserDoc) (env : Env) : Prop :=
  existsb (String.eqb (user_id current_user)) (fingerprints st) = true
  /\ auth env = AuthMatch
  /\ Py.Qltb (balance current_user) (p_amount payment_request) = false
  /\ exists recipient, find_one (users st) (p_to_user payment_request) = Some recipient.

End WithLibraries.

End Payments.

(** ** app/database.py: the in-memory collections

    The stand-in used when no MongoDB is configured. [aggregate], whose
    [$group] stage prints values with [str], is left out. *)

Module Database.

Local Set Warnings "-register-all".

(** The values of documents, filters and updates. *)
Inductive Value :=
| VNone
| VBool (b : bool)
| VNum (x : Q)
| VStr (s : string)
| VDatetime (t : Z)
| VList (l : list Value)
| VDict (d : list (string * Value)).

(** A dictionary that the code iterates: its items in insertion order. *)
Definition Dict := list (string * Value).

(** A stored document: looked up and updated by key, never iterated. *)
Abbreviation Document := (gmap string Value).

(** Python's operators on values. [None] is a raised [TypeError]; [a != b]
    is the negation of [a == b] and [a not in b] that of [a in b]. *)
Class Operators := {
  eq : Value -> Value -> bool;
  lt : Value -> Value -> option bool;
  le : Value -> Value -> option bool;
  gt : Value -> Value -> option bool;
  ge : Value -> Value -> option bool;
  contains : Value -> Value -> option bool;
  add : Value -> Value -> option Value
}.

(** The update dictionary of [update_one]: the payloads under [$set] and
    [$inc], when these keys are present, and the other keys. *)
Record UpdateDict := {
  u_set : option Dict;
  u_inc : option Dict;
  u_fields : Dict
}.

Record MockCollection := {
  name : string;
  data : list Document
}.

Record MockCursor := {
  c_data : list Document;
  c_index : nat
}.

Definition set_data (c : MockCollection) (d : list Document) : MockCollection :=
  {| name := name c; data := d |}.

(** [d[key]] for an iterated dictionary with distinct keys. *)
Fixpoint dict_get (key : string) (d : Dict) : option Value :=
  match d with
  | [] => None
  | (k, v) :: rest => if String.eqb k key then Some v else dict_get key rest
  end.

(** [item.update(d)]. *)
Definition update (item : Document) (d : Dict) : Document :=
  fold_left (fun acc kv => <[fst kv := snd kv]> acc) d item.

(** [not filter_dict] for an optional filter. *)
Definition falsy (filter_dict : option Dict) : bool :=
  match filter_dict with
  | None | Some [] => true
  | Some (_ :: _) => false
  end.

Section WithOperators.
Context `{Operators}.

(** The inner loop of [_matches_filter] over the operators of one key:
    [Some false] when a test returns [False], [Some true] when the loop
    ends, [None] when a comparison raises. *)
Fixpoint check_operators (item_value : Value) (ops : Dict) : option bool :=
  match ops with
  | [] => Some true
  | (op, op_value) :: rest =>
      let continue := check_operators item_value rest in
      let test (holds : option bool) :=
        match holds with
        | None => None
        | Some true => Some false
        | Some false => continue
        end in
      if String.eqb op "$gte" then test (lt item_value op_value)
      else if String.eqb op "$lte" then test (gt item_value op_value)
      else if String.eqb op "$gt" then test (le item_value op_value)
      else if String.eqb op "$lt" then test (ge item_value op_value)
      else if String.eqb op "$ne" then test (Some (eq item_value op_value))
      else if String.eqb op "$in"
      then test (option_map negb (contains item_value op_value))
      else continue
  end.

Fixpoint _matches_filter (item : Document) (filter_dict : Dict) : option bool :=
  match filter_dict with
  | [] => Some true
  | (key, value) :: rest =>
      match item !! key with
      | None => Some false
      | Some item_value =>
          match value with
          | VDict ops =>
              match check_operators item_value ops with
              | None => None
              | Some false => Some false
              | Some true => _matches_filter item rest
              end
          | _ =>
              if negb (eq item_value value) then Some false
              else _matches_filter item rest
          end
      end
  end.

(** The first item that matches, as the loops of [find_one], [update_one]
    and [delete_one] search it: the items before it, the item, the items
    after it. The outer [None] is a raised exception. *)
Fixpoint first_match (items : list Document) (filter_dict : Dict)
    : option (option (list Document * Document * list Document)) :=
  match items with
  | [] => Some None
  | item :: rest =>
      match _matches_filter item filter_dict with
      | None => None
      | Some true => Some (Some ([], item, rest))
      | Some false =>
          match first_match rest filter_dict with
          | None => None
          | Some None => Some None
          | Some (Some (before, found, after)) => Some (Some (item :: before, found, after))
          end
      end
  end.

(** [[item for item in self.data if self._matches_filter(item, filter)]]. *)
Fixpoint matching (items : list Document) (filter_dict : Dict) : option (list Document) :=
  match items with
  | [] => Some []
  | item :: rest =>
      match _matches_filter item filter_dict with
      | None => None
      | Some keep =>
          match matching rest filter_dict with
          | None => None
          | Some found => Some (if keep then item :: found else found)
          end
      end
  end.

Definition find_one (c : MockCollection) (filter_dict : option Dict)
    : option (option Document) :=
  match filter_dict with
  | Some ((_ :: _) as f) =>
      match first_match (data c) f with
      | None => None
      | Some None => Some None
      | Some (Some (_, item, _)) => Some (Some item)
      end
  | _ => Some (head (data c))
  end.

Definition find (c : MockCollection) (filter_dict : option Dict) : option MockCursor :=
  match filter_dict with
  | Some ((_ :: _) as f) =>
      match matching (data c) f with
      | None => None
      | Some filtered_data => Some {| c_data := filtered_data; c_index := 0 |}
      end
  | _ => Some {| c_data := data c; c_index := 0 |}
  end.

Definition count_documents (c : MockCollection) (filter_dict : option Dict) : option Z :=
  match filter_dict with
  | Some ((_ :: _) as f) =>
      match matching (data c) f with
      | None => None
      | Some found => Some (Z.of_nat (List.length found))
      end
  | _ => Some (Z.of_nat (List.length (data c)))
  end.

(** [insert_one]: the document stored and the id returned. [uuid] is
    [str(uuid.uuid4())], [now] is [datetime.utcnow()]. *)
Definition stored_document (document : Document) (uuid : string) (now : Z) : Document :=
  let doc := document in
  let doc := match doc !! "_id" with
             | None => <["_id" := VStr uuid]> doc
             | Some _ => doc
             end in
  match doc !! "created_at" with
  | None => <["created_at" := VDatetime now]> doc
  | Some _ => doc
  end.

Definition insert_one (c : MockCollection) (document : Document) (uuid : string) (now : Z)
    : option Value * MockCollection :=
  let doc := stored_document document uuid now in
  (doc !! "_id", set_data c (data c ++ [doc])).

(** The loop over [update_dict["$inc"].items()]: the item as the loop
    leaves it, and whether an addition raised. *)
Fixpoint increment (item : Document) (increments : Dict) : Document * bool :=
  match increments with
  | [] => (item, false)
  | (key, value) :: rest =>
      match add (default (VNum 0) (item !! key)) value with
      | None => (item, true)
      | Some total => increment (<[key := total]> item) rest
      end
  end.

(** The body of [update_one] for the item that matched. *)
Definition apply_update (item : Document) (update_dict : UpdateDict) (now : Z)
    : Document * bool :=
  let '(item, raised) :=
    match u_set update_dict, u_inc update_dict with
    | Some payload, _ => (update item payload, false)
    | None, Some increments => increment item increments
    | None, None => (update item (u_fields update_dict), false)
    end in
  if raised then (item, true)
  else (<["updated_at" := VDatetime now]> item, false).

(** [update_one]: [modified_count], or [None] when the call raises, and
    the collection as the call leaves it. *)
Definition update_one (c : MockCollection) (filter_dict : Dict) (update_dict : UpdateDict)
    (now : Z) : option Z * MockCollection :=
  match first_match (data c) filter_dict with
  | None => (None, c)
  | Some None => (Some 0, c)
  | Some (Some (before, item, after)) =>
      let '(item, raised) := apply_update item update_dict now in
      (if raised then None else Some 1, set_data c (before ++ item :: after))
  end.

(** [delete_one]: [deleted_count], or [None] when the call raises. *)
Definition delete_one (c : MockCollection) (filter_dict : Dict)
    : option Z * MockCollection :=
  match first_match (data c) filter_dict with
  | None => (None, c)
  | Some None => (Some 0, c)
  | Some (Some (before, _, after)) => (Some 1, set_data c (before ++ after))
  end.

End WithOperators.

(** [MockCursor.to_list(length)]: a [length] of [None] or 0 is falsy and
    gives the whole list. *)
Definition to_list (cursor : MockCursor) (length : option Z) : list Document :=
  match length with
  | None => c_data cursor
  | Some n =>
      if n =? 0 then c_data cursor
      else if 0 <? n then firstn (Z.to_nat n) (c_data cursor)
      else firstn (List.length (c_data cursor) - Z.to_nat (- n)) (c_data cursor)
  end.

(** [MockCursor.__anext__]: the next document, or [None] for
    [StopAsyncIteration]. *)
Definition __anext__ (cursor : MockCursor) : option Document * MockCursor :=
  match c_data cursor !! c_index cursor with
  | None => (None, cursor)
  | Some result => (Some result, {| c_data := c_data cursor; c_index := S (c_index cursor) |})
  end.

(** [MockDatabase.__getitem__]: the collection of that name, created empty
    on first use. *)
Definition MockDatabase := gmap string MockCollection.

Definition __getitem__ (db : MockDatabase) (collection_name : string)
    : MockCollection * MockDatabase :=
  match db !! collection_name with
  | Some c => (c, db)
  | None =>
      let c := {| name := collection_name; data := [] |} in
      (c, <[collection_name := c]> db)
  end.

(** The query of the payment router for the transactions of one party. *)
Definition party_query (id : string) : Dict :=
  [("$or", VList [VDict [("from_user", VStr id)]; VDict [("to_user", VStr id)]])].

End Database.

(** ** The payment router's history query over the in-memory collection *)

Module InMemory.

(** [find({"$or": [{"from_user": id}, {"to_user": id}]})] answered by a
    [MockCollection] whose documents are [document_of] the transactions:
    the transactions whose document the filter accepts. (The filter holds
    one plain value, so matching it compares with [!=] only and does not
    raise.) *)
Definition storage `{Database.Operators}
    (document_of : Payments.TransactionDoc -> Database.Document) : Payments.Storage :=
  {| Payments.find_by_party :=
       fun txs id =>
         List.filter
           (fun tx =>
              match Database._matches_filter (document_of tx) (Database.party_query id) with
              | Some true => true
              | _ => false
              end)
           txs |}.

End InMemory.

(** ** app/auth/biometric.py: the simulated fingerprint matcher

    The OpenCV objects are never used by the simulation and are left out.
    [encode_fingerprint_template] and [decode_fingerprint_template] only
    call json and base64; the routers take them as an interface. A
    template is the dictionary [decode_fingerprint_template] hands back. *)

Module Biometric.

Local Open Scope Q_scope.

Record QualityMetrics := {
  clarity : Q;
  uniqueness : Q;
  completeness : Q
}.

(** The [features] dictionary; it is read with [.get], so a key may be
    absent. *)
Record Features := {
  keypoints_count : option Z;
  descriptor_hash : option string;
  quality_metrics : option QualityMetrics
}.

(** The empty dictionary that stands for missing features. *)
Definition no_features : Features :=
  {| keypoints_count := None; descriptor_hash := None; quality_metrics := None |}.

Record Template := {
  t_user_id : string;
  enrolled_at : Z;
  features : option Features;
  quality_score : Q;
  template_version : string
}.

(** A value of [session_cache]; [user_id] and [expires_at] are read with
    [.get]. *)
Record Session := {
  s_user_id : option string;
  authenticated_at : Z;
  expires_at : option Z;
  similarity_score : Q
}.

Record BiometricAuth := {
  session_cache : gmap string Session
}.

(** What one [authenticate_fingerprint] call reads from outside:
    [random.uniform(-0.05, 0.05)] and, in the order of the calls,
    [int(datetime.utcnow().timestamp())] for the session id and
    [datetime.utcnow()] for [expires_at] and for [authenticated_at]. *)
Record Env := {
  variation : Q;
  session_stamp : Z;
  expires_from : Z;
  authenticated_now : Z
}.

(** [timedelta(minutes=m)] in microseconds. *)
Definition minutes (m : Z) : Z := (m * 60000000)%Z.

(** [sum(1 for a, b in zip(x, y) if a == b)]. *)
Fixpoint common_chars (x y : string) : Z :=
  match x, y with
  | String a x', String b y' => ((if Ascii.eqb a b then 1 else 0) + common_chars x' y')%Z
  | _, _ => 0%Z
  end.

Definition _compare_fingerprint_features (template_features captured_features : Features)
    (variation : Q) : Q :=
  let template_hash := Ai.get (descriptor_hash template_features) EmptyString in
  let captured_hash := Ai.get (descriptor_hash captured_features) EmptyString in
  if negb (Py.truthy template_hash) || negb (Py.truthy captured_hash) then 0
  else
    let base_score :=
      if String.eqb template_hash captured_hash then 95 # 100
      else inject_Z (common_chars template_hash captured_hash)
           / inject_Z (Z.of_nat (String.length template_hash)) in
    Qmax 0 (Qmin 1 (base_score + variation)).

Definition cleanup_expired_sessions (auth : BiometricAuth) (current_time : Z)
    : BiometricAuth :=
  {| session_cache :=
       filter (fun entry => ~ (Ai.get (expires_at (snd entry)) current_time < current_time)%Z)
              (session_cache auth) |}.

Definition is_session_active (auth : BiometricAuth) (user_id : string) (current_time : Z)
    : bool :=
  existsb
    (fun session_data =>
       match s_user_id session_data with
       | Some id => String.eqb id user_id
       | None => false
       end
       && (current_time <=? Ai.get (expires_at session_data) current_time)%Z)
    (map snd (map_to_list (session_cache auth))).

(** [validate_fingerprint_data] on the bytes received. *)
Definition validate_fingerprint_data (fingerprint_data : string) : bool :=
  if negb (Py.truthy fingerprint_data) then false
  else if (String.length fingerprint_data <? 10)%nat then false
  else true.

Section WithHashlib.
Context `{Ledger.Hashlib}.

Definition _extract_features_simulation (user_id : string) (fingerprint_data : string)
    : Features :=
  let base_string := (user_id ++ "_fingerprint_features")%string in
  let feature_hash := Ledger.sha256_hexdigest base_string in
  {| keypoints_count := Some (50 + Z.of_nat (String.length user_id) mod 30)%Z;
     descriptor_hash := Some (Py.slice_to feature_hash 32);
     quality_metrics :=
       Some {| clarity := 85 # 100; uniqueness := 92 # 100; completeness := 88 # 100 |} |}.

(** [enroll_fingerprint]; [now] is [datetime.utcnow()]. *)
Definition enroll_fingerprint (user_id : string) (fingerprint_data : string) (now : Z)
    : Template :=
  {| t_user_id := user_id; enrolled_at := now;
     features := Some (_extract_features_simulation user_id fingerprint_data);
     quality_score := 855 # 10; template_version := "1.0" |}.

Definition authenticate_fingerprint (auth : BiometricAuth) (user_id : string)
    (stored_template : Template) (captured_fingerprint : string) (env : Env)
    : bool * BiometricAuth :=
  let captured_features := _extract_features_simulation user_id captured_fingerprint in
  let similarity_score :=
    _compare_fingerprint_features (Ai.get (features stored_template) no_features)
                                  captured_features (variation env) in
  let threshold := Settings.fingerprint_threshold / 100 in
  let is_match := Qle_bool threshold similarity_score in
  if is_match then
    let session_id :=
      ("bio_session_" ++ user_id ++ "_" ++ Py.str_of_int (session_stamp env))%string in
    let expires_at := (expires_from env + minutes Settings.fingerprint_timeout)%Z in
    (true,
     {| session_cache :=
          <[session_id := {| s_user_id := Some user_id;
                             authenticated_at := authenticated_now env;
                             expires_at := Some expires_at;
                             similarity_score := similarity_score |}]>
            (session_cache auth) |})
  else (false, auth).

End WithHashlib.

End Biometric.

(** ** app/utils/security.py: identifiers and sanitising

    A character of a [string] is read as the code point of its number, so
    the functions below are those of the source on strings of code points
    below 256. The password and token functions only call passlib and
    jose; the routers take them as an interface. *)

Module Security.

(** [c.isspace()], which is also what [str.strip] strips and what [\s]
    matches in a [str] pattern. *)
Definition is_space (c : ascii) : bool :=
  let n := nat_of_ascii c in
  ((9 <=? n) && (n <=? 13) || (28 <=? n) && (n <=? 32) || (n =? 133) || (n =? 160))%nat.

Fixpoint lstrip (s : string) : string :=
  match s with
  | EmptyString => EmptyString
  | String c s' => if is_space c then lstrip s' else s
  end.

Fixpoint rstrip (s : string) : string :=
  match s with
  | EmptyString => EmptyString
  | String c s' =>
      match rstrip s' with
      | EmptyString => if is_space c then EmptyString else String c EmptyString
      | rest => String c rest
      end
  end.

(** [s.strip()]. *)
Definition strip (s : string) : string := rstrip (lstrip s).

(** The characters of [s] that [keep] accepts: [s.replace(c, '')] for a
    single character, [re.sub] of a character class by the empty string. *)
Fixpoint keep_chars (keep : ascii -> bool) (s : string) : string :=
  match s with
  | EmptyString => EmptyString
  | String c s' => if keep c then String c (keep_chars keep s') else keep_chars keep s'
  end.

(** [s.replace(char, '')]. *)
Definition remove_char (char : ascii) (s : string) : string :=
  keep_chars (fun c => negb (Ascii.eqb c char)) s.

Definition dangerous_chars : list ascii :=
  ["<"; ">"; "034"; "'"; "&"; "%"; "$"; "#"; "@"; "!"]%char.

Definition sanitize_input (input_string : string) : string :=
  strip (fold_left (fun acc char => remove_char char acc) dangerous_chars input_string).

(** The generators of user and transaction ids, given [uuid.uuid4().hex]. *)
Definition generate_user_id (hex : string) : string := "user_" ++ Py.slice_to hex 12.
Definition generate_transaction_id (hex : string) : string := "tx_" ++ Py.slice_to hex 16.

End Security.

(** ** app/realtime.py and the broadcast of app/main_enhanced.py

    A WebSocket is the number that identifies the connection object;
    [send_raises i] tells whether the send to the connection at position
    [i] of the list raises. *)

Module Realtime.

Record RealtimeManager := {
  connections : list nat
}.

(** [l.remove(x)]: the first occurrence goes. *)
Fixpoint remove_first (x : nat) (l : list nat) : list nat :=
  match l with
  | [] => []
  | y :: rest => if Nat.eqb y x then rest else y :: remove_first x rest
  end.

Definition connect (mgr : RealtimeManager) (ws : nat) : RealtimeManager :=
  {| connections := connections mgr ++ [ws] |}.

Definition disconnect (mgr : RealtimeManager) (ws : nat) : RealtimeManager :=
  if existsb (Nat.eqb ws) (connections mgr)
  then {| connections := remove_first ws (connections mgr) |}
  else mgr.

(** The connections whose send raises, in the order of the loop. *)
Fixpoint failing (send_raises : nat -> bool) (position : nat) (l : list nat) : list nat :=
  match l with
  | [] => []
  | ws :: rest =>
      if send_raises position then ws :: failing send_raises (S position) rest
      else failing send_raises (S position) rest
  end.

Definition broadcast (mgr : RealtimeManager) (send_raises : nat -> bool) : RealtimeManager :=
  let to_remove := failing send_raises 0 (connections mgr) in
  {| connections :=
       fold_left (fun conns ws => if existsb (Nat.eqb ws) conns
                                  then remove_first ws conns else conns)
                 to_remove (connections mgr) |}.

(** [broadcast_to_websockets] of app/main_enhanced.py: the loop runs over a
    copy of the list and removes from the list itself; [None] when
    [remove] raises because the connection is no longer in the list. *)
Fixpoint send_all (send_raises : nat -> bool) (position : nat) (copy : list nat)
    (websocket_connections : list nat) : option (list nat) :=
  match copy with
  | [] => Some websocket_connections
  | websocket :: rest =>
      if send_raises position then
        if existsb (Nat.eqb websocket) websocket_connections
        then send_all send_raises (S position) rest
               (remove_first websocket websocket_connections)
        else None
      else send_all send_raises (S position) rest websocket_connections
  end.

Definition broadcast_to_websockets (websocket_connections : list nat)
    (send_raises : nat -> bool) : option (list nat) :=
  send_all send_raises 0 websocket_connections websocket_connections.

(** The connections at the positions where the send went through. *)
Fixpoint delivered (send_raises : nat -> bool) (position : nat) (l : list nat) : list nat :=
  match l with
  | [] => []
  | ws :: rest =>
      if send_raises position then delivered send_raises (S position) rest
      else ws :: delivered send_raises (S position) rest
  end.

End Realtime.

(** ** app/auth/router.py: registration and login

    The documents are those of the collections, with the fields the two
    endpoints read or write; a lookup returns the first document that
    carries the value, as [MockCollection.find_one] does. One clock
    reading stands for the [datetime.utcnow()] calls of one request. *)

Module Auth.

Local Open Scope Q_scope.

Record UserDoc := {
  user_id : string;
  first_name : string;
  last_name : string;
  email : string;
  phone_number : string;
  hashed_password : string;
  balance : Q;
  is_active : bool;
  is_verified : bool;
  fingerprint_enrolled : bool;
  total_transactions : Z;
  created_at : Z;
  updated_at : Z
}.

(** A document of the fingerprints collection; [template] is the encoded
    template. *)
Record FingerprintDoc := {
  f_user_id : string;
  template : string;
  enrolled_at : Z;
  last_used : option Z
}.

Record UserCreate := {
  c_first_name : string;
  c_last_name : string;
  c_email : string;
  c_phone_number : string;
  c_password : string;
  c_fingerprint_data : string
}.

Record UserLogin := {
  l_user_id : string;
  l_fingerprint_data : string
}.

(** The [user] dictionary of both responses. *)
Record UserInfo := {
  i_user_id : string;
  i_first_name : string;
  i_last_name : string;
  i_email : string;
  i_balance : Q
}.

(** The response of [register_user]: [success] and [fingerprint_enrolled]
    are [True], [token] and [access_token] are the same token. *)
Record Registered := {
  r_user_id : string;
  r_access_token : string;
  r_user : UserInfo
}.

(** The response of [login_user]. *)
Record LoggedIn := {
  access_token : string;
  token_type : string;
  l_user : UserInfo
}.

Inductive Outcome (A : Type) :=
| HTTPException (status_code : Z) (detail : string)
| Returned (a : A).
Arguments HTTPException {A} status_code detail.
Arguments Returned {A} a.

(** passlib, jose, and json with base64, as the endpoints call them;
    [None] is a raised exception. [create_access_token] takes the claims,
    the lifetime in minutes if one is given, and the clock. *)
Class Libraries := {
  get_password_hash : string -> option string;
  create_access_token : list (string * string) -> option Z -> Z -> option string;
  encode_fingerprint_template : Biometric.Template -> option string;
  decode_fingerprint_template : string -> option Biometric.Template
}.

Record State := {
  users : list UserDoc;
  fingerprints : list FingerprintDoc;
  biometric_auth : Biometric.BiometricAuth
}.

(** What a request reads from outside the collections. *)
Record Env := {
  uuid_hex : string;
  utcnow : Z;
  matcher : Biometric.Env
}.

(** [find_one({key: value})]. *)
Fixpoint find_one {A : Type} (key : A -> string) (docs : list A) (value : string)
    : option A :=
  match docs with
  | [] => None
  | doc :: rest => if String.eqb (key doc) value then Some doc else find_one key rest value
  end.

(** [update_one({key: value}, {"$set": ...})] with the change [f]. *)
Fixpoint update_one {A : Type} (key : A -> string) (docs : list A) (value : string)
    (f : A -> A) : list A :=
  match docs with
  | [] => []
  | doc :: rest =>
      if String.eqb (key doc) value then f doc :: rest
      else doc :: update_one key rest value f
  end.

Definition set_last_used (now : Z) (d : FingerprintDoc) : FingerprintDoc :=
  {| f_user_id := f_user_id d; template := template d; enrolled_at := enrolled_at d;
     last_used := Some now |}.

Definition set_balance (b : Q) (now : Z) (u : UserDoc) : UserDoc :=
  {| user_id := user_id u; first_name := first_name u; last_name := last_name u;
     email := email u; phone_number := phone_number u;
     hashed_password := hashed_password u; balance := b; is_active := is_active u;
     is_verified := is_verified u; fingerprint_enrolled := fingerprint_enrolled u;
     total_transactions := total_transactions u; created_at := created_at u;
     updated_at := now |}.

Definition set_users (st : State) (u : list UserDoc) : State :=
  {| users := u; fingerprints := fingerprints st; biometric_auth := biometric_auth st |}.

Definition set_fingerprints (st : State) (f : list FingerprintDoc) : State :=
  {| users := users st; fingerprints := f; biometric_auth := biometric_auth st |}.

Definition set_biometric_auth (st : State) (a : Biometric.BiometricAuth) : State :=
  {| users := users st; fingerprints := fingerprints st; biometric_auth := a |}.

Definition user_info (u : UserDoc) : UserInfo :=
  {| i_user_id := user_id u; i_first_name := first_name u; i_last_name := last_name u;
     i_email := email u; i_balance := balance u |}.

Section WithLibraries.
Context `{Ledger.Hashlib} `{Libraries}.

Definition register_user (st : State) (user_data : UserCreate) (env : Env)
    : Outcome Registered * State :=
  match find_one email (users st) (c_email user_data) with
  | Some _ => (HTTPException 409 "User with this email already exists", st)
  | None =>
      if negb (Biometric.validate_fingerprint_data (c_fingerprint_data user_data))
      then (HTTPException 400 "Invalid fingerprint data", st)
      else
        let user_id := Security.generate_user_id (uuid_hex env) in
        match get_password_hash (c_password user_data) with
        | None => (HTTPException 500 "Registration failed", st)
        | Some hashed_password =>
            let fingerprint_template :=
              Biometric.enroll_fingerprint user_id (c_fingerprint_data user_data)
                                           (utcnow env) in
            match encode_fingerprint_template fingerprint_template with
            | None =>
                (HTTPException 400 "Failed to enroll fingerprint. Please try again.", st)
            | Some encoded_template =>
                let user_doc :=
                  {| user_id := user_id; first_name := c_first_name user_data;
                     last_name := c_last_name user_data; email := c_email user_data;
                     phone_number := c_phone_number user_data;
                     hashed_password := hashed_password; balance := 1000;
                     is_active := true; is_verified := false;
                     fingerprint_enrolled := true; total_transactions := 0;
                     created_at := utcnow env; updated_at := utcnow env |} in
                let st := set_users st (users st ++ [user_doc]) in
                let fingerprint_doc :=
                  {| f_user_id := user_id; template := encoded_template;
                     enrolled_at := utcnow env; last_used := None |} in
                let st := set_fingerprints st (fingerprints st ++ [fingerprint_doc]) in
                match create_access_token [("sub", user_id)] None (utcnow env) with
                | None => (HTTPException 500 "Registration failed", st)
                | Some access_token =>
                    (Returned {| r_user_id := user_id; r_access_token := access_token;
                                 r_user := user_info user_doc |},
                     st)
                end
            end
        end
  end.

Definition login_user (st : State) (login_data : UserLogin) (env : Env)
    : Outcome LoggedIn * State :=
  match find_one user_id (users st) (l_user_id login_data) with
  | None => (HTTPException 401 "Invalid user ID", st)
  | Some user =>
      if negb (is_active user) then (HTTPException 401 "Account is deactivated", st)
      else
        match find_one f_user_id (fingerprints st) (l_user_id login_data) with
        | None => (HTTPException 401 "Fingerprint not enrolled", st)
        | Some fingerprint_doc =>
            match decode_fingerprint_template (template fingerprint_doc) with
            | None => (HTTPException 500 "Authentication failed", st)
            | Some stored_template =>
                let '(is_authenticated, auth) :=
                  Biometric.authenticate_fingerprint (biometric_auth st)
                    (l_user_id login_data) stored_template
                    (l_fingerprint_data login_data) (matcher env) in
                let st := set_biometric_auth st auth in
                if negb is_authenticated
                then (HTTPException 401 "Fingerprint authentication failed", st)
                else
                  let st :=
                    set_fingerprints st
                      (update_one f_user_id (fingerprints st) (l_user_id login_data)
                                  (set_last_used (utcnow env))) in
                  match create_access_token [("sub", l_user_id login_data)]
                          (Some Settings.access_token_expire_minutes) (utcnow env) with
                  | None => (HTTPException 500 "Authentication failed", st)
                  | Some access_token =>
                      (Returned {| access_token := access_token; token_type := "bearer";
                                   l_user := user_info user |},
                       st)
                  end
            end
        end
  end.

End WithLibraries.

End Auth.

(** ** app/merchant/router.py: payment at a merchant's fingerprint scanner

    [current_merchant] is the document the token resolved to. The
    merchant document leaves out the statistics ([total_transactions],
    [total_revenue], [rating], [verification_documents]): the payment
    moves funds through the two balances. *)

Module Merchant.

Local Open Scope Q_scope.

Record MerchantDoc := {
  merchant_id : string;
  business_name : string;
  owner_name : string;
  m_email : string;
  m_phone_number : string;
  business_address : string;
  business_category : string;
  tax_id : option string;
  m_hashed_password : string;
  m_balance : Q;
  m_is_active : bool;
  m_is_verified : bool;
  m_fingerprint_enrolled : bool;
  m_created_at : Z;
  m_updated_at : Z
}.

(** The transaction dictionary the endpoint stores. *)
Record TransactionDoc := {
  transaction_id : string;
  from_user : string;
  t_merchant_id : string;
  amount : Q;
  description : string;
  transaction_type : string;
  status : string;
  created_at : Z;
  payment_method : string
}.

Record State := {
  accounts : Auth.State;
  merchants : list MerchantDoc;
  transactions : list TransactionDoc;
  ledger : Ledger.Blockchain
}.

(** What one request reads from outside the collections; [matcher i] is
    what the matcher reads when it is tried on the fingerprint document at
    position [i]. *)
Record Env := {
  uuid_hex : string;
  utcnow : Z;
  utcnow_iso : string;
  matcher : nat -> Biometric.Env;
  mine_clock : Ledger.MineClock
}.

(** The two dictionaries the endpoint returns. *)
Inductive Response :=
| InsufficientFunds (user_name : string) (balance : Q)
| Completed (transaction_id user_name : string)
            (amount customer_balance_after merchant_balance_after : Q).

Definition set_m_balance (b : Q) (now : Z) (m : MerchantDoc) : MerchantDoc :=
  {| merchant_id := merchant_id m; business_name := business_name m;
     owner_name := owner_name m; m_email := m_email m;
     m_phone_number := m_phone_number m; business_address := business_address m;
     business_category := business_category m; tax_id := tax_id m;
     m_hashed_password := m_hashed_password m; m_balance := b;
     m_is_active := m_is_active m; m_is_verified := m_is_verified m;
     m_fingerprint_enrolled := m_fingerprint_enrolled m;
     m_created_at := m_created_at m; m_updated_at := now |}.

Definition set_accounts (st : State) (a : Auth.State) : State :=
  {| accounts := a; merchants := merchants st; transactions := transactions st;
     ledger := ledger st |}.

Definition set_merchants (st : State) (m : list MerchantDoc) : State :=
  {| accounts := accounts st; merchants := m; transactions := transactions st;
     ledger := ledger st |}.

Definition set_transactions (st : State) (t : list TransactionDoc) : State :=
  {| accounts := accounts st; merchants := merchants st; transactions := t;
     ledger := ledger st |}.

Definition set_ledger (st : State) (l : Ledger.Blockchain) : State :=
  {| accounts := accounts st; merchants := merchants st; transactions := transactions st;
     ledger := l |}.

Definition user_name (u : Auth.UserDoc) : string :=
  (Auth.first_name u ++ " " ++ Auth.last_name u)%string.

Section WithLibraries.
Context `{Ledger.Hashlib} `{Auth.Libraries}.

(** The loop over the fingerprint documents: [None] when it ends without
    a match, otherwise what [find_one] returned for the matched id; with
    the matcher as the tried documents leave it. *)
Fixpoint match_customer (docs : list Auth.FingerprintDoc) (position : nat)
    (users : list Auth.UserDoc) (auth : Biometric.BiometricAuth)
    (fingerprint_data : string) (matcher : nat -> Biometric.Env)
    : option (option Auth.UserDoc) * Biometric.BiometricAuth :=
  match docs with
  | [] => (None, auth)
  | fingerprint_doc :: rest =>
      let user_id := Auth.f_user_id fingerprint_doc in
      if String.prefix "merchant_" user_id
      then match_customer rest (S position) users auth fingerprint_data matcher
      else
        match Auth.decode_fingerprint_template (Auth.template fingerprint_doc) with
        | None => match_customer rest (S position) users auth fingerprint_data matcher
        | Some stored_template =>
            let '(is_match, auth) :=
              Biometric.authenticate_fingerprint auth user_id stored_template
                                                 fingerprint_data (matcher position) in
            if is_match then (Some (Auth.find_one Auth.user_id users user_id), auth)
            else match_customer rest (S position) users auth fingerprint_data matcher
        end
  end.

(** [capture_customer_fingerprint]. The result is [None] only when the
    ledger's mining loop does not end within [fuel] iterations. *)
Definition capture_customer_fingerprint (fuel : nat) (st : State)
    (fingerprint_data : string) (amount : Q) (description : option string)
    (current_merchant : MerchantDoc) (env : Env)
    : option (Auth.Outcome Response * State) :=
  let '(user_found, auth) :=
    match_customer (Auth.fingerprints (accounts st)) 0
                   (Auth.users (accounts st)) (Auth.biometric_auth (accounts st))
                   fingerprint_data (matcher env) in
  let st := set_accounts st (Auth.set_biometric_auth (accounts st) auth) in
  match user_found with
  | None | Some None => Some (Auth.HTTPException 500 "Payment processing failed", st)
  | Some (Some user_found) =>
      if Py.Qltb (Auth.balance user_found) amount
      then Some (Auth.Returned (InsufficientFunds (user_name user_found)
                                                  (Auth.balance user_found)), st)
      else
        let transaction_id := Security.generate_transaction_id (uuid_hex env) in
        let new_customer_balance := Auth.balance user_found - amount in
        let new_merchant_balance := m_balance current_merchant + amount in
        let st :=
          set_accounts st
            (Auth.set_users (accounts st)
               (Auth.update_one Auth.user_id (Auth.users (accounts st))
                  (Auth.user_id user_found)
                  (Auth.set_balance new_customer_balance (utcnow env)))) in
        let st :=
          set_merchants st
            (Auth.update_one merchant_id (merchants st) (merchant_id current_merchant)
                             (set_m_balance new_merchant_balance (utcnow env))) in
        let transaction :=
          {| transaction_id := transaction_id; from_user := Auth.user_id user_found;
             t_merchant_id := merchant_id current_merchant; amount := amount;
             description :=
               match description with
               | Some text => if Py.truthy text then text
                              else ("Payment to " ++ business_name current_merchant)%string
               | None => ("Payment to " ++ business_name current_merchant)%string
               end;
             transaction_type := "merchant"; status := "completed";
             created_at := utcnow env; payment_method := "usb_fingerprint_scanner" |} in
        let st := set_transactions st (transactions st ++ [transaction]) in
        match Ledger.service_add_transaction fuel (ledger st) (Auth.user_id user_found)
                (merchant_id current_merchant) amount "merchant" transaction_id
                (utcnow_iso env) (mine_clock env) with
        | None => None
        | Some (_, chain) =>
            Some (Auth.Returned (Completed transaction_id (user_name user_found) amount
                                           new_customer_balance new_merchant_balance),
                  set_ledger st chain)
        end
  end.

End WithLibraries.

End Merchant.

(** ** Concrete inputs *)

Module Examples.

Local Open Scope Q_scope.

(** *** A ledger run under the real digest *)

Definition genesis_time : string := "2024-01-01T00:00:00".

Definition alice_pays_bob : Ledger.Transaction :=
  {| Ledger.from_user := "alice"; Ledger.to_user := "bob"; Ledger.amount := 25;
     Ledger.transaction_type := "p2p"; Ledger.tx_timestamp := "2024-01-01T00:01:00";
     Ledger.transaction_id := "tx_1" |}.

(** A second transfer that reuses the id of the first. *)
Definition carol_pays_dave : Ledger.Transaction :=
  {| Ledger.from_user := "carol"; Ledger.to_user := "dave"; Ledger.amount := 40;
     Ledger.transaction_type := "p2p"; Ledger.tx_timestamp := "2024-01-01T00:02:00";
     Ledger.transaction_id := "tx_1" |}.

(** The states of the run, evaluated once. *)
Definition fresh_ledger : Ledger.Blockchain :=
  Eval vm_compute in @Ledger.init Json.python_hashlib genesis_time.

Definition one_pending : Ledger.Blockchain :=
  Eval vm_compute in snd (Ledger.add_transaction fresh_ledger alice_pays_bob).

Definition two_pending : Ledger.Blockchain :=
  Eval vm_compute in snd (Ledger.add_transaction one_pending carol_pays_dave).

(** Clock readings for which the first nonce tried already seals the block
    at difficulty 4. *)
Definition clock_single : Ledger.MineClock :=
  {| Ledger.reward_time := "2024-01-01T00:05:00"; Ledger.reward_millis := 1704067525303;
     Ledger.block_time := "2024-01-01T00:05:00" |}.

Definition clock_double : Ledger.MineClock :=
  {| Ledger.reward_time := "2024-01-01T00:05:00"; Ledger.reward_millis := 1704067545275;
     Ledger.block_time := "2024-01-01T00:05:00" |}.

Definition mined (bc : Ledger.Blockchain) (clock : Ledger.MineClock) : Ledger.Blockchain :=
  match @Ledger.mine_pending_transactions Json.python_hashlib 1 bc "system" clock with
  | Some (_, bc') => bc'
  | None => bc
  end.

Definition mined_single : Ledger.Blockchain :=
  Eval vm_compute in mined one_pending clock_single.

Definition mined_double : Ledger.Blockchain :=
  Eval vm_compute in mined two_pending clock_double.

Definition genesis_block : Ledger.Block :=
  Eval vm_compute in
    match Ledger.chain fresh_ledger with
    | g :: _ => g
    | [] => {| Ledger.index := 0; Ledger.timestamp := EmptyString; Ledger.transactions := [];
               Ledger.previous_hash := EmptyString; Ledger.nonce := 0;
               Ledger.hash := EmptyString |}
    end.

Definition mined_block (bc : Ledger.Blockchain) : Ledger.Block :=
  match last (Ledger.chain bc) with
  | Some b => b
  | None => genesis_block
  end.

Definition single_block : Ledger.Block := Eval vm_compute in mined_block mined_single.
Definition double_block : Ledger.Block := Eval vm_compute in mined_block mined_double.

(** *** Stand-ins for numpy and scikit-learn *)

(** The rational parts of the features are computed; the transcendental
    ones are not modelled and are set to zero. *)
Definition rational_numerics : Ai.Numerics :=
  {| Ai.log1p := fun _ => 0; Ai.std := fun _ => 0;
     Ai.int_part_len := fun x => Z.of_nat (String.length (Py.str_of_int (Qfloor x))) |}.

(** A fitted model that answers every row with the same decision value and
    label. *)
Definition constant_forest (decision : Q) (label : Z) : Ai.IsolationForest :=
  {| Ai.decision_function := fun _ => Some decision; Ai.predict := fun _ => Some label |}.

(** A fitted model that, like scikit-learn's estimators, raises on a row
    whose width is not the width it was fitted on. *)
Definition width_checked_forest (width : nat) (decision : Q) (label : Z)
    : Ai.IsolationForest :=
  {| Ai.decision_function :=
       fun row => if (List.length row =? width)%nat then Some decision else None;
     Ai.predict :=
       fun row => if (List.length row =? width)%nat then Some label else None |}.

Definition unfitted_forest : Ai.IsolationForest :=
  {| Ai.decision_function := fun _ => None; Ai.predict := fun _ => None |}.

Definition fits (fitted : Ai.IsolationForest) : Ai.Sklearn :=
  {| Ai.fit_basic_data := fun _ => Some fitted |}.

(** A service whose model has been fitted. *)
Definition service_with (forest : Ai.IsolationForest) : Ai.AnomalyDetectionService :=
  {| Ai.model := forest; Ai.is_trained := true;
     Ai.contamination := Settings.anomaly_contamination;
     Ai.threshold := Settings.anomaly_threshold |}.

Definition noon : Z := 1704110400000000.

Definition plain_transaction (amount : Q) : Ai.TransactionDict :=
  {| Ai.transaction_id := Some "tx_a"%string; Ai.amount := Some amount;
     Ai.timestamp := Some (Ai.Iso noon) |}.

Definition unparsable_transaction (amount : Q) : Ai.TransactionDict :=
  {| Ai.transaction_id := Some "tx_b"%string; Ai.amount := Some amount;
     Ai.timestamp := Some Ai.NotIso |}.

(** *** The in-memory orchestrator *)

(** A stand-in for the digest of the serialised transaction: the ledger
    hash plays no part in what is shown about this orchestrator. *)
Definition digest_of_id : Enhanced.TxDigest :=
  {| Enhanced.tx_digest := fun t => Some ("digest-of-" ++ Enhanced.transaction_id t)%string |}.

Definition account (b : Q) (first last : string) : Enhanced.User :=
  {| Enhanced.balance := b; Enhanced.credit_mode := None; Enhanced.credit_limit := None;
     Enhanced.credit_used := None; Enhanced.total_transactions := 0%Z;
     Enhanced.first_name := first; Enhanced.last_name := last |}.

Definition stores : Enhanced.State :=
  {| Enhanced.users_db :=
       <["user_12345"%string := account 1000 "Asha" "Rao"]>
         (<["user_67890"%string := account 500 "Ben" "Ito"]> ∅);
     Enhanced.transactions_db := [];
     Enhanced.fingerprints_db := {["user_12345"%string := "fingerprint-0001"%string]};
     Enhanced.blockchain_db := [];
     Enhanced.nonce_cache :=
       <["nonce-000000000001"%string := 0%Z]> {["nonce-000000000002"%string := 0%Z]};
     Enhanced.idempotency_cache := ∅ |}.

Definition payment (to nonce : string) (amount : Q) : Enhanced.P2PPaymentRequest :=
  {| Enhanced.to_user := to; Enhanced.amount := amount; Enhanced.description := None;
     Enhanced.fingerprint_data := "fingerprint-0001"; Enhanced.nonce := nonce;
     Enhanced.idempotency_key := "idem-000000000001" |}.

Definition request_env (now : Z) (uuid : string) : Enhanced.Env :=
  {| Enhanced.utcnow := now; Enhanced.local_hour := 12%Z; Enhanced.uuid_hex := uuid |}.

Definition first_key : string := "idem-000000000001".
Definition first_env : Enhanced.Env := request_env 1000 "00000000000000a1".
Definition later_env : Enhanced.Env := request_env 3000 "00000000000000a3".

(** The design's happy path: 100 from a balance of 1000 to a balance of 500. *)
Definition happy_payment : Enhanced.P2PPaymentRequest :=
  payment "user_67890" "nonce-000000000001" 100.


(** The recipient does not exist: the request fails after the nonce check. *)
Definition stray_payment : Enhanced.P2PPaymentRequest :=
  payment "user_nobody" "nonce-000000000001" 100.


Definition other_payload : Enhanced.P2PPaymentRequest :=
  payment "user_67890" "nonce-000000000009" 999.

(** Requests served in between: a fresh nonce is issued and another
    transfer goes through under its own key. *)
Definition interleaved : list Enhanced.Request :=
  [Enhanced.GetNonce "nonce-000000000003" 1500;
   Enhanced.PostP2P (payment "user_67890" "nonce-000000000002" 50) "idem-000000000002"
                    (request_env 2000 "00000000000000a2")].

(** *** The orchestrator over collections *)

Definition party_storage : Payments.Storage :=
  {| Payments.find_by_party :=
       fun txs id =>
         List.filter (fun tx => String.eqb (Payments.from_user tx) id
                                || String.eqb (Payments.to_user tx) id) txs |}.

Definition asha : Payments.UserDoc :=
  {| Payments.user_id := "user_asha"; Payments.first_name := "Asha";
     Payments.last_name := "Rao"; Payments.balance := 3000 |}.

Definition ben : Payments.UserDoc :=
  {| Payments.user_id := "user_ben"; Payments.first_name := "Ben";
     Payments.last_name := "Ito"; Payments.balance := 500 |}.

Definition collections (forest : Ai.IsolationForest) : Payments.State :=
  {| Payments.users := [asha; ben]; Payments.transactions := [];
     Payments.fingerprints := ["user_asha"%string];
     Payments.ledger := fresh_ledger;
     Payments.anomaly_service := service_with forest |}.

Definition transfer (to : string) (amount : Q) : Payments.P2PPaymentRequest :=
  {| Payments.p_to_user := to; Payments.p_amount := amount;
     Payments.p_description := None; Payments.p_fingerprint_data := "sample" |}.

Definition router_env : Payments.Env :=
  {| Payments.uuid_hex := "00000000000000aa"; Payments.utcnow := noon;
     Payments.utcnow_iso := "2024-01-01T12:00:00"; Payments.auth := Payments.AuthMatch;
     Payments.mine_clock := clock_single |}.

(** The collections after a transfer of 100 from Asha to Ben. *)
Definition after_transfer : Payments.State :=
  Eval vm_compute in
    match @Payments.process_p2p_payment Json.python_hashlib rational_numerics
            (fits unfitted_forest) party_storage 1
            (collections (constant_forest (45 # 100) 1)) (transfer "user_ben" 100) asha
            router_env with
    | Some (_, st) => st
    | None => collections (constant_forest (45 # 100) 1)
    end.

(** Two in the morning of the same day. *)
Definition small_hours : Z := 1704074400000000.

Definition night_transaction (amount : Q) : Ai.TransactionDict :=
  {| Ai.transaction_id := Some "tx_n"%string; Ai.amount := Some amount;
     Ai.timestamp := Some (Ai.Iso small_hours) |}.

(** An entry of the sender's history, [minutes_ago] minutes before noon. *)
Definition earlier (amount : Q) (minutes_ago : Z) : Ai.HistoryDict :=
  {| Ai.h_amount := Some amount;
     Ai.h_timestamp := Some (Ai.Iso (noon - minutes_ago * 60000000)%Z) |}.

(** *** The in-memory collections *)

(** Python's operators on the values the examples store: scalars of one
    type compare by value, and a comparison across types raises. *)
Definition scalar_operators : Database.Operators :=
  {| Database.eq := fun a b =>
       match a, b with
       | Database.VNone, Database.VNone => true
       | Database.VBool x, Database.VBool y => Bool.eqb x y
       | Database.VNum x, Database.VNum y => Qeq_bool x y
       | Database.VStr x, Database.VStr y => String.eqb x y
       | Database.VDatetime x, Database.VDatetime y => Z.eqb x y
       | _, _ => false
       end;
     Database.lt := fun a b =>
       match a, b with
       | Database.VNum x, Database.VNum y => Some (Py.Qltb x y)
       | Database.VDatetime x, Database.VDatetime y => Some (x <? y)%Z
       | _, _ => None
       end;
     Database.le := fun a b =>
       match a, b with
       | Database.VNum x, Database.VNum y => Some (Qle_bool x y)
       | Database.VDatetime x, Database.VDatetime y => Some (x <=? y)%Z
       | _, _ => None
       end;
     Database.gt := fun a b =>
       match a, b with
       | Database.VNum x, Database.VNum y => Some (Py.Qgtb x y)
       | Database.VDatetime x, Database.VDatetime y => Some (y <? x)%Z
       | _, _ => None
       end;
     Database.ge := fun a b =>
       match a, b with
       | Database.VNum x, Database.VNum y => Some (Qle_bool y x)
       | Database.VDatetime x, Database.VDatetime y => Some (y <=? x)%Z
       | _, _ => None
       end;
     Database.contains := fun a b =>
       match a, b with
       | Database.VStr x, Database.VList l =>
           Some (existsb (fun v => match v with
                                   | Database.VStr y => String.eqb x y
                                   | _ => false
                                   end) l)
       | _, _ => None
       end;
     Database.add := fun a b =>
       match a, b with
       | Database.VNum x, Database.VNum y => Some (Database.VNum (x + y))
       | _, _ => None
       end |}.

Definition merchant_document (id : string) (balance revenue : Q) : Database.Document :=
  <["merchant_id"%string := Database.VStr id]>
    (<["balance"%string := Database.VNum balance]>
       {["total_revenue"%string := Database.VNum revenue]}).

Definition merchants_collection : Database.MockCollection :=
  {| Database.name := "merchants";
     Database.data := [merchant_document "merchant_0001" 0 0;
                       merchant_document "merchant_0002" 70 70] |}.

Definition new_document : Database.Document :=
  <["merchant_id"%string := Database.VStr "merchant_0003"]>
    {["balance"%string := Database.VNum 0]}.

(** The document the collection holds for a transaction of the router. *)
Definition document_of (tx : Payments.TransactionDoc) : Database.Document :=
  <["transaction_id"%string := Database.VStr (Payments.transaction_id tx)]>
    (<["from_user"%string := Database.VStr (Payments.from_user tx)]>
       (<["to_user"%string := Database.VStr (Payments.to_user tx)]>
          {["amount"%string := Database.VNum (Payments.amount tx)]})).

(** *** Fingerprints *)

Definition matcher_env : Biometric.Env :=
  {| Biometric.variation := - (3 # 100); Biometric.session_stamp := 1704110400%Z;
     Biometric.expires_from := noon; Biometric.authenticated_now := noon |}.

Definition no_sessions : Biometric.BiometricAuth := {| Biometric.session_cache := ∅ |}.

(** The descriptor the simulation computes for the user id "user_asha". *)
Definition asha_descriptor : string :=
  Eval vm_compute in
    Py.slice_to (@Ledger.sha256_hexdigest Json.python_hashlib
                   "user_asha_fingerprint_features") 32.

(** A template whose descriptor differs from it in the first character. *)
Definition near_template : Biometric.Template :=
  Eval vm_compute in
    {| Biometric.t_user_id := "user_asha"; Biometric.enrolled_at := noon;
       Biometric.features :=
         Some {| Biometric.keypoints_count := Some 59%Z;
                 Biometric.descriptor_hash :=
                   Some (String "g"%char (substring 1 31 asha_descriptor));
                 Biometric.quality_metrics := None |};
       Biometric.quality_score := 855 # 10; Biometric.template_version := "1.0" |}.

(** *** Accounts and the scanner *)

(** Stand-ins for passlib, jose and the template codec. The codec keeps
    the user id of a template and enrolls it again when decoding, which
    gives back the features: they depend on the user id alone. *)
Definition account_libraries : Auth.Libraries :=
  {| Auth.get_password_hash := fun password => Some ("hash-of-" ++ password)%string;
     Auth.create_access_token :=
       fun claims _ _ =>
         match claims with
         | (_, sub) :: _ => Some ("token-of-" ++ sub)%string
         | [] => None
         end;
     Auth.encode_fingerprint_template := fun t => Some (Biometric.t_user_id t);
     Auth.decode_fingerprint_template :=
       fun encoded =>
         Some (@Biometric.enroll_fingerprint Json.python_hashlib encoded EmptyString 0%Z) |}.

Definition no_accounts : Auth.State :=
  {| Auth.users := []; Auth.fingerprints := []; Auth.biometric_auth := no_sessions |}.

Definition asha_signup : Auth.UserCreate :=
  {| Auth.c_first_name := "Asha"; Auth.c_last_name := "Rao";
     Auth.c_email := "asha@example.org"; Auth.c_phone_number := "5550100200";
     Auth.c_password := "correct horse"; Auth.c_fingerprint_data := "right-index-finger" |}.

Definition signup_env : Auth.Env :=
  {| Auth.uuid_hex := "0123456789abcdef0123456789abcdef"; Auth.utcnow := noon;
     Auth.matcher := matcher_env |}.

(** The registration response and the collections after it. *)
Definition asha_registered : Auth.Registered :=
  {| Auth.r_user_id := "user_0123456789ab"; Auth.r_access_token := "token-of-user_0123456789ab";
     Auth.r_user :=
       {| Auth.i_user_id := "user_0123456789ab"; Auth.i_first_name := "Asha";
          Auth.i_last_name := "Rao"; Auth.i_email := "asha@example.org";
          Auth.i_balance := 1000 |} |}.

Definition one_account : Auth.State :=
  Eval vm_compute in
    snd (@Auth.register_user Json.python_hashlib account_libraries no_accounts asha_signup
           signup_env).

Definition asha_account : Auth.UserDoc :=
  {| Auth.user_id := "user_0123456789ab"; Auth.first_name := "Asha";
     Auth.last_name := "Rao"; Auth.email := "asha@example.org";
     Auth.phone_number := "5550100200"; Auth.hashed_password := "hash-of-correct horse";
     Auth.balance := 1000; Auth.is_active := true; Auth.is_verified := false;
     Auth.fingerprint_enrolled := true; Auth.total_transactions := 0%Z;
     Auth.created_at := noon; Auth.updated_at := noon |}.

Definition corner_shop : Merchant.MerchantDoc :=
  {| Merchant.merchant_id := "merchant_00aa11bb22cc"; Merchant.business_name := "Corner Shop";
     Merchant.owner_name := "Ben Ito"; Merchant.m_email := "shop@example.org";
     Merchant.m_phone_number := "5550100300";
     Merchant.business_address := "1 Market Street, Springfield";
     Merchant.business_category := "grocery"; Merchant.tax_id := None;
     Merchant.m_hashed_password := "hash-of-open sesame"; Merchant.m_balance := 70;
     Merchant.m_is_active := true; Merchant.m_is_verified := false;
     Merchant.m_fingerprint_enrolled := true; Merchant.m_created_at := noon;
     Merchant.m_updated_at := noon |}.

(** The fingerprint document of the merchant, then the one of the user. *)
Definition shop_fingerprint : Auth.FingerprintDoc :=
  {| Auth.f_user_id := "merchant_00aa11bb22cc"; Auth.template := "merchant_00aa11bb22cc";
     Auth.enrolled_at := noon; Auth.last_used := None |}.

Definition asha_fingerprint : Auth.FingerprintDoc :=
  {| Auth.f_user_id := "user_0123456789ab"; Auth.template := "user_0123456789ab";
     Auth.enrolled_at := noon; Auth.last_used := None |}.

Definition shop_floor : Merchant.State :=
  {| Merchant.accounts :=
       {| Auth.users := [asha_account];
          Auth.fingerprints := [shop_fingerprint; asha_fingerprint];
          Auth.biometric_auth := no_sessions |};
     Merchant.merchants := [corner_shop]; Merchant.transactions := [];
     Merchant.ledger := fresh_ledger |}.

Definition scanner_env : Merchant.Env :=
  {| Merchant.uuid_hex := "00000000000000bb"; Merchant.utcnow := noon;
     Merchant.utcnow_iso := "2024-01-01T12:00:00";
     Merchant.matcher := fun _ => matcher_env; Merchant.mine_clock := clock_single |}.

(** The state after a scanner payment of 25 with someone else's finger. *)
Definition after_scan : Merchant.State :=
  Eval vm_compute in
    match @Merchant.capture_customer_fingerprint Json.python_hashlib account_libraries 0
            shop_floor "left-thumb-of-a-stranger" 25 None corner_shop scanner_env with
    | Some (_, st) => st
    | None => shop_floor
    end.

(** *** Connections *)

Definition three_connections : Realtime.RealtimeManager :=
  {| Realtime.connections := [1%nat; 2%nat; 3%nat] |}.

End Examples.

(* ===================================================================== *)
(** * Part II. Properties                                                 *)
(* ===================================================================== *)

Local Open Scope list_scope.

(** ** Booleans of the source against the order on numbers and strings *)

Lemma string_eqb_false (a b : string) : String.eqb a b = false <-> a <> b.
Proof.
  split.
  - intros Hf Heq. apply String.eqb_eq in Heq. congruence.
  - intros Hne. destruct (String.eqb a b) eqn:E; [| reflexivity].
    apply String.eqb_eq in E. contradiction.
Qed.

Lemma truthy_true (s : string) : s <> EmptyString -> Py.truthy s = true.
Proof.
  intros Hne. unfold Py.truthy. apply negb_true_iff. apply string_eqb_false. exact Hne.
Qed.

Lemma Qgtb_true (a b : Q) : (b < a)%Q -> Py.Qgtb a b = true.
Proof.
  intros Hlt. unfold Py.Qgtb. apply negb_true_iff.
  destruct (Qle_bool a b) eqn:E; [| reflexivity].
  apply Qle_bool_iff in E. exfalso. eapply Qlt_not_le; eassumption.
Qed.

Lemma Qgtb_comp (x y t : Q) : (x == y)%Q -> Py.Qgtb x t = Py.Qgtb y t.
Proof. intros E. unfold Py.Qgtb. rewrite E. reflexivity. Qed.


Lemma Qplus_nonneg_sum (a b : Q) : (0 <= a)%Q -> (0 <= b)%Q -> (0 <= a + b)%Q.
Proof. intros Ha Hb. rewrite <- (Qplus_0_l 0). apply Qplus_le_compat; assumption. Qed.

(** ** The digest and the serialisation against Python's *)

Example sha256_abc :
  Sha256.hexdigest "abc"
  = "ba7816bf8f01cfea414140de5dae2223b00361a396177a9cb410ff61f20015ad".
Proof. vm_compute. reflexivity. Qed.

Example sha256_two_blocks :
  Sha256.hexdigest "abcdbcdecdefdefgefghfghighijhijkijkljklmklmnlmnomnopnopq"
  = "248d6a61d20638b8e5c026930c3e6039a33ce45964ff2167f6ecedd419db06c1".
Proof. vm_compute. reflexivity. Qed.

(** The JSON text hashed for the genesis block, and its digest. *)
Example genesis_json :
  Json.dumps_block
    {| Ledger.d_index := 0; Ledger.d_timestamp := Examples.genesis_time;
       Ledger.d_transactions := []; Ledger.d_previous_hash := "0"; Ledger.d_nonce := 0 |}
  = String.concat Json.quote
      ["{"; "index"; ": 0, "; "nonce"; ": 0, "; "previous_hash"; ": "; "0"; ", ";
       "timestamp"; ": "; "2024-01-01T00:00:00"; ", "; "transactions"; ": []}"].
Proof. vm_compute. reflexivity. Qed.

Example genesis_hash :
  @Ledger.calculate_hash Json.python_hashlib Examples.genesis_block
  = "6b02a80f6ec398718d660af9f94e17010d5417e1cd158574393269ee32cca2cd".
Proof. vm_compute. reflexivity. Qed.

(** ** The ledger *)

Section LedgerFacts.
Context `{Ledger.Hashlib}.
Import Ledger.

Lemma has_prefix_empty (d : Z) : 0 < d -> has_prefix d EmptyString = false.
Proof.
  intros Hd. unfold has_prefix, Py.slice_to, Py.str_mul.
  destruct (Z.leb_spec 0 d) as [_ | Hneg]; [| lia].
  destruct (Z.to_nat d) as [| n] eqn:Hn; [lia |].
  reflexivity.
Qed.

(** The mining loop only moves the nonce and the hash. *)
Lemma mine_block_content (fuel : nat) (d : Z) (b b' : Block) :
  mine_block fuel d b = Some b' -> same_content b b'.
Proof.
  revert b. induction fuel as [| fuel IH]; intros b Hmine; simpl in Hmine.
  - destruct (has_prefix d (hash b)); [| discriminate]. injection Hmine as <-.
    repeat split.
  - destruct (has_prefix d (hash b)).
    + injection Hmine as <-. repeat split.
    + apply IH in Hmine. destruct Hmine as (Hi & Ht & Htx & Hprev).
      repeat split; assumption.
Qed.

(** A block that enters the loop sealed, or without the prefix, leaves it
    sealed and with the prefix. *)
Lemma mine_block_spec (fuel : nat) (d : Z) (b b' : Block) :
  mine_block fuel d b = Some b' ->
  sealed b \/ has_prefix d (hash b) = false ->
  sealed b' /\ has_prefix d (hash b') = true.
Proof.
  revert b. induction fuel as [| fuel IH]; intros b Hmine Hstart; simpl in Hmine.
  - destruct (has_prefix d (hash b)) eqn:Hp; [| discriminate].
    injection Hmine as <-. destruct Hstart as [Hs | Hs]; [| congruence].
    split; assumption.
  - destruct (has_prefix d (hash b)) eqn:Hp.
    + injection Hmine as <-. destruct Hstart as [Hs | Hs]; [| congruence].
      split; assumption.
    + apply IH in Hmine; [exact Hmine | left; reflexivity].
Qed.

(** Mining returns once the fuel covers the first nonce that works. *)
Lemma mine_block_terminates (d : Z) (extra : nat) (b : Block) :
  has_prefix d
    (calculate_hash (set_nonce b (nonce b + Z.of_nat (S extra)))) = true ->
  exists b', mine_block (S extra) d b = Some b'.
Proof.
  revert b. induction extra as [| extra IH]; intros b Hgood.
  - simpl. destruct (has_prefix d (hash b)); [eauto |].
    simpl in Hgood. unfold set_hash at 1. simpl.
    replace (nonce b + 1) with (nonce b + Z.of_nat 1) by lia.
    simpl in *. rewrite Hgood. eauto.
  - cbn [mine_block]. destruct (has_prefix d (hash b)); [eauto |].
    apply IH. cbn [set_hash set_nonce nonce index timestamp transactions previous_hash].
    replace (nonce b + 1 + Z.of_nat (S extra)) with (nonce b + Z.of_nat (S (S extra))) by lia.
    exact Hgood.
Qed.

(** The loop of [is_chain_valid] accepts exactly when each block it visits
    passes the three tests against the block before it. *)
Lemma is_chain_valid_from_spec (d : Z) (rest : list Block) (previous_block : Block) :
  is_chain_valid_from d previous_block rest = true <->
  forall i cur prev, rest !! i = Some cur -> (previous_block :: rest) !! i = Some prev ->
    hash cur = calculate_hash cur /\ previous_hash cur = hash prev
    /\ has_prefix d (hash cur) = true.
Proof.
  revert previous_block. induction rest as [| b rest IH]; intros p; simpl.
  - split; [intros _ i cur prev Hi; destruct i; discriminate | reflexivity].
  - destruct (String.eqb (hash b) (calculate_hash b)) eqn:E1; simpl.
    2: { split; [discriminate |]. intros Hall.
         destruct (Hall 0%nat b p eq_refl eq_refl) as (Hh & _).
         apply string_eqb_false in E1. contradiction. }
    destruct (String.eqb (previous_hash b) (hash p)) eqn:E2; simpl.
    2: { split; [discriminate |]. intros Hall.
         destruct (Hall 0%nat b p eq_refl eq_refl) as (_ & Hh & _).
         apply string_eqb_false in E2. contradiction. }
    destruct (has_prefix d (hash b)) eqn:E3; simpl.
    2: { split; [discriminate |]. intros Hall.
         destruct (Hall 0%nat b p eq_refl eq_refl) as (_ & _ & Hh). congruence. }
    apply String.eqb_eq in E1, E2. rewrite IH. split.
    + intros Hall [| i] cur prev Hc Hp; simpl in Hc, Hp.
      * injection Hc as <-. injection Hp as <-. auto.
      * eapply Hall; eassumption.
    + intros Hall i cur prev Hc Hp. apply (Hall (S i) cur prev); assumption.
Qed.

Lemma is_chain_valid_spec (bc : Blockchain) :
  is_chain_valid bc = true <-> every_later_block_checks bc.
Proof.
  unfold is_chain_valid, every_later_block_checks, block_checks.
  destruct (chain bc) as [| g rest] eqn:Hc.
  - split; [| reflexivity]. intros _ i _ cur Hi. destruct i; discriminate.
  - rewrite is_chain_valid_from_spec. split.
    + intros Hall [| i] Hpos cur Hi; [lia |]. simpl in Hi.
      assert (Hlt : (i < List.length rest)%nat) by (eapply lookup_lt_Some; eassumption).
      destruct (lookup_lt_is_Some_2 (g :: rest) i) as [prev Hprev]; [simpl; lia |].
      destruct (Hall i cur prev Hi Hprev) as (H1 & H2 & H3).
      repeat split; try assumption.
      intros prev' _ Hp'. replace (S i - 1)%nat with i in Hp' by lia. congruence.
    + intros Hall i cur prev Hi Hp.
      destruct (Hall (S i) ltac:(lia) cur Hi) as (H1 & H2 & H3).
      repeat split; try assumption. apply H2; [lia |].
      replace (S i - 1)%nat with i by lia. exact Hp.
Qed.

(** Overwriting an amount leaves the stored hash in place, so a changed
    digest is caught by the first test of the loop. *)
Lemma tamper_detected (bc : Blockchain) (i k : nat) (a : Q) (b : Block) :
  (0 < i)%nat -> chain bc !! i = Some b -> sealed b ->
  calculate_hash (tamper_block b k a) <> calculate_hash b ->
  is_chain_valid (tamper bc i k a) = false.
Proof.
  intros Hpos Hb Hsealed Hdiff.
  destruct (is_chain_valid (tamper bc i k a)) eqn:Hv; [| reflexivity].
  apply is_chain_valid_spec in Hv.
  specialize (Hv i Hpos (tamper_block b k a)).
  unfold tamper in Hv. cbn [chain set_chain difficulty] in Hv.
  rewrite list_lookup_alter_eq, Hb in Hv.
  destruct (Hv eq_refl) as (Hh & _).
  change (hash (tamper_block b k a)) with (hash b) in Hh.
  unfold sealed in Hsealed. congruence.
Qed.

(** *** The invariant along the operations *)

Lemma chain_linked_snoc (c : list Block) (latest b : Block) :
  chain_linked c -> last c = Some latest ->
  previous_hash b = hash latest -> sealed b ->
  chain_linked (c ++ [b]).
Proof.
  intros Hl Hlast Hprev Hs i cur prev Hc Hp.
  assert (Hlen : (i < List.length c)%nat).
  { apply lookup_lt_Some in Hp. rewrite length_app in Hp. simpl in Hp.
    apply lookup_lt_Some in Hc. rewrite length_app in Hc. simpl in Hc. lia. }
  rewrite lookup_app_l in Hp by exact Hlen.
  destruct (decide (S i < List.length c)%nat) as [Hin | Hout].
  - rewrite lookup_app_l in Hc by exact Hin. eapply Hl; eassumption.
  - assert (Hi : S i = List.length c) by lia.
    rewrite lookup_app_r in Hc by lia.
    replace (S i - List.length c)%nat with 0%nat in Hc by lia.
    simpl in Hc. injection Hc as <-.
    rewrite last_lookup in Hlast.
    replace (Nat.pred (List.length c)) with i in Hlast by lia.
    assert (prev = latest) by congruence. subst. split; assumption.
Qed.

Lemma init_inv (now : string) : ledger_inv (init now).
Proof.
  unfold ledger_inv, init, create_genesis_block. simpl.
  split; [reflexivity |]. split; [discriminate |].
  intros i cur prev Hc. destruct i; discriminate.
Qed.

Lemma add_transaction_chain (bc : Blockchain) (tx : Transaction) :
  chain (snd (add_transaction bc tx)) = chain bc
  /\ difficulty (snd (add_transaction bc tx)) = difficulty bc.
Proof. unfold add_transaction. destruct (_validate_transaction bc tx); simpl; auto. Qed.

(** What one call of [mine_pending_transactions] does to the ledger. *)
Lemma mine_pending_chain (fuel : nat) (bc : Blockchain) (addr : string) (clock : MineClock)
    (r : option Block) (bc' : Blockchain) :
  mine_pending_transactions fuel bc addr clock = Some (r, bc') ->
  0 < difficulty bc ->
  difficulty bc' = difficulty bc
  /\ ((r = None /\ bc' = bc)
      \/ (exists latest b, r = Some b /\ last (chain bc) = Some latest
            /\ chain bc' = chain bc ++ [b] /\ pending_transactions bc' = []
            /\ sealed b /\ previous_hash b = hash latest
            /\ index b = Z.of_nat (List.length (chain bc))
            /\ has_prefix (difficulty bc) (hash b) = true
            /\ transactions b
                 = pending_transactions bc ++ [reward_transaction bc addr clock])).
Proof.
  unfold mine_pending_transactions, get_latest_block. intros Hm Hd.
  destruct (pending_transactions bc) as [| t ts] eqn:Hp.
  { injection Hm as <- <-. auto. }
  destruct (last (chain bc)) as [latest |] eqn:Hl.
  2: { injection Hm as <- <-. auto. }
  destruct (mine_block fuel (difficulty bc) _) as [nb |] eqn:Hmb; [| discriminate].
  injection Hm as <- <-. simpl. split; [reflexivity |]. right.
  pose proof (mine_block_content _ _ _ _ Hmb) as (Hi & Ht & Htx & Hprev).
  apply mine_block_spec in Hmb; [| right; simpl; apply has_prefix_empty; exact Hd].
  destruct Hmb as (Hs & Hpre). simpl in *.
  exists latest, nb. repeat split; auto.
Qed.

(** [mine_pending_transactions] returns the sealed block once the fuel
    covers the first nonce whose hash has the prefix. *)
Lemma mine_pending_returns (extra : nat) (bc : Blockchain) (addr : string)
    (clock : MineClock) (latest : Block) (t : Transaction) (ts : list Transaction) :
  pending_transactions bc = t :: ts ->
  last (chain bc) = Some latest ->
  has_prefix (difficulty bc)
    (calculate_hash
       {| index := Z.of_nat (List.length (chain bc)); timestamp := block_time clock;
          transactions := pending_transactions bc ++ [reward_transaction bc addr clock];
          previous_hash := hash latest; nonce := Z.of_nat (S extra);
          hash := EmptyString |}) = true ->
  exists b,
    mine_pending_transactions (S extra) bc addr clock
    = Some (Some b, set_pending (set_chain bc (chain bc ++ [b])) []).
Proof.
  intros Hp Hl Hgood. unfold mine_pending_transactions, get_latest_block.
  rewrite Hl. rewrite Hp in *.
  match goal with
  | |- context [mine_block _ _ ?blk] =>
      destruct (mine_block_terminates (difficulty bc) extra blk) as [b Hb];
        [exact Hgood |]
  end.
  rewrite Hb. exists b. reflexivity.
Qed.

Lemma step_inv (bc bc' : Blockchain) : step bc bc' -> ledger_inv bc -> ledger_inv bc'.
Proof.
  intros Hstep (Hd & Hne & Hl). destruct Hstep as [bc tx | bc fuel addr clock r bc' Hm].
  - destruct (add_transaction_chain bc tx) as [Hc Hdd].
    unfold ledger_inv. rewrite Hc, Hdd. auto.
  - destruct (mine_pending_chain _ _ _ _ _ _ Hm Hd) as [Hdd [[_ ->] | Hmined]].
    + unfold ledger_inv; auto.
    + destruct Hmined as (latest & b & _ & Hlast & Hc & _ & Hs & Hprev & _).
      unfold ledger_inv. rewrite Hdd, Hc.
      split; [exact Hd |]. split.
      * intros Habs. apply app_eq_nil in Habs. destruct Habs; discriminate.
      * eapply chain_linked_snoc; eassumption.
Qed.

Lemma step_grows (bc bc' : Blockchain) :
  step bc bc' -> 0 < difficulty bc -> exists ext, chain bc' = chain bc ++ ext.
Proof.
  intros Hstep Hd. destruct Hstep as [bc tx | bc fuel addr clock r bc' Hm].
  - exists []. rewrite app_nil_r. apply add_transaction_chain.
  - destruct (mine_pending_chain _ _ _ _ _ _ Hm Hd) as [_ [[_ ->] | Hmined]].
    + exists []. symmetry. apply app_nil_r.
    + destruct Hmined as (latest & b & _ & _ & Hc & _). exists [b]. exact Hc.
Qed.

Lemma reachable_inv (now : string) (bc : Blockchain) : reachable now bc -> ledger_inv bc.
Proof.
  induction 1 as [| bc bc' _ IH Hstep]; [apply init_inv | eapply step_inv; eassumption].
Qed.

Lemma reachable_extends_init (now : string) (bc : Blockchain) :
  reachable now bc -> exists ext, chain bc = chain (init now) ++ ext.
Proof.
  induction 1 as [| bc bc' Hr IH Hstep].
  - exists []. symmetry. apply app_nil_r.
  - destruct IH as [ext Hext].
    destruct (step_grows bc bc' Hstep) as [ext' Hext'].
    { apply (reachable_inv now bc Hr). }
    exists (ext ++ ext'). rewrite Hext', Hext. symmetry. apply app_assoc.
Qed.

(** Every block of a reachable chain is sealed, and only blocks after the
    genesis block hold transactions. *)
Lemma reachable_block (now : string) (bc : Blockchain) (i k : nat) (b : Block)
    (t : Transaction) :
  reachable now bc -> chain bc !! i = Some b -> transactions b !! k = Some t ->
  (0 < i)%nat /\ sealed b.
Proof.
  intros Hr Hb Ht.
  destruct (reachable_extends_init now bc Hr) as [ext Hext].
  destruct i as [| j].
  - rewrite Hext in Hb. simpl in Hb. injection Hb as <-. simpl in Ht.
    destruct k; discriminate.
  - split; [lia |].
    destruct (reachable_inv now bc Hr) as (_ & _ & Hl).
    destruct (lookup_lt_is_Some_2 (chain bc) j) as [prev Hprev].
    { apply lookup_lt_Some in Hb. lia. }
    apply (Hl j b prev Hb Hprev).
Qed.

(** C9. Every chain reachable from the genesis state by [add_transaction]
    and [mine_pending_transactions] links each block after the first to the
    hash of its predecessor and stores for it the hash of its own content;
    it extends the genesis chain, and each operation only appends. *)
Theorem reachable_chain_is_linked (now : string) (bc : Blockchain) :
  reachable now bc ->
  chain_linked (chain bc)
  /\ (exists ext, chain bc = chain (init now) ++ ext)
  /\ (forall bc', step bc bc' -> exists ext, chain bc' = chain bc ++ ext).
Proof.
  intros Hr. pose proof (reachable_inv now bc Hr) as (Hd & Hne & Hl).
  split; [exact Hl |]. split.
  - apply reachable_extends_init. exact Hr.
  - intros bc' Hstep. apply step_grows; assumption.
Qed.

(** C2, as amended. [is_chain_valid] returns true exactly when every block
    after the genesis block passes the three checks (recomputed hash equal
    to the stored one, [previous_hash] equal to the hash of the block
    before, the configured prefix of zeros); the genesis block is not
    examined. In a chain built by the ledger, overwriting the amount of a
    transaction makes [is_chain_valid] return false as soon as the digest
    of the changed block differs from the digest of the original. *)
Theorem chain_validity :
  (forall bc : Blockchain, is_chain_valid bc = true <-> every_later_block_checks bc)
  /\ (forall (now : string) (bc : Blockchain) (i k : nat) (b : Block) (t : Transaction)
             (a : Q),
        reachable now bc -> chain bc !! i = Some b -> transactions b !! k = Some t ->
        calculate_hash (tamper_block b k a) <> calculate_hash b ->
        is_chain_valid (tamper bc i k a) = false).
Proof.
  split; [exact is_chain_valid_spec |].
  intros now bc i k b t a Hr Hb Ht Hdiff.
  destruct (reachable_block now bc i k b t Hr Hb Ht) as [Hpos Hsealed].
  eapply tamper_detected; eassumption.
Qed.

(** *** The duplicate-id guard *)

Lemma validate_fresh_in_chain (bc : Blockchain) (tx : Transaction) :
  from_user tx <> EmptyString -> to_user tx <> EmptyString ->
  transaction_id tx <> EmptyString -> (0 < amount tx)%Q ->
  (forall b t, In b (chain bc) -> In t (transactions b) ->
     transaction_id t <> transaction_id tx) ->
  _validate_transaction bc tx = true.
Proof.
  intros Hf Ht Hid Ha Hfresh. unfold _validate_transaction.
  rewrite !truthy_true by assumption. rewrite Qgtb_true by assumption. simpl.
  apply negb_true_iff.
  destruct (existsb _ (chain bc)) eqn:E; [| reflexivity].
  apply existsb_exists in E. destruct E as (b & Hb & E).
  apply existsb_exists in E. destruct E as (t & Hin & E).
  apply String.eqb_eq in E. exfalso. eapply Hfresh; eassumption.
Qed.

Lemma duplicate_ids_snoc (txs : list Transaction) (queued tx : Transaction) :
  In queued txs -> transaction_id queued = transaction_id tx ->
  duplicate_ids (txs ++ [tx]).
Proof.
  intros Hin Hid. apply list_elem_of_In in Hin.
  apply list_elem_of_lookup in Hin. destruct Hin as [i Hi].
  assert (Hlt : (i < List.length txs)%nat) by (eapply lookup_lt_Some; eassumption).
  exists i, (List.length txs), queued, tx. repeat split.
  - lia.
  - rewrite lookup_app_l by exact Hlt. exact Hi.
  - rewrite lookup_app_r by lia. replace (_ - _)%nat with 0%nat by lia. reflexivity.
  - exact Hid.
Qed.

Lemma duplicate_ids_app (txs more : list Transaction) :
  duplicate_ids txs -> duplicate_ids (txs ++ more).
Proof.
  intros (i & j & t1 & t2 & Hne & Hi & Hj & Hid).
  exists i, j, t1, t2. repeat split; try assumption.
  - rewrite lookup_app_l; [exact Hi | eapply lookup_lt_Some; eassumption].
  - rewrite lookup_app_l; [exact Hj | eapply lookup_lt_Some; eassumption].
Qed.

(** C10. The duplicate-id guard reads the committed chain only: a
    well-formed transaction whose id is carried by a pending transaction
    but by no committed one is accepted and appended, so the pending buffer
    holds two transactions with one id, and so does the block the next
    mining call appends. *)
Theorem duplicate_guard_ignores_pending (bc : Blockchain) (tx queued : Transaction) :
  from_user tx <> EmptyString -> to_user tx <> EmptyString ->
  transaction_id tx <> EmptyString -> (0 < amount tx)%Q ->
  In queued (pending_transactions bc) -> transaction_id queued = transaction_id tx ->
  (forall b t, In b (chain bc) -> In t (transactions b) ->
     transaction_id t <> transaction_id tx) ->
  add_transaction bc tx = (true, set_pending bc (pending_transactions bc ++ [tx]))
  /\ duplicate_ids (pending_transactions (snd (add_transaction bc tx)))
  /\ (forall fuel addr clock r bc',
        chain bc <> [] ->
        mine_pending_transactions fuel (snd (add_transaction bc tx)) addr clock
          = Some (r, bc') ->
        exists b, r = Some b /\ last (chain bc') = Some b
                  /\ duplicate_ids (transactions b)).
Proof.
  intros Hf Ht Hid Ha Hin Hsame Hfresh.
  assert (Hadd : add_transaction bc tx
                 = (true, set_pending bc (pending_transactions bc ++ [tx]))).
  { unfold add_transaction. rewrite validate_fresh_in_chain by assumption. reflexivity. }
  rewrite Hadd. cbn [snd]. split; [reflexivity |]. split.
  - cbn [pending_transactions set_pending]. eapply duplicate_ids_snoc; eassumption.
  - intros fuel addr clock r bc' Hne Hm.
    unfold mine_pending_transactions, get_latest_block in Hm.
    cbn [pending_transactions set_pending chain difficulty] in Hm.
    destruct (pending_transactions bc ++ [tx]) as [| p ps] eqn:Hp.
    { apply app_eq_nil in Hp. destruct Hp; discriminate. }
    destruct (last (chain bc)) as [latest |] eqn:Hl.
    2: { apply last_None in Hl. contradiction. }
    destruct (mine_block fuel (difficulty bc) _) as [nb |] eqn:Hmb; [| discriminate].
    injection Hm as <- <-. exists nb. split; [reflexivity |]. split.
    + cbn [chain set_pending set_chain]. apply last_snoc.
    + apply mine_block_content in Hmb. destruct Hmb as (_ & _ & Htx & _).
      rewrite Htx. cbn [transactions]. apply duplicate_ids_app.
      rewrite <- Hp. eapply duplicate_ids_snoc; eassumption.
Qed.

End LedgerFacts.

(** *** The example run: two transfers with one id, then a mined block *)

Section LedgerRun.
Import Ledger Examples.

(** The states of the run are what the operations compute under the real
    digest. *)
Lemma fresh_ledger_run : fresh_ledger = @init Json.python_hashlib genesis_time.
Proof. vm_compute. reflexivity. Qed.

Lemma one_pending_run : one_pending = snd (add_transaction fresh_ledger alice_pays_bob).
Proof. vm_compute. reflexivity. Qed.

Lemma two_pending_run : two_pending = snd (add_transaction one_pending carol_pays_dave).
Proof. vm_compute. reflexivity. Qed.

Lemma mined_single_run :
  @mine_pending_transactions Json.python_hashlib 1 one_pending "system" clock_single
  = Some (Some single_block, mined_single).
Proof. vm_compute. reflexivity. Qed.

Lemma mined_double_run :
  @mine_pending_transactions Json.python_hashlib 1 two_pending "system" clock_double
  = Some (Some double_block, mined_double).
Proof. vm_compute. reflexivity. Qed.

Lemma one_pending_reachable : @reachable Json.python_hashlib genesis_time one_pending.
Proof.
  rewrite one_pending_run.
  apply (@reach_step Json.python_hashlib genesis_time fresh_ledger);
    [rewrite fresh_ledger_run; apply reach_init | apply step_add].
Qed.

Lemma mined_single_reachable : @reachable Json.python_hashlib genesis_time mined_single.
Proof.
  apply (@reach_step Json.python_hashlib genesis_time one_pending);
    [apply one_pending_reachable |].
  eapply step_mine. apply mined_single_run.
Qed.

Lemma mined_double_reachable : @reachable Json.python_hashlib genesis_time mined_double.
Proof.
  apply (@reach_step Json.python_hashlib genesis_time two_pending).
  - rewrite two_pending_run.
    apply (@reach_step Json.python_hashlib genesis_time one_pending);
      [apply one_pending_reachable | apply step_add].
  - eapply step_mine. apply mined_double_run.
Qed.

(** The mined block of the run carries the configured prefix, and the whole
    chain passes [is_chain_valid]. *)
Example mined_double_valid :
  @is_chain_valid Json.python_hashlib mined_double = true
  /\ hash double_block
     = "0000ebb54877f26a52f2f1ed6643163f938beac8a59f1467693c823f92ce27a9".
Proof. split; vm_compute; reflexivity. Qed.

(** Witness of C9 on the example run. *)
Lemma reachable_chain_is_linked_witness :
  @reachable Json.python_hashlib genesis_time mined_double
  /\ @chain_linked Json.python_hashlib (chain mined_double)
  /\ (exists ext, chain mined_double = chain (@init Json.python_hashlib genesis_time) ++ ext)
  /\ (forall bc', @step Json.python_hashlib mined_double bc' ->
        exists ext, chain bc' = chain mined_double ++ ext).
Proof.
  split; [exact mined_double_reachable |].
  exact (@reachable_chain_is_linked Json.python_hashlib genesis_time mined_double
           mined_double_reachable).
Defined.

(** Counterexample to C2 as stated: the chain that holds only the genesis
    block passes [is_chain_valid], yet its one block lacks the four leading
    zeros, so not every block passes the three checks. *)
Lemma genesis_block_is_not_checked :
  @is_chain_valid Json.python_hashlib fresh_ledger = true
  /\ ~ @every_block_checks Json.python_hashlib fresh_ledger.
Proof.
  split; [vm_compute; reflexivity |].
  intros Hall.
  destruct (Hall 0%nat genesis_block eq_refl) as (_ & _ & Hprefix).
  vm_compute in Hprefix. discriminate Hprefix.
Qed.

(** Witness of C2, as amended: the mined chain of the run is valid, and it
    stops being so once the amount 25 of its first transfer is overwritten
    by 2500. *)
Lemma chain_validity_witness :
  @is_chain_valid Json.python_hashlib mined_single = true
  /\ @every_later_block_checks Json.python_hashlib mined_single
  /\ @is_chain_valid Json.python_hashlib (tamper mined_single 1 0 2500) = false.
Proof.
  pose proof (@chain_validity Json.python_hashlib) as [Hiff Htamper].
  assert (Hvalid : @is_chain_valid Json.python_hashlib mined_single = true)
    by (vm_compute; reflexivity).
  split; [exact Hvalid |]. split; [apply Hiff; exact Hvalid |].
  apply (Htamper genesis_time mined_single 1%nat 0%nat single_block alice_pays_bob 2500%Q
           mined_single_reachable eq_refl eq_refl).
  vm_compute. discriminate.
Defined.

(** Witness of C10: the second transfer of the run reuses the id of the
    first, which is still pending; it is accepted, and the mined block
    holds both. *)
Lemma duplicate_guard_ignores_pending_witness :
  add_transaction one_pending carol_pays_dave = (true, two_pending)
  /\ duplicate_ids (pending_transactions two_pending)
  /\ last (chain mined_double) = Some double_block
  /\ duplicate_ids (transactions double_block).
Proof.
  assert (Hfresh : forall b t, In b (chain one_pending) -> In t (transactions b) ->
                     transaction_id t <> transaction_id carol_pays_dave).
  { intros b t [<- | []] []. }
  destruct (@duplicate_guard_ignores_pending Json.python_hashlib one_pending
              carol_pays_dave alice_pays_bob)
    as (Hadd & Hdup & Hmine); try discriminate; try reflexivity; try exact Hfresh.
  { left. reflexivity. }
  split; [exact Hadd |]. split; [exact Hdup |].
  destruct (Hmine 1%nat "system" clock_double (Some double_block) mined_double)
    as (b & Hb & Hlast & Hids).
  - discriminate.
  - exact mined_double_run.
  - injection Hb as <-. split; assumption.
Defined.

End LedgerRun.

(** ** Feature extraction and scoring *)

Section ScoringFacts.
Context `{Ai.Numerics} `{Ai.Sklearn}.
Import Ai.

(** The normal path builds 5 + 9 + 4 features. *)
Lemma extract_features_try_length (transaction : TransactionDict)
    (user_history : list HistoryDict) (now : Z) (features : list Q) :
  extract_features_try transaction user_history now = Some features ->
  List.length features = 18%nat.
Proof.
  unfold extract_features_try.
  destruct (fromisoformat _) as [current_time |]; [| discriminate].
  destruct (fold_left _ user_history _) as [[[c1 c2] a1] a2].
  intros Hf. injection Hf as <-.
  destruct user_history as [| tx rest]; [reflexivity |].
  destruct (parsed_timestamps (tx :: rest)) as [| t ts]; [reflexivity |].
  destruct (gaps _); reflexivity.
Qed.

Lemma extract_features_try_fails (transaction : TransactionDict)
    (user_history : list HistoryDict) (now : Z) :
  extract_features_try transaction user_history now = None <->
  fromisoformat (get (timestamp transaction) (Iso now)) = None.
Proof.
  unfold extract_features_try.
  destruct (fromisoformat _) as [current_time |]; [| tauto].
  destruct (fold_left _ user_history _) as [[[c1 c2] a1] a2].
  split; discriminate.
Qed.

(** C3. The width of the feature vector: 18 on the path that computes the
    features, 23 for the vector of zeros returned when the [try] block
    raises, which happens exactly when the transaction's timestamp does not
    parse. The two widths differ, so the vector has no single dimension. *)
Theorem extract_features_width (transaction : TransactionDict)
    (user_history : list HistoryDict) (now : Z) :
  List.length (extract_features transaction user_history now)
  = match fromisoformat (get (timestamp transaction) (Iso now)) with
    | Some _ => 18%nat
    | None => 23%nat
    end.
Proof.
  unfold extract_features.
  destruct (extract_features_try transaction user_history now) as [features |] eqn:Htry.
  - pose proof (extract_features_try_length _ _ _ _ Htry) as Hlen.
    destruct (fromisoformat _) eqn:Hts; [exact Hlen |].
    apply (proj2 (extract_features_try_fails transaction user_history now)) in Hts.
    congruence.
  - apply (proj1 (extract_features_try_fails transaction user_history now)) in Htry.
    rewrite Htry. reflexivity.
Qed.


Lemma round_half_even_comp (x y : Q) : (x == y)%Q -> round_half_even x = round_half_even y.
Proof.
  intros E. unfold round_half_even. rewrite (Qfloor_comp x y E).
  assert (Hc : Qcompare (x - inject_Z (Qfloor y)) (1 # 2)
               = Qcompare (y - inject_Z (Qfloor y)) (1 # 2)).
  { apply Qcompare_comp; [rewrite E |]; reflexivity. }
  rewrite Hc. reflexivity.
Qed.

Lemma round_comp (x y : Q) (n : nat) : (x == y)%Q -> round x n = round y n.
Proof.
  intros E. unfold round. f_equal. apply round_half_even_comp. rewrite E. reflexivity.
Qed.

Lemma clamp01_of_nonneg (x y : Q) : (x == y)%Q -> (0 <= x)%Q -> (Qmin 1 x == clamp01 y)%Q.
Proof.
  intros E Hx. unfold clamp01. rewrite <- E.
  symmetry. apply Q.max_r. apply Q.min_glb; [discriminate | exact Hx].
Qed.

Lemma recent_transactions_none (tx_time : Z) (user_history : list HistoryDict) :
  recent_transactions tx_time user_history = None <->
  exists tx, In tx user_history /\ fromisoformat (get (h_timestamp tx) NotIso) = None.
Proof.
  induction user_history as [| tx rest IH]; simpl.
  - split; [discriminate | intros (tx & [] & _)].
  - destruct (fromisoformat (get (h_timestamp tx) NotIso)) as [ts |] eqn:Hts.
    + destruct (recent_transactions tx_time rest) as [recent |].
      * split.
        -- destruct (Py.Qltb _ _); discriminate.
        -- intros (bad & [-> | Hin] & Hbad); [congruence |].
           assert (Habs : Some recent = None) by (apply IH; eauto).
           discriminate.
      * split; [| reflexivity]. intros _.
        destruct (proj1 IH eq_refl) as (bad & Hin & Hbad). eauto.
    + split; [| reflexivity]. intros _. exists tx. auto.
Qed.

Lemma recent_transactions_length (tx_time : Z) (user_history recent : list HistoryDict) :
  recent_transactions tx_time user_history = Some recent ->
  List.length recent
  = List.length (List.filter (is_recent tx_time) (parsed_timestamps user_history)).
Proof.
  revert recent. unfold parsed_timestamps.
  induction user_history as [| tx rest IH]; intros recent; simpl.
  - intros Hr. injection Hr as <-. reflexivity.
  - destruct (fromisoformat (get (h_timestamp tx) NotIso)) as [ts |]; [| discriminate].
    destruct (recent_transactions tx_time rest) as [recent' |]; [| discriminate].
    specialize (IH recent' eq_refl). simpl. unfold is_recent at 1.
    destruct (Py.Qltb _ _); intros Hr; injection Hr as <-; simpl; rewrite IH; reflexivity.
Qed.


Lemma rapid_stage_none (tx_time : Z) (user_history : list HistoryDict)
    (risk_factors : list string) (normalized_score : Q) :
  rapid_stage tx_time user_history risk_factors normalized_score = None <->
  exists tx, In tx user_history /\ fromisoformat (get (h_timestamp tx) NotIso) = None.
Proof.
  unfold rapid_stage. destruct user_history as [| tx rest].
  - simpl. split; [discriminate | intros (tx & [] & _)].
  - change (0 <? List.length (tx :: rest))%nat with true. cbv iota.
    rewrite <- (recent_transactions_none tx_time).
    destruct (recent_transactions tx_time (tx :: rest)) as [recent |]; [| tauto].
    destruct (3 <? List.length recent)%nat; split; intros Hx; discriminate Hx.
Qed.

Lemma rapid_stage_some (tx_time : Z) (user_history : list HistoryDict)
    (risk_factors out_factors : list string) (normalized_score out_score : Q) :
  rapid_stage tx_time user_history risk_factors normalized_score
    = Some (out_factors, out_score) ->
  out_factors = risk_factors ++ tag (rapid_rule tx_time user_history) "rapid_transactions"
  /\ out_score
     = if rapid_rule tx_time user_history
       then (normalized_score + (2 # 10))%Q else normalized_score.
Proof.
  unfold rapid_stage, rapid_rule. destruct user_history as [| tx rest].
  - simpl. intros Hs. injection Hs as <- <-. rewrite app_nil_r. auto.
  - change (0 <? List.length (tx :: rest))%nat with true. cbv iota.
    destruct (recent_transactions tx_time (tx :: rest)) as [recent |] eqn:Hr; [| discriminate].
    rewrite <- (recent_transactions_length _ _ _ Hr).
    destruct (3 <? List.length recent)%nat; intros Hs; injection Hs as <- <-; simpl.
    + auto.
    + rewrite app_nil_r. auto.
Qed.

Lemma check_try_unfold (svc : AnomalyDetectionService) (transaction : TransactionDict)
    (user_history : list HistoryDict) (now : Z) :
  check_try svc transaction user_history now
  = match decision_function (model svc) (extract_features transaction user_history now),
          predict (model svc) (extract_features transaction user_history now),
          fromisoformat (get (timestamp transaction) (Iso now)) with
    | Some decision, Some label, Some tx_time =>
        let amount := get (amount transaction) 0%Q in
        let n0 := Qmax 0 (Qmin 1 (((1 # 2) - decision) / 1)) in
        let n1 := if large_amount_rule amount then (n0 + (2 # 10))%Q else n0 in
        let n2 := if new_user_rule user_history amount then (n1 + (3 # 10))%Q else n1 in
        let n3 := if unusual_time_rule tx_time then (n2 + (1 # 10))%Q else n2 in
        match rapid_stage tx_time user_history
                (tag (large_amount_rule amount) "large_amount"
                 ++ tag (new_user_rule user_history amount) "new_user_large_amount"
                 ++ tag (unusual_time_rule tx_time) "unusual_time") n3 with
        | Some (risk_factors, n4) =>
            Some {| r_transaction_id := transaction_id transaction;
                    anomaly_score := round (Qmin 1 n4) 4;
                    is_anomalous := Py.Qgtb (Qmin 1 n4) (threshold svc) || (label =? -1);
                    risk_factors := risk_factors;
                    model_prediction :=
                      if (label =? -1) then "outlier"%string else "normal"%string |}
        | None => None
        end
    | _, _, _ => None
    end.
Proof.
  unfold check_try, large_amount_rule, new_user_rule, unusual_time_rule.
  destruct (decision_function _ _) as [decision |]; [| reflexivity].
  destruct (predict _ _) as [label |]; [| reflexivity].
  destruct (fromisoformat _) as [tx_time |].
  2: { destruct (Py.Qgtb _ 5000); destruct (_ && _); reflexivity. }
  cbv zeta.
  destruct (Py.Qgtb (get (amount transaction) 0%Q) 5000);
    destruct ((List.length user_history =? 0)%nat && Py.Qgtb (get (amount transaction) 0%Q) 1000);
    destruct ((hour tx_time <? 6) || (23 <? hour tx_time));
    cbn [tag app]; reflexivity.
Qed.


Lemma check_try_fails_iff (svc : AnomalyDetectionService) (transaction : TransactionDict)
    (user_history : list HistoryDict) (now : Z) :
  check_try svc transaction user_history now = None <->
  step_fails svc transaction user_history now.
Proof.
  rewrite check_try_unfold. unfold step_fails.
  destruct (decision_function _ _) as [decision |]; [| tauto].
  destruct (predict _ _) as [label |]; [| tauto].
  destruct (fromisoformat (get (timestamp transaction) (Iso now))) as [tx_time |]; [| tauto].
  cbv zeta.
  match goal with
  | |- context [rapid_stage ?t ?h ?rf ?n] =>
      pose proof (rapid_stage_none t h rf n) as Hnone;
      destruct (rapid_stage t h rf n) as [[rf' n'] |]
  end.
  - split; [discriminate |].
    intros [Hx | [Hx | [Hx | Hx]]]; try discriminate.
    apply Hnone in Hx. discriminate.
  - split; [| reflexivity]. intros _. right. right. right. apply Hnone. reflexivity.
Qed.

(** C7. [check_transaction_anomaly] returns a result on every input. When
    a step of its [try] block raises (a model call, the parse of the
    transaction's timestamp, the parse of a history timestamp), the result
    is the one of the [except] branch: score 0, not anomalous, the single
    tag [analysis_error]; when none raises, it is the result of the block. *)
Theorem scorer_failure_yields_analysis_error (svc : AnomalyDetectionService)
    (transaction : TransactionDict) (user_history : list HistoryDict) (now : Z) :
  let result := fst (check_transaction_anomaly svc transaction user_history now) in
  (step_fails (ensure_trained svc) transaction user_history now ->
     result = analysis_error transaction
     /\ anomaly_score result = 0%Q
     /\ is_anomalous result = false
     /\ risk_factors result = ["analysis_error"%string])
  /\ (~ step_fails (ensure_trained svc) transaction user_history now ->
      check_try (ensure_trained svc) transaction user_history now = Some result).
Proof.
  cbv zeta. unfold check_transaction_anomaly. split.
  - intros Hfail. apply check_try_fails_iff in Hfail. rewrite Hfail. cbn.
    repeat split; reflexivity.
  - intros Hok.
    destruct (check_try (ensure_trained svc) transaction user_history now) eqn:Htry;
      [reflexivity |].
    apply check_try_fails_iff in Htry. contradiction.
Qed.

(** C8, as amended. When no step of the [try] block raises, the returned
    score is the adjusted score (the normalized model score plus 0.2, 0.3,
    0.1 and 0.2 for the rules that hold, clamped to [0, 1]) rounded to four
    decimals; [is_anomalous] is taken on the adjusted score before rounding,
    or from the outlier label; the tags are those of the rules that hold,
    in the order of the checks. *)
Theorem score_follows_rules (svc : AnomalyDetectionService)
    (transaction : TransactionDict) (user_history : list HistoryDict) (now : Z)
    (result : AnomalyResult) :
  check_try svc transaction user_history now = Some result ->
  exists decision label tx_time,
    decision_function (model svc) (extract_features transaction user_history now)
      = Some decision
    /\ predict (model svc) (extract_features transaction user_history now) = Some label
    /\ fromisoformat (get (timestamp transaction) (Iso now)) = Some tx_time
    /\ anomaly_score result
       = round (adjusted_score decision (get (amount transaction) 0%Q)
                               user_history tx_time) 4
    /\ is_anomalous result
       = Py.Qgtb (adjusted_score decision (get (amount transaction) 0%Q)
                                 user_history tx_time) (threshold svc)
         || (label =? -1)
    /\ risk_factors result
       = expected_tags (get (amount transaction) 0%Q) user_history tx_time.
Proof.
  rewrite check_try_unfold.
  destruct (decision_function _ _) as [decision |]; [| discriminate].
  destruct (predict _ _) as [label |]; [| discriminate].
  destruct (fromisoformat (get (timestamp transaction) (Iso now))) as [tx_time |];
    [| discriminate].
  cbv zeta.
  match goal with
  | |- context [rapid_stage ?t ?h ?rf ?n] =>
      destruct (rapid_stage t h rf n) as [[rf' n'] |] eqn:Hstage; [| discriminate]
  end.
  apply rapid_stage_some in Hstage. destruct Hstage as [-> ->].
  intros Hr. injection Hr as <-. exists decision, label, tx_time.
  cbn [anomaly_score is_anomalous risk_factors].
  set (amount := get (Ai.amount transaction) 0%Q).
  match goal with
  | |- context [round ?x 4] =>
      assert (Hscore : (x == adjusted_score decision amount user_history tx_time)%Q)
  end.
  { unfold adjusted_score, normalize, clamp01 at 2.
    assert (Hn : (Qmax 0 (Qmin 1 (((1 # 2) - decision) / 1))
                  == Qmax 0 (Qmin 1 ((1 # 2) - decision)))%Q).
    { assert (Hd : (((1 # 2) - decision) / 1 == (1 # 2) - decision)%Q) by (field).
      rewrite Hd. reflexivity. }
    apply clamp01_of_nonneg.
    - rewrite <- Hn.
      destruct (large_amount_rule amount), (new_user_rule user_history amount),
        (unusual_time_rule tx_time), (rapid_rule tx_time user_history);
        unfold adjustment; ring.
    - destruct (large_amount_rule amount), (new_user_rule user_history amount),
        (unusual_time_rule tx_time), (rapid_rule tx_time user_history);
        repeat (apply Qplus_nonneg_sum; [| discriminate]); apply Q.le_max_l. }
  repeat split; try reflexivity.
  - apply round_comp. exact Hscore.
  - f_equal. apply Qgtb_comp. exact Hscore.
  - unfold expected_tags. rewrite <- !app_assoc. reflexivity.
Qed.


(** The tags of a result name the rules that hold. *)
Lemma check_try_tags (svc : AnomalyDetectionService) (transaction : TransactionDict)
    (user_history : list HistoryDict) (now : Z) (result : AnomalyResult) :
  check_try svc transaction user_history now = Some result ->
  exists tx_time,
    fromisoformat (get (timestamp transaction) (Iso now)) = Some tx_time
    /\ risk_factors result
       = expected_tags (get (amount transaction) 0%Q) user_history tx_time.
Proof.
  rewrite check_try_unfold.
  destruct (decision_function _ _) as [decision |]; [| discriminate].
  destruct (predict _ _) as [label |]; [| discriminate].
  destruct (fromisoformat (get (timestamp transaction) (Iso now))) as [tx_time |];
    [| discriminate].
  cbv zeta.
  match goal with
  | |- context [rapid_stage ?t ?h ?rf ?n] =>
      destruct (rapid_stage t h rf n) as [[rf' n'] |] eqn:Hstage; [| discriminate]
  end.
  apply rapid_stage_some in Hstage. destruct Hstage as [-> _].
  intros Hr. injection Hr as <-. exists tx_time. split; [reflexivity |].
  cbn [risk_factors]. unfold expected_tags. rewrite <- !app_assoc. reflexivity.
Qed.

(** A transfer of 2000 from a sender without history fires the new-user
    rule and not the large-amount rule. *)
Lemma tags_at_2000 (tx_time : Z) (amount : Q) :
  (amount == 2000)%Q ->
  expected_tags amount [] tx_time
  = "new_user_large_amount"%string :: tag (unusual_time_rule tx_time) "unusual_time".
Proof.
  intros Ha. unfold expected_tags, large_amount_rule, new_user_rule, rapid_rule.
  rewrite (Qgtb_comp amount 2000 5000 Ha), (Qgtb_comp amount 2000 1000 Ha).
  cbn. rewrite app_nil_r. reflexivity.
Qed.

End ScoringFacts.

(** *** Concrete scoring runs *)

Section ScoringRuns.
Import Ai Examples.

(** The two widths of C3 on inputs: a transaction whose timestamp parses
    and one whose timestamp does not. *)
Example feature_width_mismatch :
  List.length (@extract_features rational_numerics (plain_transaction 100) [] noon) = 18%nat
  /\ List.length (@extract_features rational_numerics (unparsable_transaction 100) [] noon)
     = 23%nat.
Proof. split; vm_compute; reflexivity. Qed.

(** Witness of C7: a model that rejects rows of a width other than 23
    raises on the 18 features of a well-formed transaction, and the scorer
    answers with the [analysis_error] result. *)
Lemma scorer_failure_yields_analysis_error_witness :
  @step_fails rational_numerics
    (@ensure_trained (fits unfitted_forest)
       (service_with (width_checked_forest 23 (1 # 10) 1)))
    (plain_transaction 100) [] noon
  /\ fst (@check_transaction_anomaly rational_numerics (fits unfitted_forest)
            (service_with (width_checked_forest 23 (1 # 10) 1))
            (plain_transaction 100) [] noon)
     = analysis_error (plain_transaction 100).
Proof.
  assert (Hfail : @step_fails rational_numerics
            (@ensure_trained (fits unfitted_forest)
               (service_with (width_checked_forest 23 (1 # 10) 1)))
            (plain_transaction 100) [] noon).
  { left. vm_compute. reflexivity. }
  split; [exact Hfail |].
  apply (proj1 (@scorer_failure_yields_analysis_error rational_numerics
                  (fits unfitted_forest)
                  (service_with (width_checked_forest 23 (1 # 10) 1))
                  (plain_transaction 100) [] noon) Hfail).
Defined.

(** Witness of C8, as amended: a transfer of 2000 at noon by a sender
    without history, scored 0.123456 by the model. *)
Lemma score_follows_rules_witness :
  exists result,
    @check_try rational_numerics (service_with (constant_forest (123456 # 1000000) 1))
      (plain_transaction 2000) [] noon = Some result
    /\ anomaly_score result
       = round (adjusted_score (123456 # 1000000) 2000 [] noon) 4
    /\ is_anomalous result
       = Py.Qgtb (adjusted_score (123456 # 1000000) 2000 [] noon) (1 # 2)
    /\ risk_factors result = expected_tags 2000 [] noon.
Proof.
  destruct (@check_try rational_numerics
              (service_with (constant_forest (123456 # 1000000) 1))
              (plain_transaction 2000) [] noon) as [result |] eqn:Htry;
    [| vm_compute in Htry; discriminate].
  exists result. split; [reflexivity |].
  destruct (@score_follows_rules rational_numerics _ _ _ _ result Htry)
    as (decision & label & tx_time & Hd & Hl & Ht & Hscore & Hflag & Htags).
  injection Hd as <-. injection Hl as <-. injection Ht as <-.
  rewrite Hscore, Hflag, Htags. cbn [get amount plain_transaction threshold service_with].
  rewrite orb_false_r. repeat split.
Defined.

(** Counterexample to C8 as stated: on that input the returned score is
    0.6765, while the normalized score plus the adjustment, clamped, is
    0.676544. *)
Lemma returned_score_is_rounded :
  let result :=
    fst (@check_transaction_anomaly rational_numerics (fits unfitted_forest)
           (service_with (constant_forest (123456 # 1000000) 1))
           (plain_transaction 2000) [] noon) in
  anomaly_score result = 6765 # 10000
  /\ (adjusted_score (123456 # 1000000) 2000 [] noon == 676544 # 1000000)%Q
  /\ ~ (anomaly_score result == adjusted_score (123456 # 1000000) 2000 [] noon)%Q.
Proof.
  cbv zeta. split; [vm_compute; reflexivity |]. split; [vm_compute; reflexivity |].
  vm_compute. discriminate.
Qed.

(** Counterexample to C6 as stated: whatever the model answers, scoring a
    transfer of 2000 from a sender without history never yields the tag
    [large_amount]; that rule needs an amount above 5000. *)
Lemma no_large_amount_tag_at_2000 :
  ~ exists (numerics : Numerics) (sklearn : Sklearn) (svc : AnomalyDetectionService)
           (id : option string) (stamp : option IsoString) (now : Z),
      In "large_amount"%string
         (risk_factors
            (fst (@check_transaction_anomaly numerics sklearn svc
                    {| transaction_id := id; amount := Some 2000%Q; timestamp := stamp |}
                    [] now))).
Proof.
  intros (numerics & sklearn & svc & id & stamp & now & Hin).
  unfold check_transaction_anomaly in Hin.
  destruct (check_try _ _ _ _) as [result |] eqn:Htry; cbn [fst] in Hin.
  - destruct (check_try_tags _ _ _ _ _ Htry) as (tx_time & _ & Htags).
    rewrite Htags in Hin. cbn [get amount] in Hin.
    rewrite (tags_at_2000 tx_time 2000%Q) in Hin by reflexivity.
    destruct Hin as [Hin | Hin]; [discriminate Hin |].
    destruct (unusual_time_rule tx_time); cbn in Hin.
    + destruct Hin as [Hin | []]. discriminate Hin.
    + destruct Hin.
  - cbn in Hin. destruct Hin as [Hin | []]. discriminate Hin.
Qed.

End ScoringRuns.

(** ** The in-memory orchestrator: nonces and idempotency keys *)

Section NonceFacts.
Import Enhanced.





End NonceFacts.

Section OrchestratorFacts.
Context `{Enhanced.TxDigest}.
Import Enhanced.









(** *** Idempotency *)

Lemma generated_id_truthy (env : Env) : Py.truthy (generate_transaction_id env) = true.
Proof. reflexivity. Qed.

Lemma replay_short_circuits (st : State) (payment_data : P2PPaymentRequest)
    (idempotency_key : string) (env : Env) (existing_tx_id : string) :
  check_idempotency st idempotency_key = Some existing_tx_id ->
  Py.truthy existing_tx_id = true ->
  p2p_payment st payment_data idempotency_key env
  = (Returned (already_processed st payment_data existing_tx_id), st).
Proof. intros Hhit Ht. unfold p2p_payment. rewrite Hhit, Ht. reflexivity. Qed.

(** What an executed transfer leaves behind. *)
Lemma process_payment_effects (st : State) (payment_data : P2PPaymentRequest)
    (idempotency_key : string) (new_balance fraud_score : Q) (credit_used : bool) (env : Env)
    (r : PaymentResponse) (st' : State) :
  process_payment st payment_data idempotency_key sender_id new_balance fraud_score
                  credit_used env = (Returned r, st') ->
  r_transaction_id r = generate_transaction_id env
  /\ idempotency_cache st' !! idempotency_key = Some (generate_transaction_id env)
  /\ users_db st'
     = alter incr_total (to_user payment_data)
         (alter (fun recipient =>
                   set_balance recipient (balance recipient + amount payment_data)%Q)
                (to_user payment_data)
                (alter incr_total sender_id
                   (alter (fun sender => set_balance sender new_balance) sender_id
                          (users_db st)))).
Proof.
  unfold process_payment, store_idempotency. intros Hp. injection Hp as <- <-.
  cbn. split; [reflexivity |]. split; [apply lookup_insert_eq | reflexivity].
Qed.

(** The branches of [p2p_payment] that return a response are the replay
    and the executed transfer. *)
Lemma p2p_payment_executed (st : State) (payment_data : P2PPaymentRequest)
    (idempotency_key : string) (env : Env) (r : PaymentResponse) (st' : State) :
  p2p_payment st payment_data idempotency_key env = (Returned r, st') ->
  executed r ->
  exists sender fraud_score credit_used mid,
    users_db st !! sender_id = Some sender
    /\ process_payment mid payment_data idempotency_key sender_id
         (balance sender - amount payment_data)%Q fraud_score credit_used env
       = (Returned r, st')
    /\ users_db mid
       = (if credit_used
          then alter (fun s => set_credit_used s
                                 (Qabs (balance sender - amount payment_data)))
                     sender_id (users_db st)
          else users_db st)
    /\ (Ai.get (credit_mode sender) false = false ->
        Py.Qltb (balance sender - amount payment_data) 0 = false).
Proof.
  unfold p2p_payment, executed. intros Hp Hexec.
  assert (Hpay : authorize_and_pay st payment_data idempotency_key env = (Returned r, st')).
  { destruct (check_idempotency st idempotency_key) as [existing |]; [| exact Hp].
    destruct (Py.truthy existing); [| exact Hp].
    injection Hp as <- <-. exfalso. apply Hexec. reflexivity. }
  clear Hp. unfold authorize_and_pay, decline in Hpay.
  destruct (validate_nonce _ _ _) as [valid cache].
  destruct valid; cbn [negb] in Hpay; [| discriminate].
  cbn [users_db set_nonce_cache fingerprints_db transactions_db] in Hpay.
  destruct (users_db st !! to_user payment_data); [| discriminate].
  destruct (users_db st !! sender_id) as [sender |]; [| discriminate].
  destruct (fingerprints_db st !! sender_id) as [stored_fp |]; [| discriminate].
  destruct (verify_fingerprint _ _) as [is_match confidence].
  destruct is_match; cbn [negb] in Hpay; [| discriminate].
  destruct (detect_fraud _ _ _ _) as [is_fraudulent fraud_score].
  destruct is_fraudulent; [discriminate |].
  destruct (Py.Qltb (balance sender - amount payment_data) 0) eqn:Hneg.
  - destruct (Ai.get (credit_mode sender) false) eqn:Hmode; cbn [negb] in Hpay;
      [| discriminate].
    destruct (Py.Qgtb _ _); [discriminate |].
    eexists sender, fraud_score, true, _. split; [reflexivity |].
    split; [exact Hpay |]. split; [reflexivity | congruence].
  - eexists sender, fraud_score, false, _. split; [reflexivity |].
    split; [exact Hpay |]. split; [reflexivity | intros _; exact Hneg].
Qed.

Lemma handle_keeps_idempotency (st : State) (req : Request) (key id : string) :
  idempotency_cache st !! key = Some id -> Py.truthy id = true ->
  idempotency_cache (handle st req) !! key = Some id.
Proof.
  intros Hk Ht. destruct req as [n now | payment_data key' env]; simpl; [exact Hk |].
  unfold p2p_payment.
  assert (Hpay : forall id', check_idempotency st key' = id' ->
            (match id' with Some e => Py.truthy e = false | None => True end) ->
            idempotency_cache (snd (authorize_and_pay st payment_data key' env)) !! key
            = Some id).
  { intros id' Hid' Hmiss.
    assert (Hne : key' <> key).
    { intros ->. unfold check_idempotency in Hid'. rewrite Hk in Hid'. subst id'.
      congruence. }
    unfold authorize_and_pay, decline, process_payment, store_idempotency.
    destruct (validate_nonce _ _ _) as [valid cache].
    destruct valid; cbn [negb]; [| exact Hk].
    cbn [users_db set_nonce_cache fingerprints_db transactions_db].
    destruct (users_db st !! to_user payment_data); [| exact Hk].
    destruct (users_db st !! sender_id) as [sender |]; [| exact Hk].
    destruct (fingerprints_db st !! sender_id) as [stored_fp |]; [| exact Hk].
    destruct (verify_fingerprint _ _) as [is_match confidence].
    destruct is_match; cbn [negb]; [| exact Hk].
    destruct (detect_fraud _ _ _ _) as [is_fraudulent fraud_score].
    destruct is_fraudulent; [exact Hk |].
    destruct (Py.Qltb _ 0).
    - destruct (negb _); [exact Hk |].
      destruct (Py.Qgtb _ _); [exact Hk |].
      cbn. rewrite lookup_insert_ne by exact Hne. exact Hk.
    - cbn. rewrite lookup_insert_ne by exact Hne. exact Hk. }
  destruct (check_idempotency st key') as [existing |] eqn:Hc.
  - destruct (Py.truthy existing) eqn:Hte; [exact Hk |].
    apply (Hpay (Some existing)); [reflexivity | exact Hte].
  - apply (Hpay None); [reflexivity | exact I].
Qed.

Lemma trace_keeps_idempotency (later : list Request) (st : State) (key id : string) :
  idempotency_cache st !! key = Some id -> Py.truthy id = true ->
  idempotency_cache (fold_left handle later st) !! key = Some id.
Proof.
  revert st. induction later as [| req later IH]; intros st Hk Ht; simpl; [exact Hk |].
  apply IH; [| exact Ht]. apply handle_keeps_idempotency; assumption.
Qed.

(** C5. A request whose idempotency key maps to a stored transaction id
    returns that id and leaves every store as it was, whatever its payload:
    no balance, transaction record or ledger entry changes. The id stored
    by an executed transfer is the one it returned, and it is still the
    answer after any further requests. *)
Theorem idempotent_replay :
  (forall (st : State) (payment_data : P2PPaymentRequest) (idempotency_key : string)
          (env : Env) (existing_tx_id : string),
      check_idempotency st idempotency_key = Some existing_tx_id ->
      Py.truthy existing_tx_id = true ->
      p2p_payment st payment_data idempotency_key env
      = (Returned (already_processed st payment_data existing_tx_id), st))
  /\ (forall (st : State) (payment_data : P2PPaymentRequest) (idempotency_key : string)
             (env : Env) (r : PaymentResponse) (st1 : State) (later : list Request)
             (payment_data' : P2PPaymentRequest) (env' : Env),
        p2p_payment st payment_data idempotency_key env = (Returned r, st1) ->
        executed r ->
        let st2 := fold_left handle later st1 in
        p2p_payment st2 payment_data' idempotency_key env'
        = (Returned (already_processed st2 payment_data' (r_transaction_id r)), st2)).
Proof.
  split; [exact replay_short_circuits |].
  intros st payment_data key env r st1 later payment_data' env' Hp Hexec st2.
  destruct (p2p_payment_executed _ _ _ _ _ _ Hp Hexec)
    as (sender & fraud_score & credit & mid & _ & Hproc & _).
  destruct (process_payment_effects _ _ _ _ _ _ _ _ _ Hproc) as (Hid & Hstored & _).
  apply replay_short_circuits.
  - unfold check_idempotency. subst st2. rewrite Hid.
    apply trace_keeps_idempotency; [exact Hstored | apply generated_id_truthy].
  - rewrite Hid. apply generated_id_truthy.
Qed.

(** *** Funds conservation in [p2p_payment] *)



End OrchestratorFacts.

(** ** The orchestrator over collections *)

Section CollectionFacts.
Import Payments.



End CollectionFacts.

Section RouterFacts.
Context `{Ledger.Hashlib} `{Ai.Numerics} `{Ai.Sklearn} `{Payments.Storage}.
Import Payments.


Lemma router_fraud_branch (fuel : nat) (st : State) (payment_request : P2PPaymentRequest)
    (current_user : UserDoc) (env : Env) :
  reaches_fraud_screen st payment_request current_user env ->
  let scored :=
    Ai.check_transaction_anomaly (anomaly_service st) (scored_transaction payment_request env)
      (user_history st (user_id current_user)) (utcnow env) in
  Ai.is_anomalous (fst scored) = true ->
  exists st',
    process_p2p_payment fuel st payment_request current_user env
    = Some (Returned {| success := false;
                        r_transaction_id := generate_transaction_id env;
                        message := FlaggedForReview;
                        balance_after := None; recipient_name := None;
                        anomaly_flagged := true;
                        r_anomaly_score := Some (Ai.anomaly_score (fst scored));
                        r_blockchain_recorded := false |}, st')
    /\ users st' = users st
    /\ ledger st' = ledger st
    /\ transactions st'
       = transactions st
         ++ [set_status (pending_transaction (user_id current_user) payment_request
                                             (fst scored) env) "flagged"].
Proof.
  intros (Hfp & Hauth & Hfunds & recipient & Hr). cbv zeta. intros Hflag.
  unfold process_p2p_payment. rewrite Hfp, Hauth, Hfunds, Hr. cbn [negb].
  fold (scored_transaction payment_request env).
  destruct (Ai.check_transaction_anomaly _ _ _ _) as [anomaly_result svc].
  cbn [fst] in *. rewrite Hflag.
  eexists. split; [reflexivity |]. cbn. auto.
Qed.



(** C6, as amended. For a transfer of 2000 by a sender without history
    that reaches the fraud screen, the scorer's tags are
    [new_user_large_amount] (and [unusual_time] before 6 o'clock), never
    [large_amount], unless scoring failed; and whenever the scorer reports
    the transfer as anomalous the orchestrator stores it with status
    [flagged], outside the ledger, answers with a declined response that
    carries the score, and leaves users and ledger as they were. *)
Theorem fraud_screen_at_2000 (fuel : nat) (st : State) (payment_request : P2PPaymentRequest)
    (current_user : UserDoc) (env : Env) :
  (p_amount payment_request == 2000)%Q ->
  user_history st (user_id current_user) = [] ->
  reaches_fraud_screen st payment_request current_user env ->
  let scored :=
    Ai.check_transaction_anomaly (anomaly_service st) (scored_transaction payment_request env)
      (user_history st (user_id current_user)) (utcnow env) in
  (Ai.risk_factors (fst scored)
     = "new_user_large_amount"%string
       :: Ai.tag (Ai.unusual_time_rule (utcnow env)) "unusual_time"
   \/ fst scored = Ai.analysis_error (scored_transaction payment_request env))
  /\ (Ai.is_anomalous (fst scored) = true ->
      exists st',
        process_p2p_payment fuel st payment_request current_user env
        = Some (Returned {| success := false;
                            r_transaction_id := generate_transaction_id env;
                            message := FlaggedForReview;
                            balance_after := None; recipient_name := None;
                            anomaly_flagged := true;
                            r_anomaly_score := Some (Ai.anomaly_score (fst scored));
                            r_blockchain_recorded := false |}, st')
        /\ users st' = users st
        /\ ledger st' = ledger st
        /\ transactions st'
           = transactions st
             ++ [set_status (pending_transaction (user_id current_user) payment_request
                                                 (fst scored) env) "flagged"]).
Proof.
  intros Hamount Hhist Hreach. cbv zeta. split.
  - rewrite Hhist. unfold Ai.check_transaction_anomaly.
    destruct (Ai.check_try _ _ _ _) as [result |] eqn:Htry; cbn [fst]; [left | right; reflexivity].
    destruct (check_try_tags _ _ _ _ _ Htry) as (tx_time & Htime & Htags).
    cbn in Htime. injection Htime as <-.
    rewrite Htags. cbn [Ai.get Ai.amount scored_transaction].
    apply tags_at_2000. exact Hamount.
  - apply router_fraud_branch. exact Hreach.
Qed.

End RouterFacts.

(** ** Funds conservation *)

Section FundsConservation.
Context `{Enhanced.TxDigest} `{Ledger.Hashlib} `{Ai.Numerics} `{Ai.Sklearn} `{Payments.Storage}.


End FundsConservation.

(** ** Concrete requests *)

Section OrchestratorRuns.
Import Examples.


(** Witness of C5: the happy-path transfer runs, other requests follow, and
    a replay of its key with another recipient amount and nonce returns the
    first transaction id and changes no store. *)
Lemma idempotent_replay_witness :
  let st1 :=
    snd (@Enhanced.p2p_payment digest_of_id stores happy_payment first_key first_env) in
  let st2 := fold_left (@Enhanced.handle digest_of_id) interleaved st1 in
  @Enhanced.p2p_payment digest_of_id st2 other_payload first_key later_env
  = (Enhanced.Returned (Enhanced.already_processed st2 other_payload "tx_00000000000000a1"),
     st2).
Proof.
  cbv zeta.
  pose proof (@idempotent_replay digest_of_id) as [_ Hreplay].
  destruct (@Enhanced.p2p_payment digest_of_id stores happy_payment first_key first_env)
    as [[code detail error_code | r] st1] eqn:Hrun.
  { vm_compute in Hrun. discriminate Hrun. }
  cbn [snd].
  assert (Hid : Enhanced.r_transaction_id r = "tx_00000000000000a1"
                /\ Enhanced.executed r).
  { pose proof Hrun as Hc. vm_compute in Hc. injection Hc as <- _.
    split; [reflexivity | discriminate]. }
  destruct Hid as [Hid Hexec]. rewrite <- Hid.
  exact (Hreplay stores happy_payment first_key first_env r st1 interleaved other_payload
                 later_env Hrun Hexec).
Defined.



(** Witness of C6, as amended: 2000 from a sender without history, scored
    0.1 by the model: the adjusted score 0.7 exceeds the threshold and the
    transfer is declined with users and ledger untouched. *)
Lemma fraud_screen_at_2000_witness :
  exists st',
    @Payments.process_p2p_payment Json.python_hashlib rational_numerics
      (fits unfitted_forest) party_storage 1
      (collections (constant_forest (1 # 10) 1)) (transfer "user_ben" 2000) asha router_env
    = Some (Payments.Returned
              {| Payments.success := false;
                 Payments.r_transaction_id := "tx_00000000000000aa";
                 Payments.message := Payments.FlaggedForReview;
                 Payments.balance_after := None; Payments.recipient_name := None;
                 Payments.anomaly_flagged := true;
                 Payments.r_anomaly_score := Some (7000 # 10000);
                 Payments.r_blockchain_recorded := false |}, st')
    /\ Payments.users st' = [asha; ben]
    /\ Payments.ledger st' = fresh_ledger
    /\ List.length (Payments.transactions st') = 1%nat.
Proof.
  destruct (@fraud_screen_at_2000 Json.python_hashlib rational_numerics
              (fits unfitted_forest) party_storage 1
              (collections (constant_forest (1 # 10) 1)) (transfer "user_ben" 2000) asha
              router_env) as [_ Hdecline].
  - reflexivity.
  - reflexivity.
  - repeat split. exists ben. reflexivity.
  - destruct Hdecline as (st' & Hrun & Husers & Hledger & Htxs).
    + vm_compute. reflexivity.
    + exists st'. split; [exact Hrun |]. split; [exact Husers |].
      split; [exact Hledger |]. rewrite Htxs. reflexivity.
Defined.

(** With a model that validates the width of its input, as scikit-learn's
    estimators do, the 18 features of the normal path make every model call
    raise: the same transfer of 2000 is scored 0 and goes through. *)
Example width_check_lets_2000_through :
  exists r st',
    @Payments.process_p2p_payment Json.python_hashlib rational_numerics
      (fits unfitted_forest) party_storage 1
      (collections (width_checked_forest 23 (1 # 10) 1)) (transfer "user_ben" 2000) asha
      router_env = Some (Payments.Returned r, st')
    /\ Payments.success r = true
    /\ Payments.r_anomaly_score r = Some 0%Q
    /\ Payments.balance <$> Payments.find_one (Payments.users st') "user_asha"
       = Some (3000 - 2000)%Q.
Proof.
  destruct (@Payments.process_p2p_payment Json.python_hashlib rational_numerics
              (fits unfitted_forest) party_storage 1
              (collections (width_checked_forest 23 (1 # 10) 1)) (transfer "user_ben" 2000)
              asha router_env) as [[[code detail | r] st'] |] eqn:Hrun.
  { vm_compute in Hrun. discriminate Hrun. }
  2: { vm_compute in Hrun. discriminate Hrun. }
  exists r, st'. split; [reflexivity |].
  vm_compute in Hrun. injection Hrun as <- <-. repeat split.
Qed.

End OrchestratorRuns.

(** ** The ledger beyond the chain links: validity, numbering, fresh ids,
    automatic mining and the reported statistics *)

Section LedgerInvariants.
Context `{Ledger.Hashlib}.
Import Ledger.

Lemma step_difficulty (bc bc' : Blockchain) :
  step bc bc' -> 0 < difficulty bc ->
  difficulty bc' = difficulty bc /\ mining_reward bc' = mining_reward bc.
Proof.
  intros Hstep Hd. destruct Hstep as [bc tx | bc fuel addr clock r bc' Hm].
  - unfold add_transaction. destruct (_validate_transaction bc tx); simpl; auto.
  - destruct (mine_pending_chain _ _ _ _ _ _ Hm Hd) as [Hdd [[_ ->] | Hmined]];
      [auto |].
    split; [exact Hdd |].
    unfold mine_pending_transactions in Hm.
    destruct (pending_transactions bc); [injection Hm as _ <-; reflexivity |].
    destruct (get_latest_block bc); [| injection Hm as _ <-; reflexivity].
    destruct (mine_block _ _ _); [| discriminate].
    injection Hm as _ <-. reflexivity.
Qed.

Lemma reachable_settings (now : string) (bc : Blockchain) :
  reachable now bc ->
  difficulty bc = Settings.blockchain_difficulty
  /\ mining_reward bc = Settings.mining_reward.
Proof.
  induction 1 as [| bc bc' Hr [IHd IHr] Hstep]; [split; reflexivity |].
  destruct (step_difficulty bc bc' Hstep) as [Hd Hm].
  { rewrite IHd. reflexivity. }
  rewrite Hd, Hm. auto.
Qed.

Lemma numbered_snoc (c : list Block) (b : Block) :
  numbered c -> index b = Z.of_nat (List.length c) -> numbered (c ++ [b]).
Proof.
  intros Hn Hb i x Hx.
  destruct (decide (i < List.length c)%nat) as [Hin | Hout].
  - rewrite lookup_app_l in Hx by exact Hin. apply Hn. exact Hx.
  - rewrite lookup_app_r in Hx by lia.
    destruct (i - List.length c)%nat as [| k] eqn:Hk; simpl in Hx; [| destruct k; discriminate].
    injection Hx as <-. rewrite Hb. f_equal. lia.
Qed.

Lemma mined_after_genesis_snoc (d : Z) (c : list Block) (b : Block) :
  mined_after_genesis d c -> has_prefix d (hash b) = true ->
  mined_after_genesis d (c ++ [b]).
Proof.
  intros Hm Hb i x Hpos Hx.
  destruct (decide (i < List.length c)%nat) as [Hin | Hout].
  - rewrite lookup_app_l in Hx by exact Hin. apply (Hm i); assumption.
  - rewrite lookup_app_r in Hx by lia.
    destruct (i - List.length c)%nat as [| k] eqn:Hk; simpl in Hx; [| destruct k; discriminate].
    injection Hx as <-. exact Hb.
Qed.

(** The blocks the operations append carry their position and the prefix. *)
Lemma reachable_numbered (now : string) (bc : Blockchain) :
  reachable now bc ->
  numbered (chain bc) /\ mined_after_genesis (difficulty bc) (chain bc).
Proof.
  induction 1 as [| bc bc' Hr [IHn IHm] Hstep].
  - split.
    + intros [| i] b Hb; simpl in Hb; [injection Hb as <-; reflexivity | destruct i; discriminate].
    + intros [| i] b Hpos Hb; [lia |]. simpl in Hb. destruct i; discriminate.
  - pose proof (reachable_inv now bc Hr) as (Hd & _ & _).
    destruct Hstep as [bc tx | bc fuel addr clock r bc' Hm].
    + destruct (add_transaction_chain bc tx) as [-> ->]. auto.
    + destruct (mine_pending_chain _ _ _ _ _ _ Hm Hd) as [Hdd [[_ ->] | Hmined]];
        [auto |].
      destruct Hmined as (latest & b & _ & _ & Hc & _ & _ & _ & Hi & Hp & _).
      rewrite Hdd, Hc. split.
      * apply numbered_snoc; assumption.
      * apply mined_after_genesis_snoc; assumption.
Qed.

(** X1. A chain built by [Blockchain.__init__], [add_transaction] and
    [mine_pending_transactions] alone always passes [is_chain_valid], and
    [get_blockchain_info] reports it as valid. *)
Theorem built_chain_validates (now : string) (bc : Blockchain) :
  reachable now bc ->
  is_chain_valid bc = true /\ is_valid (get_blockchain_info bc) = true.
Proof.
  intros Hr.
  assert (Hv : is_chain_valid bc = true).
  { apply is_chain_valid_spec. intros i Hpos cur Hcur.
    destruct (reachable_inv now bc Hr) as (_ & _ & Hl).
    destruct (reachable_numbered now bc Hr) as [_ Hm].
    destruct i as [| j]; [lia |].
    destruct (lookup_lt_is_Some_2 (chain bc) j) as [prev Hprev].
    { apply lookup_lt_Some in Hcur. lia. }
    destruct (Hl j cur prev Hcur Hprev) as [Hp Hs].
    split; [exact Hs |]. split.
    - intros prev' _ Hprev'. replace (S j - 1)%nat with j in Hprev' by lia. congruence.
    - apply (Hm (S j)); [lia | exact Hcur]. }
  split; [exact Hv | exact Hv].
Qed.

(** *** The guard of [add_transaction] *)

Lemma truthy_iff (s : string) : Py.truthy s = true <-> s <> EmptyString.
Proof.
  unfold Py.truthy. rewrite negb_true_iff. apply string_eqb_false.
Qed.

Lemma Qgtb_iff (a b : Q) : Py.Qgtb a b = true <-> (b < a)%Q.
Proof.
  unfold Py.Qgtb. rewrite negb_true_iff. split.
  - intros Hf. apply Qnot_le_lt. intros Hle. apply Qle_bool_iff in Hle. congruence.
  - intros Hlt. destruct (Qle_bool a b) eqn:E; [| reflexivity].
    apply Qle_bool_iff in E. exfalso. eapply Qlt_not_le; eassumption.
Qed.

Lemma validate_iff (bc : Blockchain) (tx : Transaction) :
  _validate_transaction bc tx = true <->
  well_formed tx /\ ~ on_chain bc (transaction_id tx).
Proof.
  unfold _validate_transaction, well_formed, on_chain.
  destruct (Py.truthy (from_user tx)) eqn:E1; simpl.
  2: { split; [discriminate |]. intros [(Hf & _) _].
       apply truthy_iff in Hf. congruence. }
  destruct (Py.truthy (to_user tx)) eqn:E2; simpl.
  2: { split; [discriminate |]. intros [(_ & Ht & _) _].
       apply truthy_iff in Ht. congruence. }
  destruct (Py.Qgtb (amount tx) 0) eqn:E3; simpl.
  2: { split; [discriminate |]. intros [(_ & _ & Ha & _) _].
       apply Qgtb_iff in Ha. congruence. }
  destruct (Py.truthy (transaction_id tx)) eqn:E4; simpl.
  2: { split; [discriminate |]. intros [(_ & _ & _ & Hi) _].
       apply truthy_iff in Hi. congruence. }
  apply truthy_iff in E1, E2, E4. apply Qgtb_iff in E3.
  rewrite negb_true_iff. split.
  - intros Hex. split; [auto |].
    intros (b & t & Hb & Ht & Hid).
    assert (Hyes : existsb (fun block =>
              existsb (fun tx0 => String.eqb (transaction_id tx0) (transaction_id tx))
                      (transactions block)) (chain bc) = true).
    { apply existsb_exists. exists b. split; [exact Hb |].
      apply existsb_exists. exists t. split; [exact Ht |].
      apply String.eqb_eq. exact Hid. }
    congruence.
  - intros [_ Hfresh].
    destruct (existsb _ (chain bc)) eqn:E; [| reflexivity].
    apply existsb_exists in E. destruct E as (b & Hb & E).
    apply existsb_exists in E. destruct E as (t & Ht & E).
    apply String.eqb_eq in E. exfalso. apply Hfresh. exists b, t. auto.
Qed.

(** *** Ids along the chain *)

Lemma submitted_snoc (b : Block) (txs : list Transaction) (reward : Transaction) :
  transactions b = txs ++ [reward] -> submitted b = txs.
Proof. intros Ht. unfold submitted. rewrite Ht. apply removelast_last. Qed.

Lemma in_chain_lookup (c : list Block) (b : Block) :
  In b c <-> exists i, c !! i = Some b.
Proof.
  rewrite <- list_elem_of_In. apply list_elem_of_lookup.
Qed.

Lemma step_ids_fresh (bc bc' : Blockchain) :
  step bc bc' -> 0 < difficulty bc -> ids_fresh bc -> ids_fresh bc'.
Proof.
  intros Hstep Hd [Hblocks Hpend].
  destruct Hstep as [bc tx | bc fuel addr clock r bc' Hm].
  - unfold add_transaction.
    destruct (_validate_transaction bc tx) eqn:Hv; simpl; [| split; assumption].
    split; [exact Hblocks |].
    intros b t p Hb Ht Hp. cbn [chain set_pending] in Hb.
    cbn [pending_transactions set_pending] in Hp.
    apply in_app_or in Hp. destruct Hp as [Hp | [<- | []]].
    + eapply Hpend; eassumption.
    + apply validate_iff in Hv. destruct Hv as [_ Hfresh].
      intros Hid. apply Hfresh. exists b, t. auto.
  - destruct (mine_pending_chain _ _ _ _ _ _ Hm Hd) as [_ [[_ ->] | Hmined]];
      [split; assumption |].
    destruct Hmined as (latest & b & _ & _ & Hc & Hp' & _ & _ & _ & _ & Htx).
    split.
    + intros i j bi bj ti tj Hij Hi Hj Hti Htj. rewrite Hc in Hi, Hj.
      assert (Hilt : (i < List.length (chain bc))%nat).
      { apply lookup_lt_Some in Hj. rewrite length_app in Hj. simpl in Hj. lia. }
      rewrite lookup_app_l in Hi by exact Hilt.
      destruct (decide (j < List.length (chain bc))%nat) as [Hin | Hout].
      * rewrite lookup_app_l in Hj by exact Hin.
        apply (Hblocks i j bi bj ti tj); assumption.
      * rewrite lookup_app_r in Hj by lia.
        destruct (j - List.length (chain bc))%nat as [| k]; simpl in Hj;
          [| destruct k; discriminate].
        injection Hj as <-. rewrite (submitted_snoc _ _ _ Htx) in Htj.
        apply (Hpend bi ti tj); [| exact Hti | exact Htj].
        apply in_chain_lookup. eauto.
    + intros b0 t p _ _ Hp. rewrite Hp' in Hp. destruct Hp.
Qed.

(** X2. The duplicate guard at work: in a ledger built by the operations,
    a transaction taken from the pending buffer into a block never repeats
    the id of a transaction of an earlier block, and a pending transaction
    never repeats an id of the chain. (Mining rewards, whose ids come from
    the clock, are not covered by the guard.) *)
Theorem accepted_ids_are_fresh (now : string) (bc : Blockchain) :
  reachable now bc -> ids_fresh bc.
Proof.
  induction 1 as [| bc bc' Hr IH Hstep].
  - split.
    + intros i j bi bj ti tj Hij Hi Hj Hti Htj.
      destruct j as [| j]; [lia |]. simpl in Hj. destruct j; discriminate.
    + intros b t p _ _ [].
  - apply (step_ids_fresh bc bc' Hstep); [| exact IH].
    apply (reachable_inv now bc Hr).
Qed.

(** *** What a block holds *)

Lemma reward_positive (bc : Blockchain) (addr : string) (clock : MineClock) :
  mining_reward bc = Settings.mining_reward ->
  (0 < amount (reward_transaction bc addr clock))%Q
  /\ from_user (reward_transaction bc addr clock) = "system"
  /\ transaction_id (reward_transaction bc addr clock) <> EmptyString.
Proof.
  intros Hm. cbn [reward_transaction amount from_user transaction_id]. rewrite Hm.
  split; [reflexivity |]. split; [reflexivity | discriminate].
Qed.

(** X3. Every transaction of a ledger built by the operations, pending or
    committed, has a positive amount, a non-empty sender and a non-empty
    id: the pending ones passed the guard, and the only others are the
    mining rewards of 10.0 from "system". *)
Theorem recorded_amounts_positive (now : string) (bc : Blockchain) (t : Transaction) :
  reachable now bc ->
  In t (pending_transactions bc) \/ (exists b, In b (chain bc) /\ In t (transactions b)) ->
  (0 < amount t)%Q /\ from_user t <> EmptyString /\ transaction_id t <> EmptyString.
Proof.
  intros Hr. revert t.
  induction Hr as [| bc bc' Hr IH Hstep]; intros t Hin.
  - destruct Hin as [[] | (b & [<- | []] & [])].
  - pose proof (reachable_inv now bc Hr) as (Hd & _ & _).
    destruct (reachable_settings now bc Hr) as [_ Hreward].
    destruct Hstep as [bc tx | bc fuel addr clock r bc' Hm].
    + unfold add_transaction in Hin.
      destruct (_validate_transaction bc tx) eqn:Hv; simpl in Hin; [| apply IH; exact Hin].
      destruct Hin as [Hp | Hc]; [| apply IH; right; exact Hc].
      apply in_app_or in Hp. destruct Hp as [Hp | [<- | []]]; [apply IH; left; exact Hp |].
      apply validate_iff in Hv. destruct Hv as [(Hf & _ & Ha & Hi) _]. auto.
    + destruct (mine_pending_chain _ _ _ _ _ _ Hm Hd) as [_ [[_ ->] | Hmined]];
        [apply IH; exact Hin |].
      destruct Hmined as (latest & b & _ & _ & Hc & Hp' & _ & _ & _ & _ & Htx).
      destruct Hin as [Hp | (b0 & Hb0 & Ht)]; [rewrite Hp' in Hp; destruct Hp |].
      rewrite Hc in Hb0. apply in_app_or in Hb0.
      destruct Hb0 as [Hb0 | [<- | []]]; [apply IH; right; eauto |].
      rewrite Htx in Ht. apply in_app_or in Ht.
      destruct Ht as [Ht | [<- | []]]; [apply IH; left; exact Ht |].
      destruct (reward_positive bc addr clock Hreward) as (Ha & Hf & Hi).
      split; [exact Ha |]. split; [rewrite Hf; discriminate | exact Hi].
Qed.

(** *** Mining and the statistics *)

Lemma total_transactions_snoc (bc : Blockchain) (c : list Block) (b : Block) :
  fold_right Z.add 0 (map (fun block => Z.of_nat (List.length (transactions block))) (c ++ [b]))
  = fold_right Z.add 0 (map (fun block => Z.of_nat (List.length (transactions block))) c)
    + Z.of_nat (List.length (transactions b)).
Proof.
  induction c as [| x c IH]; simpl; [lia |]. rewrite IH. lia.
Qed.

(** X4. A mining call that returns a block moves the whole pending buffer
    into it and appends the reward as its last transaction: the statistics
    then count one block more, the pending transactions plus one
    transaction more, and nothing pending. With nothing pending the call
    returns [None] and changes nothing. *)
Theorem mining_moves_pending_into_block (fuel : nat) (bc : Blockchain) (addr : string)
    (clock : MineClock) (r : option Block) (bc' : Blockchain) :
  mine_pending_transactions fuel bc addr clock = Some (r, bc') ->
  (pending_transactions bc = [] -> r = None /\ bc' = bc)
  /\ (forall b, r = Some b ->
        transactions b = pending_transactions bc ++ [reward_transaction bc addr clock]
        /\ last (chain bc') = Some b
        /\ total_blocks (get_blockchain_info bc')
           = total_blocks (get_blockchain_info bc) + 1
        /\ total_transactions (get_blockchain_info bc')
           = total_transactions (get_blockchain_info bc)
             + info_pending_transactions (get_blockchain_info bc) + 1
        /\ info_pending_transactions (get_blockchain_info bc') = 0).
Proof.
  unfold mine_pending_transactions. intros Hm. split.
  - intros Hp. rewrite Hp in Hm. injection Hm as <- <-. auto.
  - intros b Hb. subst r.
    destruct (pending_transactions bc) as [| t ts] eqn:Hp; [discriminate |].
    destruct (get_latest_block bc) as [latest |]; [| discriminate].
    destruct (mine_block fuel (difficulty bc) _) as [nb |] eqn:Hmb; [| discriminate].
    injection Hm as <- <-.
    apply mine_block_content in Hmb. destruct Hmb as (_ & _ & Htx & _).
    cbn [transactions] in Htx.
    split; [exact Htx |].
    cbn [get_blockchain_info total_blocks total_transactions info_pending_transactions
         chain pending_transactions set_pending set_chain].
    split; [apply last_snoc |].
    split; [rewrite length_app; simpl; lia |].
    split; [| reflexivity].
    rewrite (total_transactions_snoc bc). rewrite Htx, Hp, length_app. simpl. lia.
Qed.

(** *** Automatic mining through the service *)

Lemma mine_clears_pending (fuel : nat) (bc : Blockchain) (addr : string)
    (clock : MineClock) (r : option Block) (bc' : Blockchain) :
  mine_pending_transactions fuel bc addr clock = Some (r, bc') ->
  chain bc <> [] ->
  pending_transactions bc' = []
  /\ (chain bc' = chain bc
      \/ exists b, chain bc' = chain bc ++ [b]
                   /\ List.length (transactions b)
                      = S (List.length (pending_transactions bc))).
Proof.
  unfold mine_pending_transactions, get_latest_block. intros Hm Hne.
  destruct (pending_transactions bc) as [| t ts] eqn:Hp.
  { injection Hm as _ <-. auto. }
  destruct (last (chain bc)) as [latest |] eqn:Hl.
  2: { apply last_None in Hl. contradiction. }
  destruct (mine_block fuel (difficulty bc) _) as [nb |] eqn:Hmb; [| discriminate].
  injection Hm as _ <-. split; [reflexivity |]. right. exists nb.
  split; [reflexivity |].
  apply mine_block_content in Hmb. destruct Hmb as (_ & _ & Htx & _).
  rewrite Htx. cbn [transactions]. rewrite length_app. simpl. lia.
Qed.

Lemma service_step_bounds (bc bc' : Blockchain) :
  service_step bc bc' ->
  ledger_inv bc ->
  (List.length (pending_transactions bc) < 5)%nat ->
  (forall b, In b (chain bc) -> (List.length (transactions b) <= 6)%nat) ->
  ledger_inv bc'
  /\ (List.length (pending_transactions bc') < 5)%nat
  /\ (forall b, In b (chain bc') -> (List.length (transactions b) <= 6)%nat).
Proof.
  intros Hstep Hinv Hlen Hblocks.
  destruct Hstep as [bc fuel from to amt ty id now clock ok bc' Hs
                    | bc fuel clock r bc' Hm].
  - unfold service_add_transaction in Hs.
    match type of Hs with
    | context [add_transaction bc ?tx] =>
        pose proof (step_inv _ _ (step_add bc tx) Hinv) as Hinv1;
        pose proof (add_transaction_chain bc tx) as [Hc1 _];
        assert (Hlen1 : (List.length (pending_transactions (snd (add_transaction bc tx)))
                         <= 5)%nat)
          by (unfold add_transaction; destruct (_validate_transaction bc tx); simpl;
              [rewrite length_app; simpl; lia | lia]);
        assert (Hrej : fst (add_transaction bc tx) = false ->
                       pending_transactions (snd (add_transaction bc tx))
                       = pending_transactions bc)
          by (unfold add_transaction; destruct (_validate_transaction bc tx); simpl;
              [discriminate | reflexivity]);
        destruct (add_transaction bc tx) as [success bc1]
    end.
    cbn [snd fst] in Hinv1, Hc1, Hlen1, Hrej.
    destruct (success && (5 <=? Z.of_nat (List.length (pending_transactions bc1)))) eqn:E.
    + destruct (mine_pending_transactions fuel bc1 "system" clock) as [[r bc2] |] eqn:Hm;
        [| discriminate].
      injection Hs as _ <-.
      split; [eapply step_inv; [eapply step_mine; exact Hm | exact Hinv1] |].
      destruct Hinv1 as (_ & Hne & _).
      destruct (mine_clears_pending _ _ _ _ _ _ Hm Hne) as [Hp Hc].
      rewrite Hp. split; [simpl; lia |].
      intros b Hb. destruct Hc as [Hc | (nb & Hc & Hn)]; rewrite Hc in Hb.
      * rewrite Hc1 in Hb. apply Hblocks. exact Hb.
      * apply in_app_or in Hb. destruct Hb as [Hb | [<- | []]].
        -- rewrite Hc1 in Hb. apply Hblocks. exact Hb.
        -- rewrite Hn. lia.
    + injection Hs as _ <-. split; [exact Hinv1 |]. split.
      * apply andb_false_iff in E. destruct E as [-> | E].
        -- rewrite Hrej by reflexivity. exact Hlen.
        -- apply Z.leb_gt in E. lia.
      * intros b Hb. rewrite Hc1 in Hb. apply Hblocks. exact Hb.
  - unfold service_mine_block in Hm.
    split; [eapply step_inv; [eapply step_mine; exact Hm | exact Hinv] |].
    destruct Hinv as (_ & Hne & _).
    destruct (mine_clears_pending _ _ _ _ _ _ Hm Hne) as [Hp Hc].
    rewrite Hp. split; [simpl; lia |].
    intros b Hb. destruct Hc as [Hc | (nb & Hc & Hn)]; rewrite Hc in Hb.
    + apply Hblocks. exact Hb.
    + apply in_app_or in Hb. destruct Hb as [Hb | [<- | []]]; [apply Hblocks; exact Hb |].
      rewrite Hn. lia.
Qed.

(** X5. Through [BlockchainService] the pending buffer never reaches five
    transactions at rest: the fifth accepted one triggers mining, which
    empties it. Hence no block holds more than six transactions, the
    reward included. *)
Theorem auto_mining_bounds_pending (now : string) (bc : Blockchain) :
  service_reachable now bc ->
  (List.length (pending_transactions bc) < 5)%nat
  /\ (forall b, In b (chain bc) -> (List.length (transactions b) <= 6)%nat).
Proof.
  intros Hr.
  assert (Hall : ledger_inv bc
                 /\ (List.length (pending_transactions bc) < 5)%nat
                 /\ (forall b, In b (chain bc) -> (List.length (transactions b) <= 6)%nat)).
  { induction Hr as [| bc bc' Hr (IHi & IHp & IHb) Hstep].
    - split; [apply init_inv |]. split; [simpl; lia |].
      intros b [<- | []]. simpl. lia.
    - apply (service_step_bounds bc bc'); assumption. }
  destruct Hall as (_ & Hp & Hb). split; assumption.
Qed.

End LedgerInvariants.

(** ** The scorer beyond the score formula: range, hours, velocity
    features and the width the model was fitted on *)

Section ScoringBounds.
Context `{Ai.Numerics} `{Ai.Sklearn}.
Import Ai.

(** The parts of a result of the [try] block, with the score before the
    final cap written as the sum the block accumulates. *)
Lemma check_try_parts (svc : AnomalyDetectionService) (transaction : TransactionDict)
    (user_history : list HistoryDict) (now : Z) (result : AnomalyResult) :
  check_try svc transaction user_history now = Some result ->
  exists decision label tx_time n,
    decision_function (model svc) (extract_features transaction user_history now)
      = Some decision
    /\ predict (model svc) (extract_features transaction user_history now) = Some label
    /\ fromisoformat (get (timestamp transaction) (Iso now)) = Some tx_time
    /\ anomaly_score result = round (Qmin 1 n) 4
    /\ is_anomalous result = Py.Qgtb (Qmin 1 n) (threshold svc) || (label =? -1)
    /\ (n == Qmax 0 (Qmin 1 (((1 # 2) - decision) / 1))
            + adjustment (large_amount_rule (get (amount transaction) 0%Q)) (2 # 10)
            + adjustment (new_user_rule user_history (get (amount transaction) 0%Q)) (3 # 10)
            + adjustment (unusual_time_rule tx_time) (1 # 10)
            + adjustment (rapid_rule tx_time user_history) (2 # 10))%Q.
Proof.
  rewrite check_try_unfold.
  destruct (decision_function _ _) as [decision |]; [| discriminate].
  destruct (predict _ _) as [label |]; [| discriminate].
  destruct (fromisoformat (get (timestamp transaction) (Iso now))) as [tx_time |];
    [| discriminate].
  cbv zeta.
  match goal with
  | |- context [rapid_stage ?t ?h ?rf ?n] =>
      destruct (rapid_stage t h rf n) as [[rf' n'] |] eqn:Hstage; [| discriminate]
  end.
  apply rapid_stage_some in Hstage. destruct Hstage as [-> ->].
  intros Hr. injection Hr as <-. eexists decision, label, tx_time, _.
  cbn [anomaly_score is_anomalous].
  split; [reflexivity |]. split; [reflexivity |]. split; [reflexivity |].
  split; [reflexivity |]. split; [reflexivity |].
  destruct (large_amount_rule _), (new_user_rule _ _), (unusual_time_rule tx_time),
    (rapid_rule tx_time user_history); unfold adjustment; ring.
Qed.

Lemma adjustment_nonneg (rule : bool) (bonus : Q) :
  (0 <= bonus)%Q -> (0 <= adjustment rule bonus)%Q.
Proof. intros Hb. destruct rule; simpl; [exact Hb | apply Qle_refl]. Qed.

Lemma round_half_even_bounds (y : Q) (top : Z) :
  (0 <= y)%Q -> (y <= inject_Z top)%Q -> 0 <= round_half_even y <= top.
Proof.
  intros Hlo Hhi. unfold round_half_even.
  assert (Hf0 : 0 <= Qfloor y).
  { change 0 with (Qfloor 0). apply Qfloor_resp_le. exact Hlo. }
  assert (Hft : Qfloor y <= top).
  { rewrite <- (Qfloor_Z top). apply Qfloor_resp_le. exact Hhi. }
  destruct (Z.eq_dec (Qfloor y) top) as [Heq | Hne].
  - assert (Hc : Qcompare (y - inject_Z (Qfloor y)) (1 # 2) = Lt).
    { apply Qlt_alt. rewrite Heq.
      apply Qle_lt_trans with (y := 0%Q); [| reflexivity].
      apply (Qplus_le_l _ _ (inject_Z top)). ring_simplify. exact Hhi. }
    rewrite Hc. lia.
  - destruct (Qcompare _ _); [destruct (Z.even _) | |]; lia.
Qed.

Lemma round_unit (x : Q) (ndigits : nat) :
  (0 <= x)%Q -> (x <= 1)%Q -> (0 <= round x ndigits)%Q /\ (round x ndigits <= 1)%Q.
Proof.
  intros Hlo Hhi. unfold round.
  assert (Hpos : 0 < 10 ^ Z.of_nat ndigits) by (apply Z.pow_pos_nonneg; lia).
  set (scale := Z.to_pos (10 ^ Z.of_nat ndigits)).
  assert (Hs : Z.pos scale = 10 ^ Z.of_nat ndigits) by (subst scale; apply Z2Pos.id; exact Hpos).
  destruct (round_half_even_bounds (x * inject_Z (Z.pos scale)) (Z.pos scale)) as [Hr0 Hr1].
  - apply Qmult_le_0_compat; [exact Hlo |]. unfold Qle. simpl. lia.
  - rewrite <- (Qmult_1_l (inject_Z (Z.pos scale))) at 2.
    apply Qmult_le_compat_r; [exact Hhi |]. unfold Qle. simpl. lia.
  - split; unfold Qle; simpl; lia.
Qed.

(** X6. The score [check_transaction_anomaly] returns always lies between
    0 and 1, on the path that scores and on the path that reports an
    analysis error, whatever the model answers. *)
Theorem returned_score_in_unit_interval (svc : AnomalyDetectionService)
    (transaction : TransactionDict) (user_history : list HistoryDict) (now : Z) :
  (0 <= anomaly_score (fst (check_transaction_anomaly svc transaction user_history now)))%Q
  /\ (anomaly_score (fst (check_transaction_anomaly svc transaction user_history now)) <= 1)%Q.
Proof.
  unfold check_transaction_anomaly.
  destruct (check_try (ensure_trained svc) transaction user_history now) as [result |] eqn:Hc.
  - cbn [fst].
    destruct (check_try_parts _ _ _ _ _ Hc) as (decision & label & tx_time & n & _ & _ & _
                                                & Hscore & _ & Hn).
    rewrite Hscore. apply round_unit.
    + apply Q.min_glb; [discriminate |]. rewrite Hn.
      repeat (apply Qplus_nonneg_sum; [| apply adjustment_nonneg; discriminate]).
      apply Q.le_max_l.
    + apply Q.le_min_l.
  - cbn. split; discriminate.
Qed.

(** *** The hour test *)

Lemma hour_range (t : Z) : 0 <= hour t < 24.
Proof. unfold hour. apply Z.mod_pos_bound. lia. Qed.

Lemma unusual_time_rule_iff (t : Z) : unusual_time_rule t = true <-> hour t < 6.
Proof.
  unfold unusual_time_rule. pose proof (hour_range t) as Hr.
  rewrite orb_true_iff, !Z.ltb_lt. lia.
Qed.

Lemma in_tag (rule : bool) (name x : string) : In x (tag rule name) <-> rule = true /\ x = name.
Proof.
  destruct rule; simpl; split.
  - intros [<- | []]. auto.
  - intros [_ ->]. auto.
  - intros [].
  - intros [Hf _]. discriminate.
Qed.

(** X7. A scored transaction is tagged [unusual_time] exactly when its
    hour is below 6: hours run from 0 to 23, so the second half of the
    source's test, [hour > 23], never holds. *)
Theorem unusual_time_means_before_six (svc : AnomalyDetectionService)
    (transaction : TransactionDict) (user_history : list HistoryDict) (now : Z)
    (result : AnomalyResult) :
  check_try svc transaction user_history now = Some result ->
  exists tx_time,
    fromisoformat (get (timestamp transaction) (Iso now)) = Some tx_time
    /\ (23 <? hour tx_time) = false
    /\ (In "unusual_time" (risk_factors result) <-> hour tx_time < 6).
Proof.
  intros Hc. destruct (check_try_tags _ _ _ _ _ Hc) as (tx_time & Hts & Htags).
  exists tx_time. split; [exact Hts |]. split.
  - apply Z.ltb_ge. pose proof (hour_range tx_time). lia.
  - rewrite Htags. unfold expected_tags. rewrite !in_app_iff, !in_tag.
    rewrite unusual_time_rule_iff. split.
    + intros [[_ Hx] | [[_ Hx] | [[Hh _] | [_ Hx]]]]; try discriminate Hx. exact Hh.
    + intros Hh. right. right. left. auto.
Qed.

(** *** A first payment above 5000 at night *)

(** X8. Whatever the model answers, a transaction that is scored is
    flagged when its amount exceeds 5000, the sender has no history and the
    hour is below 6: the three bonuses add up to 0.6, above the configured
    threshold of 0.5. *)
Theorem large_first_payment_at_night_is_flagged (svc : AnomalyDetectionService)
    (transaction : TransactionDict) (now : Z) (result : AnomalyResult) (tx_time : Z) :
  check_try svc transaction [] now = Some result ->
  (threshold svc == Settings.anomaly_threshold)%Q ->
  (5000 < get (amount transaction) 0%Q)%Q ->
  fromisoformat (get (timestamp transaction) (Iso now)) = Some tx_time ->
  hour tx_time < 6 ->
  is_anomalous result = true
  /\ risk_factors result = ["large_amount"; "new_user_large_amount"; "unusual_time"].
Proof.
  intros Hc Hthr Hamount Hts Hhour.
  destruct (check_try_tags _ _ _ _ _ Hc) as (tx_time' & Hts' & Htags).
  destruct (check_try_parts _ _ _ _ _ Hc) as (decision & label & tx_time'' & n & _ & _ & Hts''
                                              & _ & Hflag & Hn).
  assert (tx_time' = tx_time) by congruence. assert (tx_time'' = tx_time) by congruence.
  subst tx_time' tx_time''.
  assert (Hlarge : large_amount_rule (get (amount transaction) 0%Q) = true).
  { apply Qgtb_true. exact Hamount. }
  assert (Hnew : new_user_rule [] (get (amount transaction) 0%Q) = true).
  { unfold new_user_rule. simpl. apply Qgtb_true.
    apply Qlt_trans with (y := 5000%Q); [reflexivity | exact Hamount]. }
  assert (Htime : unusual_time_rule tx_time = true).
  { unfold unusual_time_rule. apply orb_true_iff. left. apply Z.ltb_lt. exact Hhour. }
  split.
  - rewrite Hflag. apply orb_true_iff. left. apply Qgtb_true. rewrite Hthr.
    apply Q.min_glb_lt; [reflexivity |]. rewrite Hn, Hlarge, Hnew, Htime.
    unfold adjustment. unfold rapid_rule. simpl.
    apply Qlt_le_trans with (y := (0 + (2 # 10) + (3 # 10) + (1 # 10) + 0)%Q);
      [reflexivity |].
    repeat (apply Qplus_le_l). apply Q.le_max_l.
  - rewrite Htags. unfold expected_tags. rewrite Hlarge, Hnew, Htime. reflexivity.
Qed.

(** *** The velocity features *)

Lemma velocity_step_ordered (current_time : Z) (tx : HistoryDict) (acc : Q * Q * Q * Q) :
  (fst (fst (fst acc)) <= snd (fst (fst acc)))%Q ->
  (fst (fst (fst (velocity_step current_time acc tx)))
   <= snd (fst (fst (velocity_step current_time acc tx))))%Q.
Proof.
  destruct acc as [[[hc dc] ha] da]. cbn [fst snd]. intros Hle.
  unfold velocity_step.
  destruct (fromisoformat (get (h_timestamp tx) NotIso)) as [tx_time |]; [| exact Hle].
  cbv zeta.
  destruct (Qle_bool (total_seconds (current_time - tx_time)) 3600) eqn:Eh.
  - assert (Ed : Qle_bool (total_seconds (current_time - tx_time)) 86400 = true).
    { apply Qle_bool_iff. apply Qle_bool_iff in Eh.
      apply Qle_trans with (y := 3600%Q); [exact Eh | discriminate]. }
    rewrite Ed. cbn [fst snd]. apply Qplus_le_l. exact Hle.
  - destruct (Qle_bool (total_seconds (current_time - tx_time)) 86400); cbn [fst snd];
      [| exact Hle].
    apply Qle_trans with (y := dc); [exact Hle |].
    rewrite <- (Qplus_0_r dc) at 1. apply Qplus_le_r. discriminate.
Qed.

Lemma velocity_step_amounts (current_time : Z) (tx : HistoryDict) (acc : Q * Q * Q * Q) :
  (0 <= get (h_amount tx) 0)%Q ->
  (snd (fst acc) <= snd acc)%Q ->
  (snd (fst (velocity_step current_time acc tx))
   <= snd (velocity_step current_time acc tx))%Q.
Proof.
  destruct acc as [[[hc dc] ha] da]. cbn [fst snd]. intros Hpos Hle.
  unfold velocity_step.
  destruct (fromisoformat (get (h_timestamp tx) NotIso)) as [tx_time |]; [| exact Hle].
  cbv zeta.
  destruct (Qle_bool (total_seconds (current_time - tx_time)) 3600) eqn:Eh.
  - assert (Ed : Qle_bool (total_seconds (current_time - tx_time)) 86400 = true).
    { apply Qle_bool_iff. apply Qle_bool_iff in Eh.
      apply Qle_trans with (y := 3600%Q); [exact Eh | discriminate]. }
    rewrite Ed. cbn [fst snd]. apply Qplus_le_l. exact Hle.
  - destruct (Qle_bool (total_seconds (current_time - tx_time)) 86400); cbn [fst snd];
      [| exact Hle].
    apply Qle_trans with (y := da); [exact Hle |].
    rewrite <- (Qplus_0_r da) at 1. apply Qplus_le_r. exact Hpos.
Qed.

Lemma velocity_fold_ordered (current_time : Z) (user_history : list HistoryDict)
    (acc : Q * Q * Q * Q) :
  (fst (fst (fst acc)) <= snd (fst (fst acc)))%Q ->
  (fst (fst (fst (fold_left (velocity_step current_time) user_history acc)))
   <= snd (fst (fst (fold_left (velocity_step current_time) user_history acc))))%Q.
Proof.
  revert acc. induction user_history as [| tx rest IH]; intros acc Hle; simpl; [exact Hle |].
  apply IH. apply velocity_step_ordered. exact Hle.
Qed.

Lemma velocity_fold_amounts (current_time : Z) (user_history : list HistoryDict)
    (acc : Q * Q * Q * Q) :
  Forall (fun tx => (0 <= get (h_amount tx) 0)%Q) user_history ->
  (snd (fst acc) <= snd acc)%Q ->
  (snd (fst (fold_left (velocity_step current_time) user_history acc))
   <= snd (fold_left (velocity_step current_time) user_history acc))%Q.
Proof.
  revert acc. induction user_history as [| tx rest IH]; intros acc Hall Hle; simpl;
    [exact Hle |].
  inversion Hall as [| ? ? Htx Hrest]; subst.
  apply IH; [exact Hrest |]. apply velocity_step_amounts; assumption.
Qed.

(** The features before the velocity block number fourteen. *)
Lemma extract_features_try_split (transaction : TransactionDict)
    (user_history : list HistoryDict) (now : Z) (features : list Q) :
  extract_features_try transaction user_history now = Some features ->
  exists current_time front,
    fromisoformat (get (timestamp transaction) (Iso now)) = Some current_time
    /\ List.length front = 14%nat
    /\ features
       = front ++
         [fst (fst (fst (fold_left (velocity_step current_time) user_history (0, 0, 0, 0)%Q)));
          snd (fst (fst (fold_left (velocity_step current_time) user_history (0, 0, 0, 0)%Q)));
          snd (fst (fold_left (velocity_step current_time) user_history (0, 0, 0, 0)%Q));
          snd (fold_left (velocity_step current_time) user_history (0, 0, 0, 0)%Q)].
Proof.
  unfold extract_features_try.
  destruct (fromisoformat _) as [current_time |]; [| discriminate].
  intros Hf. exists current_time. revert Hf.
  destruct (fold_left (velocity_step current_time) user_history _) as [[[c1 c2] a1] a2].
  intros Hf. injection Hf as <-. cbn [fst snd].
  match goal with
  | |- exists front, _ /\ _ /\ ?f = _ => exists (firstn 14 f)
  end.
  split; [reflexivity |].
  destruct user_history as [| tx rest]; [split; reflexivity |].
  destruct (parsed_timestamps (tx :: rest)) as [| t ts]; [split; reflexivity |].
  destruct (gaps _); split; reflexivity.
Qed.

(** X9. In every computed feature vector the count of history entries of
    the last hour (feature 14) is at most the count of the last day
    (feature 15), and when no history amount is negative the amount of the
    last hour (feature 16) is at most the amount of the last day
    (feature 17). *)
Theorem hourly_velocity_within_daily (transaction : TransactionDict)
    (user_history : list HistoryDict) (now : Z) (features : list Q) :
  extract_features_try transaction user_history now = Some features ->
  (nth 14 features 0 <= nth 15 features 0)%Q
  /\ (Forall (fun tx => (0 <= get (h_amount tx) 0)%Q) user_history ->
      (nth 16 features 0 <= nth 17 features 0)%Q).
Proof.
  intros Hf.
  destruct (extract_features_try_split _ _ _ _ Hf) as (current_time & front & _ & Hlen & ->).
  assert (Hnth : forall k d, nth (14 + k) (front ++ d) 0%Q = nth k d 0%Q).
  { intros k d. rewrite app_nth2 by lia. f_equal. lia. }
  split.
  - rewrite (Hnth 0%nat), (Hnth 1%nat). cbn [nth].
    apply velocity_fold_ordered. apply Qle_refl.
  - intros Hall. rewrite (Hnth 2%nat), (Hnth 3%nat). cbn [nth].
    apply velocity_fold_amounts; [exact Hall | apply Qle_refl].
Qed.

(** *** A model fitted on 23 columns *)

Lemma extract_features_not_23 (transaction : TransactionDict)
    (user_history : list HistoryDict) (now : Z) (current_time : Z) :
  fromisoformat (get (timestamp transaction) (Iso now)) = Some current_time ->
  List.length (extract_features transaction user_history now) <> 23%nat.
Proof.
  intros Hts. unfold extract_features.
  destruct (extract_features_try transaction user_history now) as [features |] eqn:Htry.
  - rewrite (extract_features_try_length _ _ _ _ Htry). discriminate.
  - apply extract_features_try_fails in Htry. congruence.
Qed.

Lemma unscored_call (svc : AnomalyDetectionService)
    (transaction : TransactionDict) (user_history : list HistoryDict) (now : Z) :
  (forall row, List.length row <> 23%nat ->
     decision_function (model (ensure_trained svc)) row = None) ->
  check_transaction_anomaly svc transaction user_history now
  = (analysis_error transaction, ensure_trained svc).
Proof.
  intros Hwidth. unfold check_transaction_anomaly.
  destruct (check_try (ensure_trained svc) transaction user_history now) as [result |] eqn:Hc;
    [| reflexivity].
  exfalso. rewrite check_try_unfold in Hc.
  destruct (fromisoformat (get (timestamp transaction) (Iso now))) as [tx_time |] eqn:Hts.
  - rewrite (Hwidth _ (extract_features_not_23 _ _ _ _ Hts)) in Hc. discriminate.
  - destruct (decision_function _ _); [| discriminate].
    destruct (predict _ _); discriminate.
Qed.


End ScoringBounds.

(** ** The in-memory orchestrator beyond the happy path: the fraud rule,
    overdraft, failures and the ledger list *)

Section FraudRule.
Import Enhanced.

(** X11. [detect_fraud] flags a payment exactly when all three of its
    signals fire: an amount above 1000, more than five recorded payments
    of the sender, and an hour below 6. Any two of them reach 0.5 at most,
    which is not above the limit of 0.5; the test [hour > 23] never holds
    for an hour of the day. *)
Theorem fraud_needs_all_three_signals (user_id : string) (amount : Q)
    (transaction_history : list Transaction) (current_hour : Z) :
  0 <= current_hour <= 23 ->
  (fst (detect_fraud user_id amount transaction_history current_hour) = true <->
     (1000 < amount)%Q
     /\ (5 < List.length
               (List.filter (fun tx => String.eqb (from_user tx) user_id)
                            transaction_history))%nat
     /\ current_hour < 6)
  /\ (snd (detect_fraud user_id amount transaction_history current_hour) <= 6 # 10)%Q.
Proof.
  intros Hhour. unfold detect_fraud. cbv zeta.
  pose proof (Qgtb_iff amount 1000) as Ha.
  destruct (Py.Qgtb amount 1000);
    destruct (Nat.ltb_spec 5 (List.length (List.filter
                (fun tx => String.eqb (from_user tx) user_id) transaction_history)))
      as [Ec | Ec];
    destruct (Z.ltb_spec current_hour 6) as [Eh | Eh];
    destruct (Z.ltb_spec 23 current_hour) as [El | El];
    try lia;
    cbn [orb fst snd]; (split; [| vm_compute; discriminate]).
  all: split; [intros Hf | intros (H1 & H2 & H3)].
  all: try (vm_compute in Hf; discriminate Hf).
  all: try (apply Ha in H1; discriminate H1).
  all: try lia.
  - split; [apply Ha; reflexivity |]. split; assumption.
  - reflexivity.
Qed.

End FraudRule.

Section OrchestratorOutcomes.
Context `{Enhanced.TxDigest}.
Import Enhanced.

(** The two ways [p2p_payment] reaches the transfer. *)
Lemma p2p_payment_paths (st : State) (payment_data : P2PPaymentRequest)
    (idempotency_key : string) (env : Env) (r : PaymentResponse) (st' : State) :
  p2p_payment st payment_data idempotency_key env = (Returned r, st') ->
  executed r ->
  exists sender fraud_score cache,
    users_db st !! sender_id = Some sender
    /\ ((Py.Qltb (balance sender - amount payment_data) 0 = false
         /\ process_payment (set_nonce_cache st cache) payment_data idempotency_key
              sender_id (balance sender - amount payment_data)%Q fraud_score false env
            = (Returned r, st'))
        \/ (Py.Qltb (balance sender - amount payment_data) 0 = true
            /\ Ai.get (credit_mode sender) false = true
            /\ Py.Qgtb (Qabs (balance sender - amount payment_data))
                       (Ai.get (credit_limit sender) 0%Q) = false
            /\ process_payment
                 (set_users (set_nonce_cache st cache)
                    (alter (fun s => set_credit_used s
                                       (Qabs (balance sender - amount payment_data)))
                           sender_id (users_db st)))
                 payment_data idempotency_key sender_id
                 (balance sender - amount payment_data)%Q fraud_score true env
               = (Returned r, st'))).
Proof.
  unfold p2p_payment, executed. intros Hp Hexec.
  assert (Hpay : authorize_and_pay st payment_data idempotency_key env = (Returned r, st')).
  { destruct (check_idempotency st idempotency_key) as [existing |]; [| exact Hp].
    destruct (Py.truthy existing); [| exact Hp].
    injection Hp as <- <-. exfalso. apply Hexec. reflexivity. }
  clear Hp. unfold authorize_and_pay, decline in Hpay.
  destruct (validate_nonce _ _ _) as [valid cache].
  destruct valid; cbn [negb] in Hpay; [| discriminate].
  cbn [users_db set_nonce_cache fingerprints_db transactions_db] in Hpay.
  destruct (users_db st !! to_user payment_data); [| discriminate].
  destruct (users_db st !! sender_id) as [sender |]; [| discriminate].
  destruct (fingerprints_db st !! sender_id) as [stored_fp |]; [| discriminate].
  destruct (verify_fingerprint _ _) as [is_match confidence].
  destruct is_match; cbn [negb] in Hpay; [| discriminate].
  destruct (detect_fraud _ _ _ _) as [is_fraudulent fraud_score].
  destruct is_fraudulent; [discriminate |].
  exists sender, fraud_score, cache. split; [reflexivity |].
  destruct (Py.Qltb (balance sender - amount payment_data) 0) eqn:Hneg.
  - right. destruct (Ai.get (credit_mode sender) false) eqn:Hmode; cbn [negb] in Hpay;
      [| discriminate].
    destruct (Py.Qgtb _ _) eqn:Hlimit; [discriminate |].
    split; [reflexivity |]. split; [reflexivity |]. split; [reflexivity | exact Hpay].
  - left. split; [reflexivity | exact Hpay].
Qed.

Lemma Qltb_iff (a b : Q) : Py.Qltb a b = true <-> (a < b)%Q.
Proof. unfold Py.Qltb. apply (Qgtb_iff b a). Qed.

Lemma lookup_alter_keeps {A : Type} (proj : User -> A) (f : User -> User) (k k' : string)
    (m : gmap string User) :
  (forall u, proj (f u) = proj u) ->
  proj <$> (alter f k m !! k') = proj <$> (m !! k').
Proof.
  intros Hf. destruct (decide (k = k')) as [-> | Hne].
  - rewrite lookup_alter_eq. destruct (m !! k'); simpl; [rewrite Hf |]; reflexivity.
  - rewrite lookup_alter_ne by exact Hne. reflexivity.
Qed.

(** X12. Overdraft. An executed transfer reports the sender's balance
    minus the amount. When that is negative the sender is in credit mode,
    the debt does not exceed the credit limit, the response says credit was
    used and the sender's [credit_used] is set to the debt; when it is not
    negative no credit is used. *)
Theorem overdraft_stays_within_limit (st : State) (payment_data : P2PPaymentRequest)
    (idempotency_key : string) (env : Env) (r : PaymentResponse) (st' : State)
    (sender : User) :
  p2p_payment st payment_data idempotency_key env = (Returned r, st') ->
  executed r ->
  users_db st !! sender_id = Some sender ->
  new_balance r = Some (balance sender - amount payment_data)%Q
  /\ (r_credit_used r = true <-> (balance sender - amount payment_data < 0)%Q)
  /\ ((balance sender - amount payment_data < 0)%Q ->
      Ai.get (credit_mode sender) false = true
      /\ (- Ai.get (credit_limit sender) 0%Q <= balance sender - amount payment_data)%Q
      /\ credit_used <$> (users_db st' !! sender_id)
         = Some (Some (Qabs (balance sender - amount payment_data)))).
Proof.
  intros Hp Hexec Hs.
  destruct (p2p_payment_paths _ _ _ _ _ _ Hp Hexec)
    as (sender' & fraud_score & cache & Hs' & Hcases).
  assert (sender' = sender) by congruence. subst sender'.
  destruct Hcases as [[Hneg Hproc] | (Hneg & Hmode & Hlimit & Hproc)].
  - unfold process_payment in Hproc. injection Hproc as <- _.
    cbn [new_balance r_credit_used]. split; [reflexivity |].
    assert (Hnot : ~ (balance sender - amount payment_data < 0)%Q).
    { intros Hlt. apply Qltb_iff in Hlt. congruence. }
    split; [split; [discriminate | intros Hlt; contradiction] |].
    intros Hlt. contradiction.
  - unfold process_payment in Hproc. injection Hproc as <- <-.
    cbn [new_balance r_credit_used]. split; [reflexivity |].
    apply Qltb_iff in Hneg.
    split; [split; [intros _; exact Hneg | reflexivity] |].
    intros _. split; [exact Hmode |]. split.
    + assert (Hle : (Qabs (balance sender - amount payment_data)
                     <= Ai.get (credit_limit sender) 0%Q)%Q).
      { apply Qnot_lt_le. intros Hlt. apply Qgtb_iff in Hlt. congruence. }
      apply Qabs_Qle_condition in Hle. apply Hle.
    + unfold store_idempotency.
      cbn [users_db set_idempotency set_blockchain set_transactions set_users].
      rewrite !(lookup_alter_keeps credit_used) by reflexivity.
      rewrite lookup_alter_eq, Hs. reflexivity.
Qed.

(** X13. A payment request answered with an HTTP error moves no money: the
    users, the ledger list and the idempotency store are as before. The
    only trace it can leave, besides the consumed nonce, is one appended
    transaction record, written exactly for the three declines (fraud,
    insufficient funds, credit limit), with the matching status, the
    requested amount and no ledger entry. *)
Theorem failed_payment_moves_no_money (st : State) (payment_data : P2PPaymentRequest)
    (idempotency_key : string) (env : Env) (status_code : Z) (detail : string)
    (error_code : option string) (st' : State) :
  p2p_payment st payment_data idempotency_key env
    = (HTTPException status_code detail error_code, st') ->
  users_db st' = users_db st
  /\ blockchain_db st' = blockchain_db st
  /\ idempotency_cache st' = idempotency_cache st
  /\ fingerprints_db st' = fingerprints_db st
  /\ (transactions_db st' = transactions_db st
      \/ exists t, transactions_db st' = transactions_db st ++ [t]
                   /\ declined_as t error_code
                   /\ status_code = 400
                   /\ t_amount t = amount payment_data
                   /\ blockchain_recorded t = false
                   /\ ledger_hash t = None).
Proof.
  unfold p2p_payment. intros Hp.
  assert (Hpay : authorize_and_pay st payment_data idempotency_key env
                 = (HTTPException status_code detail error_code, st')).
  { destruct (check_idempotency st idempotency_key) as [existing |]; [| exact Hp].
    destruct (Py.truthy existing); [discriminate | exact Hp]. }
  clear Hp. unfold authorize_and_pay, decline, invalid_nonce, declined_as in *.
  destruct (validate_nonce _ _ _) as [valid cache].
  destruct valid; cbn [negb] in Hpay.
  2: { injection Hpay as <- <- <- <-. cbn. auto 10. }
  cbn [users_db set_nonce_cache fingerprints_db transactions_db] in Hpay.
  destruct (users_db st !! to_user payment_data).
  2: { injection Hpay as <- <- <- <-. cbn. auto 10. }
  destruct (users_db st !! sender_id) as [sender |].
  2: { injection Hpay as <- <- <- <-. cbn. auto 10. }
  destruct (fingerprints_db st !! sender_id) as [stored_fp |].
  2: { injection Hpay as <- <- <- <-. cbn. auto 10. }
  destruct (verify_fingerprint _ _) as [is_match confidence].
  destruct is_match; cbn [negb] in Hpay.
  2: { injection Hpay as <- <- <- <-. cbn. auto 10. }
  destruct (detect_fraud _ _ _ _) as [is_fraudulent fraud_score].
  destruct is_fraudulent.
  { injection Hpay as <- <- <- <-. cbn.
    repeat (split; [reflexivity |]). right. eexists. split; [reflexivity |].
    cbn. auto 10. }
  destruct (Py.Qltb (balance sender - amount payment_data) 0).
  - destruct (negb (Ai.get (credit_mode sender) false)).
    { injection Hpay as <- <- <- <-. cbn.
      repeat (split; [reflexivity |]). right. eexists. split; [reflexivity |].
      cbn. auto 10. }
    destruct (Py.Qgtb _ _).
    { injection Hpay as <- <- <- <-. cbn.
      repeat (split; [reflexivity |]). right. eexists. split; [reflexivity |].
      cbn. auto 10. }
    unfold process_payment in Hpay. discriminate.
  - unfold process_payment in Hpay. discriminate.
Qed.

(** *** The ledger list along a run *)

Lemma ledger_consistent_grow (st st' : State) (more : list Transaction) :
  blockchain_db st' = blockchain_db st ->
  transactions_db st' = transactions_db st ++ more ->
  ledger_consistent st -> ledger_consistent st'.
Proof.
  intros Hb Ht Hc i b Hi. rewrite Hb in Hi.
  destruct (Hc i b Hi) as (H1 & H2 & H3 & H4).
  repeat (split; [assumption |]). rewrite Ht. apply in_or_app. left. exact H4.
Qed.

Lemma process_payment_consistent (st : State) (payment_data : P2PPaymentRequest)
    (idempotency_key sender : string) (new_balance fraud_score : Q) (credit : bool)
    (env : Env) :
  ledger_consistent st ->
  ledger_consistent
    (snd (process_payment st payment_data idempotency_key sender new_balance fraud_score
            credit env)).
Proof.
  intros Hc. unfold process_payment, store_idempotency, add_to_blockchain. cbv zeta.
  cbn [snd].
  match goal with
  | |- context [tx_digest ?t] => destruct (tx_digest t) as [h |] eqn:Hd
  end.
  - cbn [fst snd]. intros i b Hi.
    cbn [blockchain_db transactions_db set_idempotency set_blockchain set_transactions
         set_users] in *.
    destruct (decide (i < List.length (blockchain_db st))%nat) as [Hin | Hout].
    + rewrite lookup_app_l in Hi by exact Hin.
      destruct (Hc i b Hi) as (H1 & H2 & H3 & H4).
      repeat (split; [assumption |]). apply in_or_app. left. exact H4.
    + rewrite lookup_app_r in Hi by lia.
      destruct (i - List.length (blockchain_db st))%nat as [| k] eqn:Hk; simpl in Hi;
        [| destruct k; discriminate].
      injection Hi as <-. cbn.
      split; [f_equal; lia |]. split; [reflexivity |]. split; [reflexivity |].
      apply in_or_app. right. left. reflexivity.
  - cbn [fst snd]. intros i b Hi.
    cbn [blockchain_db transactions_db set_idempotency set_blockchain set_transactions
         set_users] in *.
    destruct (Hc i b Hi) as (H1 & H2 & H3 & H4).
    repeat (split; [assumption |]). apply in_or_app. left. exact H4.
Qed.

Lemma authorize_and_pay_consistent (st : State) (payment_data : P2PPaymentRequest)
    (idempotency_key : string) (env : Env) :
  ledger_consistent st ->
  ledger_consistent (snd (authorize_and_pay st payment_data idempotency_key env)).
Proof.
  intros Hc.
  assert (Hsame : forall st1, blockchain_db st1 = blockchain_db st ->
                    transactions_db st1 = transactions_db st -> ledger_consistent st1).
  { intros st1 Hb Ht. apply (ledger_consistent_grow st st1 []); [exact Hb | | exact Hc].
    rewrite app_nil_r. exact Ht. }
  assert (Hmore : forall st1 t, blockchain_db st1 = blockchain_db st ->
                    transactions_db st1 = transactions_db st ++ [t] ->
                    ledger_consistent st1).
  { intros st1 t Hb Ht. apply (ledger_consistent_grow st st1 [t]); assumption. }
  unfold authorize_and_pay, decline.
  destruct (validate_nonce _ _ _) as [valid cache].
  destruct valid; cbn [negb]; [| apply Hsame; reflexivity].
  cbn [users_db set_nonce_cache fingerprints_db transactions_db].
  destruct (users_db st !! to_user payment_data); [| apply Hsame; reflexivity].
  destruct (users_db st !! sender_id) as [sender |]; [| apply Hsame; reflexivity].
  destruct (fingerprints_db st !! sender_id) as [stored_fp |]; [| apply Hsame; reflexivity].
  destruct (verify_fingerprint _ _) as [is_match confidence].
  destruct is_match; cbn [negb]; [| apply Hsame; reflexivity].
  destruct (detect_fraud _ _ _ _) as [is_fraudulent fraud_score].
  destruct is_fraudulent; [eapply Hmore; reflexivity |].
  destruct (Py.Qltb (balance sender - amount payment_data) 0).
  - destruct (negb (Ai.get (credit_mode sender) false)); [eapply Hmore; reflexivity |].
    destruct (Py.Qgtb _ _); [eapply Hmore; reflexivity |].
    apply process_payment_consistent. apply Hsame; reflexivity.
  - apply process_payment_consistent. apply Hsame; reflexivity.
Qed.

Lemma handle_consistent (st : State) (r : Request) :
  ledger_consistent st -> ledger_consistent (handle st r).
Proof.
  intros Hc. destruct r as [n now | payment_data key env]; simpl; [exact Hc |].
  unfold p2p_payment.
  destruct (check_idempotency st key) as [existing |];
    [| apply authorize_and_pay_consistent; exact Hc].
  destruct (Py.truthy existing); [exact Hc |].
  apply authorize_and_pay_consistent. exact Hc.
Qed.

(** X14. Along any sequence of nonce and payment requests the ledger list
    stays well numbered and tied to the transaction records: the block at
    position [i] has [block_id] [i + 1] and carries a transaction that is
    confirmed, is present in [transactions_db] and records the hash of that
    block as its [ledger_hash]. *)
Theorem ledger_list_stays_consistent (st : State) (requests : list Request) :
  ledger_consistent st -> ledger_consistent (fold_left handle requests st).
Proof.
  revert st. induction requests as [| r rest IH]; intros st Hc; simpl; [exact Hc |].
  apply IH. apply handle_consistent. exact Hc.
Qed.

End OrchestratorOutcomes.

(** ** The in-memory collections *)

Section CollectionQueries.
Context `{Database.Operators}.
Import Database.

Lemma absent_key_rejects (item : Document) (key : string) (value : Value) (rest : Dict) :
  item !! key = None -> _matches_filter item ((key, value) :: rest) = Some false.
Proof. intros Hk. simpl. rewrite Hk. reflexivity. Qed.

Lemma matching_none (items : list Document) (filter_dict : Dict) :
  (forall item, In item items -> _matches_filter item filter_dict = Some false) ->
  matching items filter_dict = Some [] /\ first_match items filter_dict = Some None.
Proof.
  induction items as [| item rest IH]; intros Hall; simpl; [auto |].
  rewrite (Hall item) by (left; reflexivity).
  destruct IH as [-> ->]; [intros x Hx; apply Hall; right; exact Hx |]. auto.
Qed.

(** X15. A filter whose first key no stored document carries selects
    nothing: [find] yields an empty cursor, [find_one] returns [None],
    [count_documents] returns 0, and [update_one] and [delete_one] change
    nothing. This is the fate of the payment router's query for the
    transactions of a party, whose only key is [$or]: the in-memory
    collection reads [$or] as a field name. *)
Theorem filter_on_absent_key_selects_nothing (c : MockCollection) (key : string)
    (value : Value) (rest : Dict) :
  (forall item, In item (data c) -> item !! key = None) ->
  find c (Some ((key, value) :: rest)) = Some {| c_data := []; c_index := 0 |}
  /\ find_one c (Some ((key, value) :: rest)) = Some None
  /\ count_documents c (Some ((key, value) :: rest)) = Some 0
  /\ (forall update_dict now,
        update_one c ((key, value) :: rest) update_dict now = (Some 0, c))
  /\ delete_one c ((key, value) :: rest) = (Some 0, c).
Proof.
  intros Habsent.
  destruct (matching_none (data c) ((key, value) :: rest)) as [Hm Hf].
  { intros item Hin. apply absent_key_rejects. apply Habsent. exact Hin. }
  unfold find, find_one, count_documents, update_one, delete_one.
  rewrite Hm, Hf. auto.
Qed.

(** *** The first match *)

(** *** Updates *)

Lemma update_lookup_absent (payload : Dict) (item : Document) (k : string) :
  dict_get k payload = None -> update item payload !! k = item !! k.
Proof.
  revert item. unfold update.
  induction payload as [| [k' v] rest IH]; intros item Hk; simpl in *; [reflexivity |].
  destruct (String.eqb k' k) eqn:E; [discriminate |].
  rewrite IH by exact Hk. apply lookup_insert_ne.
  apply string_eqb_false. exact E.
Qed.

(** X16. When the update dictionary has a [$set] key, [update_one] applies
    that payload alone: an [$inc] payload and any other key of the same
    update are ignored. The first matching document takes the [$set] fields
    and a fresh [updated_at]; every other field of it, the ones named
    under [$inc] included, keeps its value, and no other document changes. *)
Theorem update_one_set_ignores_inc (c : MockCollection) (filter_dict : Dict)
    (payload : Dict) (increments : option Dict) (fields : Dict) (now : Z)
    (before after : list Document) (item : Document) :
  first_match (data c) filter_dict = Some (Some (before, item, after)) ->
  let updated := <["updated_at" := VDatetime now]> (update item payload) in
  update_one c filter_dict
    {| u_set := Some payload; u_inc := increments; u_fields := fields |} now
  = (Some 1, set_data c (before ++ updated :: after))
  /\ (forall k, k <> "updated_at" -> dict_get k payload = None ->
        updated !! k = item !! k).
Proof.
  intros Hf updated. unfold update_one, apply_update. rewrite Hf.
  cbn [u_set u_inc u_fields]. split; [reflexivity |].
  intros k Hk Hp. subst updated. rewrite lookup_insert_ne by congruence.
  apply update_lookup_absent. exact Hp.
Qed.

(** *** Insertion *)

Lemma stored_document_keeps (document : Document) (uuid : string) (now : Z) (k : string)
    (v : Value) :
  document !! k = Some v -> stored_document document uuid now !! k = Some v.
Proof.
  intros Hk. unfold stored_document.
  assert (Hid : match document !! "_id" with
                | Some _ => document
                | None => <["_id" := VStr uuid]> document
                end !! k = Some v).
  { destruct (document !! "_id") eqn:Hi; [exact Hk |].
    rewrite lookup_insert_ne; [exact Hk | congruence]. }
  destruct (_ !! "created_at") eqn:Hc; [exact Hid |].
  rewrite lookup_insert_ne; [exact Hid | congruence].
Qed.

Lemma stored_document_id (document : Document) (uuid : string) (now : Z) :
  document !! "_id" = None ->
  stored_document document uuid now !! "_id" = Some (VStr uuid).
Proof.
  intros Hi. unfold stored_document. rewrite Hi.
  destruct (_ !! "created_at"); [apply lookup_insert_eq |].
  rewrite lookup_insert_ne by discriminate. apply lookup_insert_eq.
Qed.

Lemma stored_document_created (document : Document) (uuid : string) (now : Z) :
  is_Some (stored_document document uuid now !! "created_at").
Proof.
  unfold stored_document.
  set (doc := match document !! "_id" with
              | Some _ => document
              | None => <["_id" := VStr uuid]> document
              end).
  destruct (doc !! "created_at") eqn:Hc; [rewrite Hc; eauto |].
  rewrite lookup_insert_eq. eauto.
Qed.

(** X17. [insert_one] appends a copy of the document that keeps every
    field given and gains an [_id] (the fresh uuid, when none was given)
    and a [created_at]; the documents already stored are untouched and the
    count grows by one. Looking the new id up with [find_one] returns the
    stored copy, provided no earlier document carries that id. *)
Theorem inserted_document_is_found (c : MockCollection) (document : Document)
    (uuid : string) (now : Z) :
  document !! "_id" = None ->
  eq (VStr uuid) (VStr uuid) = true ->
  (forall item, In item (data c) ->
     _matches_filter item [("_id", VStr uuid)] = Some false) ->
  let stored := stored_document document uuid now in
  insert_one c document uuid now = (Some (VStr uuid), set_data c (data c ++ [stored]))
  /\ (forall k v, document !! k = Some v -> stored !! k = Some v)
  /\ is_Some (stored !! "created_at")
  /\ find_one (snd (insert_one c document uuid now)) (Some [("_id", VStr uuid)])
     = Some (Some stored)
  /\ count_documents (snd (insert_one c document uuid now)) None
     = option_map (Z.add 1) (count_documents c None).
Proof.
  intros Hnoid Hrefl Hfresh stored.
  pose proof (stored_document_id document uuid now Hnoid) as Hid.
  unfold insert_one. cbv zeta. rewrite Hid. fold stored. fold stored in Hid.
  split; [reflexivity |].
  split; [intros k v; apply stored_document_keeps |].
  split; [apply stored_document_created |].
  cbn [snd]. split.
  - unfold find_one. cbn [data set_data].
    assert (Hfm : forall items,
              (forall item, In item items ->
                 _matches_filter item [("_id", VStr uuid)] = Some false) ->
              first_match (items ++ [stored]) [("_id", VStr uuid)]
              = Some (Some (items, stored, []))).
    { induction items as [| x xs IH]; intros Hall.
      - simpl. rewrite Hid, Hrefl. reflexivity.
      - cbn [app first_match]. rewrite (Hall x) by (left; reflexivity).
        rewrite IH by (intros y Hy; apply Hall; right; exact Hy). reflexivity. }
    rewrite (Hfm (data c) Hfresh). reflexivity.
  - unfold count_documents. cbn [data set_data option_map].
    rewrite length_app. simpl. f_equal. lia.
Qed.

End CollectionQueries.

(** ** The payment router over the in-memory collection *)

Section InMemoryHistory.
Context `{Ledger.Hashlib} `{Ai.Numerics} `{Ai.Sklearn} `{Database.Operators}.

(** X18. With the in-memory collection behind it, the payment router hands
    the scorer an empty history for every sender, whatever transactions
    are stored: no stored document has a field named [$or], so the history
    query selects nothing. *)
Theorem in_memory_history_is_empty
    (document_of : Payments.TransactionDoc -> Database.Document)
    (st : Payments.State) (sender_user_id : string) :
  (forall tx, document_of tx !! "$or" = None) ->
  @Payments.find_by_party (InMemory.storage document_of)
     (Payments.transactions st) sender_user_id = []
  /\ @Payments.user_history (InMemory.storage document_of) st sender_user_id = [].
Proof.
  intros Hno.
  assert (Hfind : @Payments.find_by_party (InMemory.storage document_of)
                    (Payments.transactions st) sender_user_id = []).
  { cbn [Payments.find_by_party InMemory.storage].
    induction (Payments.transactions st) as [| tx rest IH]; [reflexivity |].
    cbn [List.filter]. unfold Database.party_query at 1.
    cbn [Database._matches_filter]. rewrite Hno. exact IH. }
  split; [exact Hfind |].
  unfold Payments.user_history. rewrite Hfind. reflexivity.
Qed.

End InMemoryHistory.

(** ** The simulated fingerprint matcher *)

Section Matcher.
Context `{Ledger.Hashlib}.
Import Biometric.

Lemma compare_same_hash (h : string) (template_features captured_features : Features)
    (variation : Q) :
  descriptor_hash template_features = Some h ->
  descriptor_hash captured_features = Some h ->
  Py.truthy h = true ->
  _compare_fingerprint_features template_features captured_features variation
  = Qmax 0 (Qmin 1 ((95 # 100) + variation)).
Proof.
  intros Ht Hc Hh. unfold _compare_fingerprint_features. rewrite Ht, Hc. cbn [Ai.get].
  rewrite Hh, String.eqb_refl. reflexivity.
Qed.

(** X19. The matcher never looks at the captured fingerprint: the features
    it compares are computed from the user id alone. So a template enrolled
    for a user id authenticates that id with any captured data, for every
    value of the random variation, and opens a session. *)
Theorem any_capture_authenticates_enrolled_user (auth : BiometricAuth)
    (user_id enrolled_data captured_fingerprint : string) (enrolled_now : Z) (env : Env) :
  Py.truthy (Py.slice_to (Ledger.sha256_hexdigest (user_id ++ "_fingerprint_features")) 32)
    = true ->
  (- (5 # 100) <= variation env)%Q ->
  (variation env <= 5 # 100)%Q ->
  fst (authenticate_fingerprint auth user_id
         (enroll_fingerprint user_id enrolled_data enrolled_now)
         captured_fingerprint env) = true
  /\ (forall other_capture,
        authenticate_fingerprint auth user_id
          (enroll_fingerprint user_id enrolled_data enrolled_now) other_capture env
        = authenticate_fingerprint auth user_id
            (enroll_fingerprint user_id enrolled_data enrolled_now)
            captured_fingerprint env).
Proof.
  intros Hh Hlo Hhi. split; [| reflexivity].
  unfold authenticate_fingerprint. cbv zeta.
  cbn [features enroll_fingerprint Ai.get].
  rewrite (compare_same_hash
             (Py.slice_to (Ledger.sha256_hexdigest (user_id ++ "_fingerprint_features")) 32))
    by (reflexivity || exact Hh).
  assert (Hm : Qle_bool (Settings.fingerprint_threshold / 100)
                 (Qmax 0 (Qmin 1 ((95 # 100) + variation env))) = true).
  { apply Qle_bool_iff.
    apply Qle_trans with (y := Qmin 1 ((95 # 100) + variation env)); [| apply Q.le_max_r].
    apply Q.min_glb; [discriminate |].
    apply Qle_trans with (y := ((95 # 100) + - (5 # 100))%Q); [discriminate |].
    apply Qplus_le_r. exact Hlo. }
  rewrite Hm. reflexivity.
Qed.

Lemma Qmax_zero_ge (t x : Q) : (0 < t)%Q -> (t <= Qmax 0 x)%Q -> (t <= x)%Q.
Proof.
  intros Ht Hle. destruct (Qlt_le_dec x 0) as [Hneg | Hpos].
  - exfalso. rewrite Q.max_l in Hle by (apply Qlt_le_weak; exact Hneg).
    apply (Qlt_not_le _ _ Ht). exact Hle.
  - rewrite Q.max_r in Hle by exact Hpos. exact Hle.
Qed.

(** X20. A template whose descriptor hash differs from the one computed
    for the user id is accepted only when at least three quarters of its
    characters agree with it, position by position: the score is the share
    of agreeing characters plus a variation of at most 0.05, against a
    threshold of 0.8. *)
Theorem mismatch_needs_three_quarters (auth : BiometricAuth) (user_id : string)
    (stored_template : Template) (captured_fingerprint : string) (env : Env)
    (template_hash : string) :
  Ai.get (descriptor_hash (Ai.get (features stored_template) no_features)) EmptyString
    = template_hash ->
  template_hash
    <> Py.slice_to (Ledger.sha256_hexdigest (user_id ++ "_fingerprint_features")) 32 ->
  (variation env <= 5 # 100)%Q ->
  fst (authenticate_fingerprint auth user_id stored_template captured_fingerprint env)
    = true ->
  3 * Z.of_nat (String.length template_hash)
  <= 4 * common_chars template_hash
           (Py.slice_to (Ledger.sha256_hexdigest (user_id ++ "_fingerprint_features")) 32).
Proof.
  intros Hhash Hne Hvar. unfold authenticate_fingerprint, _compare_fingerprint_features.
  cbv zeta. rewrite Hhash. cbn [descriptor_hash _extract_features_simulation Ai.get].
  set (captured_hash :=
         Py.slice_to (Ledger.sha256_hexdigest (user_id ++ "_fingerprint_features")) 32) in *.
  destruct (Py.truthy template_hash) eqn:Ht; cbn [negb orb].
  2: { intros Hm. exfalso.
       destruct (Qle_bool _ _) eqn:E; [| discriminate Hm].
       apply Qle_bool_iff in E. revert E. vm_compute. intros E. apply E. reflexivity. }
  destruct (Py.truthy captured_hash) eqn:Hc; cbn [negb].
  2: { intros Hm. exfalso.
       destruct (Qle_bool _ _) eqn:E; [| discriminate Hm].
       apply Qle_bool_iff in E. revert E. vm_compute. intros E. apply E. reflexivity. }
  destruct (String.eqb template_hash captured_hash) eqn:Heq.
  { apply String.eqb_eq in Heq. contradiction. }
  destruct (Qle_bool _ _) eqn:E; [| intros Hm; discriminate Hm].
  intros _. apply Qle_bool_iff in E.
  apply Qmax_zero_ge in E; [| reflexivity].
  assert (Hsum : (80 # 100 <= inject_Z (common_chars template_hash captured_hash)
                              / inject_Z (Z.of_nat (String.length template_hash))
                              + variation env)%Q).
  { apply Qle_trans with (y := Qmin 1 (inject_Z (common_chars template_hash captured_hash)
                                       / inject_Z (Z.of_nat (String.length template_hash))
                                       + variation env));
      [| apply Q.le_min_r].
    apply Qle_trans with (y := (Settings.fingerprint_threshold / 100)%Q);
      [discriminate | exact E]. }
  assert (Hlen : (0 < Z.of_nat (String.length template_hash))%Z).
  { destruct template_hash; [discriminate Ht | simpl; lia]. }
  assert (Hshare : (75 # 100 <= inject_Z (common_chars template_hash captured_hash)
                                / inject_Z (Z.of_nat (String.length template_hash)))%Q).
  { apply (Qplus_le_l _ _ (5 # 100)).
    apply Qle_trans with (y := (inject_Z (common_chars template_hash captured_hash)
                                / inject_Z (Z.of_nat (String.length template_hash))
                                + variation env)%Q).
    - apply Qle_trans with (y := (80 # 100)%Q); [discriminate | exact Hsum].
    - apply Qplus_le_r. exact Hvar. }
  apply (Qmult_le_r _ _ (inject_Z (Z.of_nat (String.length template_hash)))) in Hshare.
  2: { unfold Qlt. simpl. lia. }
  assert (Hsimp : (inject_Z (common_chars template_hash captured_hash)
                   / inject_Z (Z.of_nat (String.length template_hash))
                   * inject_Z (Z.of_nat (String.length template_hash))
                   == inject_Z (common_chars template_hash captured_hash))%Q).
  { field. intros Hz. unfold Qeq in Hz. simpl in Hz. lia. }
  rewrite Hsimp in Hshare. unfold Qle in Hshare. simpl in Hshare. lia.
Qed.

(** *** Sessions *)

Lemma session_listed (cache : gmap string Session) (id : string) (s : Session) :
  cache !! id = Some s <-> In (id, s) (map_to_list cache).
Proof. rewrite <- list_elem_of_In. symmetry. apply elem_of_map_to_list. Qed.

Lemma is_session_active_iff (auth : BiometricAuth) (user_id : string) (current_time : Z) :
  is_session_active auth user_id current_time = true <->
  exists id s, session_cache auth !! id = Some s
               /\ s_user_id s = Some user_id
               /\ current_time <= Ai.get (expires_at s) current_time.
Proof.
  unfold is_session_active. rewrite existsb_exists. split.
  - intros (s & Hin & Hs). apply in_map_iff in Hin. destruct Hin as ([id s'] & <- & Hin).
    apply session_listed in Hin. exists id, s'. split; [exact Hin |].
    apply andb_true_iff in Hs. destruct Hs as [Hu Ht]. cbn [snd] in *.
    destruct (s_user_id s') as [u |]; [| discriminate].
    apply String.eqb_eq in Hu. subst u. split; [reflexivity |]. apply Z.leb_le. exact Ht.
  - intros (id & s & Hin & Hu & Ht). exists s. split.
    + apply in_map_iff. exists (id, s). split; [reflexivity |]. apply session_listed. exact Hin.
    + rewrite Hu, String.eqb_refl. apply Z.leb_le. exact Ht.
Qed.

(** X21. A successful authentication opens a session under which the user
    counts as active until the configured thirty minutes after the call
    have passed. *)
Theorem authentication_opens_session (auth auth' : BiometricAuth) (user_id : string)
    (stored_template : Template) (captured_fingerprint : string) (env : Env) (later : Z) :
  authenticate_fingerprint auth user_id stored_template captured_fingerprint env
    = (true, auth') ->
  later <= expires_from env + minutes Settings.fingerprint_timeout ->
  is_session_active auth' user_id later = true.
Proof.
  unfold authenticate_fingerprint. cbv zeta.
  destruct (Qle_bool _ _); [| discriminate].
  intros Ha Hlater. injection Ha as <-. apply is_session_active_iff.
  eexists _, _. cbn [session_cache]. split; [apply lookup_insert_eq |].
  cbn [s_user_id expires_at Ai.get]. split; [reflexivity | exact Hlater].
Qed.

(** X22. [cleanup_expired_sessions] removes exactly the sessions whose
    expiry lies before the current time, and nobody stops being active
    because of it: at the time of the cleanup and at any later time,
    [is_session_active] answers as it would have without the cleanup. *)
Theorem cleanup_keeps_active_sessions (auth : BiometricAuth) (current_time : Z) :
  (forall id s,
     session_cache (cleanup_expired_sessions auth current_time) !! id = Some s <->
     session_cache auth !! id = Some s
     /\ ~ Ai.get (expires_at s) current_time < current_time)
  /\ (forall user_id later, current_time <= later ->
        is_session_active (cleanup_expired_sessions auth current_time) user_id later
        = is_session_active auth user_id later).
Proof.
  assert (Hkept : forall id s,
            session_cache (cleanup_expired_sessions auth current_time) !! id = Some s <->
            session_cache auth !! id = Some s
            /\ ~ Ai.get (expires_at s) current_time < current_time).
  { intros id s. unfold cleanup_expired_sessions. cbn [session_cache].
    rewrite map_lookup_filter_Some. reflexivity. }
  split; [exact Hkept |].
  intros user_id later Hlater.
  apply eq_true_iff_eq. rewrite !is_session_active_iff. split.
  - intros (id & s & Hin & Hu & Ht). apply Hkept in Hin. destruct Hin as [Hin _]. eauto.
  - intros (id & s & Hin & Hu & Ht). exists id, s. split; [| auto].
    apply Hkept. split; [exact Hin |].
    destruct (expires_at s) as [e |]; cbn [Ai.get] in *; lia.
Qed.

End Matcher.

(** ** Sanitising, masking and phone numbers *)

Section TextUtilities.
Import Security.

Lemma keep_chars_ext (p q : ascii -> bool) (s : string) :
  (forall c, p c = q c) -> keep_chars p s = keep_chars q s.
Proof.
  intros Hpq. induction s as [| c s IH]; simpl; [reflexivity |].
  rewrite Hpq, IH. reflexivity.
Qed.

Lemma keep_chars_twice (p q : ascii -> bool) (s : string) :
  keep_chars p (keep_chars q s) = keep_chars (fun c => q c && p c) s.
Proof.
  induction s as [| c s IH]; simpl; [reflexivity |].
  destruct (q c); simpl; [| exact IH].
  destruct (p c); rewrite IH; reflexivity.
Qed.

Lemma keep_chars_in (p : ascii -> bool) (s : string) (c : ascii) :
  In c (list_ascii_of_string (keep_chars p s)) -> p c = true.
Proof.
  induction s as [| a s IH]; simpl; [intros [] |].
  destruct (p a) eqn:Ha; simpl; [| exact IH].
  intros [<- | Hin]; [exact Ha | apply IH; exact Hin].
Qed.

Lemma keep_chars_all (p : ascii -> bool) (s : string) :
  (forall c, In c (list_ascii_of_string s) -> p c = true) -> keep_chars p s = s.
Proof.
  induction s as [| a s IH]; simpl; intros Hall; [reflexivity |].
  rewrite (Hall a) by (left; reflexivity).
  rewrite IH by (intros c Hc; apply Hall; right; exact Hc). reflexivity.
Qed.

(** The loop over [dangerous_chars] keeps the characters outside the list. *)
Lemma remove_all (chars : list ascii) (s : string) :
  fold_left (fun acc char => remove_char char acc) chars s
  = keep_chars (fun c => negb (existsb (Ascii.eqb c) chars)) s.
Proof.
  revert s. induction chars as [| ch chars IH]; intros s; simpl.
  - symmetry. apply keep_chars_all. reflexivity.
  - rewrite IH. unfold remove_char. rewrite keep_chars_twice.
    apply keep_chars_ext. intros c. rewrite negb_orb. reflexivity.
Qed.

Lemma lstrip_in (s : string) (c : ascii) :
  In c (list_ascii_of_string (lstrip s)) -> In c (list_ascii_of_string s).
Proof.
  induction s as [| a s IH]; simpl; [intros [] |].
  destruct (is_space a); simpl; [intros Hin; right; apply IH; exact Hin | auto].
Qed.

Lemma rstrip_in (s : string) (c : ascii) :
  In c (list_ascii_of_string (rstrip s)) -> In c (list_ascii_of_string s).
Proof.
  induction s as [| a s IH]; simpl; [intros [] |].
  destruct (rstrip s) as [| d r] eqn:Hr.
  - destruct (is_space a); simpl; [intros [] | intros [<- | []]; auto].
  - simpl. intros [<- | Hin]; [auto | right; apply IH; exact Hin].
Qed.

Lemma lstrip_head (s : string) (c : ascii) (rest : string) :
  lstrip s = String c rest -> is_space c = false.
Proof.
  induction s as [| a s IH]; simpl; [discriminate |].
  destruct (is_space a) eqn:Ha; [exact IH |].
  intros Hs. injection Hs as <- _. exact Ha.
Qed.

Lemma rstrip_keeps_head (c : ascii) (s : string) :
  is_space c = false -> rstrip (String c s) = String c (rstrip s).
Proof. intros Hc. simpl. rewrite Hc. destruct (rstrip s); reflexivity. Qed.

Lemma rstrip_last (s front : string) (c : ascii) :
  rstrip s = (front ++ String c EmptyString)%string -> is_space c = false.
Proof.
  revert front. induction s as [| a s IH]; intros front; simpl.
  - destruct front; discriminate.
  - destruct (rstrip s) as [| d r] eqn:Hr.
    + destruct (is_space a) eqn:Ha; [destruct front; discriminate |].
      destruct front as [| b front]; simpl.
      * intros Hs. injection Hs as <-. exact Ha.
      * intros Hs. injection Hs as _ Hs. destruct front; discriminate.
    + destruct front as [| b front]; simpl; [discriminate |].
      intros Hs. injection Hs as _ Hs. apply (IH front). exact Hs.
Qed.

Lemma rstrip_twice (s : string) : rstrip (rstrip s) = rstrip s.
Proof.
  induction s as [| a s IH]; simpl; [reflexivity |].
  destruct (rstrip s) as [| d r] eqn:Hr.
  - destruct (is_space a) eqn:Ha; simpl; [reflexivity | rewrite Ha; reflexivity].
  - change (rstrip (String a (String d r))) with
      (match rstrip (String d r) with
       | EmptyString => if is_space a then EmptyString else String a EmptyString
       | rest => String a rest
       end).
    rewrite IH. reflexivity.
Qed.

Lemma strip_twice (s : string) : strip (strip s) = strip s.
Proof.
  unfold strip. destruct (lstrip s) as [| c r] eqn:Hl; [reflexivity |].
  pose proof (lstrip_head _ _ _ Hl) as Hc.
  rewrite (rstrip_keeps_head c r Hc). cbn [lstrip]. rewrite Hc.
  rewrite <- (rstrip_keeps_head c r Hc). apply rstrip_twice.
Qed.

(** X23. What [sanitize_input] returns holds none of the ten characters
    of [dangerous_chars] and neither starts nor ends with white space;
    every character of it was in the input; and sanitising it again
    changes nothing. *)
Theorem sanitize_input_is_clean (input_string : string) :
  (forall c, In c (list_ascii_of_string (sanitize_input input_string)) ->
     ~ In c dangerous_chars /\ In c (list_ascii_of_string input_string))
  /\ (forall c rest, sanitize_input input_string = String c rest -> is_space c = false)
  /\ (forall front c,
        sanitize_input input_string = (front ++ String c EmptyString)%string ->
        is_space c = false)
  /\ sanitize_input (sanitize_input input_string) = sanitize_input input_string.
Proof.
  unfold sanitize_input. rewrite !remove_all.
  set (safe := fun c => negb (existsb (Ascii.eqb c) dangerous_chars)).
  assert (Hchars : forall c,
            In c (list_ascii_of_string (strip (keep_chars safe input_string))) ->
            safe c = true /\ In c (list_ascii_of_string input_string)).
  { intros c Hin. unfold strip in Hin. apply rstrip_in, lstrip_in in Hin.
    split; [apply (keep_chars_in safe input_string); exact Hin |].
    clear - Hin. induction input_string as [| a s IH]; simpl in *; [exact Hin |].
    destruct (safe a); simpl in Hin; [destruct Hin; auto | auto]. }
  split; [| split; [| split]].
  - intros c Hin. destruct (Hchars c Hin) as [Hsafe Horig]. split; [| exact Horig].
    intros Hd. subst safe. cbv beta in Hsafe. apply negb_true_iff in Hsafe.
    assert (Hyes : existsb (Ascii.eqb c) dangerous_chars = true).
    { apply existsb_exists. exists c. split; [exact Hd | apply Ascii.eqb_refl]. }
    congruence.
  - intros c rest Hs. unfold strip in Hs.
    destruct (lstrip (keep_chars safe input_string)) as [| a r] eqn:Hl; [discriminate |].
    pose proof (lstrip_head _ _ _ Hl) as Ha.
    rewrite (rstrip_keeps_head a r Ha) in Hs. injection Hs as <- _. exact Ha.
  - intros front c Hs. unfold strip in Hs. eapply rstrip_last. exact Hs.
  - rewrite (keep_chars_all safe (strip (keep_chars safe input_string)))
      by (intros c Hin; apply (Hchars c Hin)).
    apply strip_twice.
Qed.

(** *** Masking *)

(** *** Phone numbers *)

End TextUtilities.

(** ** Broadcasts *)

Section Broadcasts.
Import Realtime.

Lemma remove_first_middle (acc rest : list nat) (ws : nat) :
  ~ In ws acc -> remove_first ws (acc ++ ws :: rest) = acc ++ rest.
Proof.
  induction acc as [| a acc IH]; intros Hnot; simpl.
  - rewrite Nat.eqb_refl. reflexivity.
  - destruct (Nat.eqb_spec a ws) as [-> | Hne]; [exfalso; apply Hnot; left; reflexivity |].
    rewrite IH; [reflexivity |]. intros Hin. apply Hnot. right. exact Hin.
Qed.

Lemma present_middle (acc rest : list nat) (ws : nat) :
  existsb (Nat.eqb ws) (acc ++ ws :: rest) = true.
Proof.
  apply existsb_exists. exists ws. split; [| apply Nat.eqb_refl].
  apply in_or_app. right. left. reflexivity.
Qed.

Lemma NoDup_middle (acc rest : list nat) (ws : nat) :
  List.NoDup (acc ++ ws :: rest) -> ~ In ws acc /\ List.NoDup (acc ++ rest).
Proof.
  intros Hnd. split.
  - intros Hin. apply NoDup_remove_2 in Hnd. apply Hnd. apply in_or_app. left. exact Hin.
  - apply NoDup_remove_1 in Hnd. exact Hnd.
Qed.

Lemma broadcast_loop (send_raises : nat -> bool) (l acc : list nat) (position : nat) :
  List.NoDup (acc ++ l) ->
  fold_left (fun conns ws => if existsb (Nat.eqb ws) conns
                             then remove_first ws conns else conns)
            (failing send_raises position l) (acc ++ l)
  = acc ++ delivered send_raises position l
  /\ send_all send_raises position l (acc ++ l)
     = Some (acc ++ delivered send_raises position l).
Proof.
  revert acc position. induction l as [| ws rest IH]; intros acc position Hnd.
  - simpl. auto.
  - cbn [failing delivered send_all]. destruct (send_raises position).
    + destruct (NoDup_middle acc rest ws Hnd) as [Hnot Hnd'].
      cbn [fold_left]. rewrite present_middle, remove_first_middle by exact Hnot.
      apply IH. exact Hnd'.
    + replace (acc ++ ws :: rest) with ((acc ++ [ws]) ++ rest) in *
        by (rewrite <- app_assoc; reflexivity).
      replace (acc ++ ws :: delivered send_raises (S position) rest)
        with ((acc ++ [ws]) ++ delivered send_raises (S position) rest)
        by (rewrite <- app_assoc; reflexivity).
      apply IH. exact Hnd.
Qed.

(** X24. A broadcast drops exactly the connections whose send raised and
    keeps the others in their order, in the realtime manager and in the
    broadcast of the in-memory orchestrator alike, as long as no
    connection is listed twice. *)
Theorem broadcast_drops_dead_connections (mgr : RealtimeManager)
    (send_raises : nat -> bool) :
  List.NoDup (connections mgr) ->
  connections (broadcast mgr send_raises) = delivered send_raises 0 (connections mgr)
  /\ broadcast_to_websockets (connections mgr) send_raises
     = Some (delivered send_raises 0 (connections mgr)).
Proof.
  intros Hnd. unfold broadcast, broadcast_to_websockets. cbn [connections].
  exact (broadcast_loop send_raises (connections mgr) [] 0%nat Hnd).
Qed.

End Broadcasts.

(** ** The payment router when the model does not score *)

Section RouterScreen.
Context `{Ledger.Hashlib} `{Ai.Numerics} `{Ai.Sklearn} `{Payments.Storage}.
Import Payments.

(** X25. With a model that raises on every row whose width is not 23, the
    fraud screen of the payment router is inert: no request is ever
    answered as flagged. A request either fails one of the checks before
    the screen, with an HTTP error and every collection unchanged, or goes
    through with an anomaly score of 0. *)
Theorem unscored_payments_are_never_flagged (fuel : nat) (st : State)
    (payment_request : P2PPaymentRequest) (current_user : UserDoc) (env : Env)
    (outcome : Outcome) (st' : State) :
  (forall row, List.length row <> 23%nat ->
     Ai.decision_function (Ai.model (Ai.ensure_trained (anomaly_service st))) row = None) ->
  process_p2p_payment fuel st payment_request current_user env = Some (outcome, st') ->
  match outcome with
  | HTTPException _ _ => st' = st
  | Returned r =>
      success r = true /\ anomaly_flagged r = false /\ r_anomaly_score r = Some 0%Q
      /\ exists stored, last (transactions st') = Some stored
                        /\ status stored = "completed" /\ is_flagged stored = false
  end.
Proof.
  intros Hwidth. unfold process_p2p_payment.
  destruct (negb _); [intros Hp; injection Hp as <- <-; reflexivity |].
  destruct (auth env); try (intros Hp; injection Hp as <- <-; reflexivity).
  destruct (Py.Qltb _ _); [intros Hp; injection Hp as <- <-; reflexivity |].
  destruct (find_one _ _) as [recipient |]; [| intros Hp; injection Hp as <- <-; reflexivity].
  rewrite (unscored_call _ _ _ _ Hwidth).
  cbn [Ai.is_anomalous Ai.analysis_error Ai.anomaly_score].
  cbn [users set_users set_anomaly_service ledger].
  destruct (Ledger.service_add_transaction _ _ _ _ _ _ _ _ _) as [[recorded chain] |];
    [| discriminate].
  intros Hp. injection Hp as <- <-.
  cbn [success anomaly_flagged r_anomaly_score].
  repeat (split; [reflexivity |]).
  eexists. cbn [transactions insert_one set_ledger set_users set_anomaly_service].
  split; [apply last_snoc |]. split; reflexivity.
Qed.

End RouterScreen.

(** ** Registration, login and the merchant's scanner *)

Section Accounts.
Context `{Ledger.Hashlib} `{Auth.Libraries}.

Lemma find_one_key {A : Type} (key : A -> string) (docs : list A) (value : string) (d : A) :
  Auth.find_one key docs value = Some d -> key d = value.
Proof.
  induction docs as [| x rest IH]; cbn [Auth.find_one]; [discriminate |].
  destruct (String.eqb (key x) value) eqn:E; [| exact IH].
  intros Hd. injection Hd as <-. apply String.eqb_eq. exact E.
Qed.

Lemma find_one_app {A : Type} (key : A -> string) (docs : list A) (d : A) (value : string) :
  Auth.find_one key (docs ++ [d]) value
  = match Auth.find_one key docs value with
    | Some x => Some x
    | None => if String.eqb (key d) value then Some d else None
    end.
Proof.
  induction docs as [| x rest IH]; cbn [Auth.find_one app]; [reflexivity |].
  destruct (String.eqb (key x) value); [reflexivity | exact IH].
Qed.

Lemma find_one_update_one {A : Type} (key : A -> string) (docs : list A)
    (value : string) (f : A -> A) (d : A) :
  (forall x, key (f x) = key x) ->
  Auth.find_one key docs value = Some d ->
  Auth.find_one key (Auth.update_one key docs value f) value = Some (f d).
Proof.
  intros Hf. induction docs as [| x rest IH]; cbn [Auth.find_one Auth.update_one];
    [discriminate |].
  destruct (String.eqb (key x) value) eqn:E.
  - intros Hd. injection Hd as <-. cbn [Auth.find_one]. rewrite Hf, E. reflexivity.
  - intros Hd. cbn [Auth.find_one]. rewrite E. apply IH. exact Hd.
Qed.

(** The matcher accepts whatever is captured when the stored template
    carries the features computed for the same user id. *)
Lemma stored_features_match (auth : Biometric.BiometricAuth) (user_id : string)
    (stored_template : Biometric.Template) (enrolled_data captured : string)
    (env : Biometric.Env) :
  Biometric.features stored_template
    = Some (Biometric._extract_features_simulation user_id enrolled_data) ->
  Py.truthy (Py.slice_to (Ledger.sha256_hexdigest (user_id ++ "_fingerprint_features")) 32)
    = true ->
  (- (5 # 100) <= Biometric.variation env)%Q ->
  exists auth',
    Biometric.authenticate_fingerprint auth user_id stored_template captured env
    = (true, auth').
Proof.
  intros Hf Hh Hlo. unfold Biometric.authenticate_fingerprint. cbv zeta.
  rewrite Hf. cbn [Ai.get].
  rewrite (compare_same_hash
             (Py.slice_to (Ledger.sha256_hexdigest (user_id ++ "_fingerprint_features")) 32))
    by (reflexivity || exact Hh).
  assert (Hm : Qle_bool (Settings.fingerprint_threshold / 100)
                 (Qmax 0 (Qmin 1 ((95 # 100) + Biometric.variation env))) = true).
  { apply Qle_bool_iff.
    apply Qle_trans with (y := Qmin 1 ((95 # 100) + Biometric.variation env));
      [| apply Q.le_max_r].
    apply Q.min_glb; [discriminate |].
    apply Qle_trans with (y := ((95 # 100) + - (5 # 100))%Q); [discriminate |].
    apply Qplus_le_r. exact Hlo. }
  rewrite Hm. eexists. reflexivity.
Qed.

(** What a successful registration leaves in the two collections. *)
Lemma register_user_stores (st st1 : Auth.State) (user_data : Auth.UserCreate)
    (env : Auth.Env) (r : Auth.Registered) :
  Auth.register_user st user_data env = (Auth.Returned r, st1) ->
  exists user_doc encoded_template,
    Auth.find_one Auth.email (Auth.users st) (Auth.c_email user_data) = None
    /\ Auth.encode_fingerprint_template
         (Biometric.enroll_fingerprint (Auth.r_user_id r)
            (Auth.c_fingerprint_data user_data) (Auth.utcnow env))
       = Some encoded_template
    /\ Auth.users st1 = Auth.users st ++ [user_doc]
    /\ Auth.fingerprints st1
       = Auth.fingerprints st
         ++ [{| Auth.f_user_id := Auth.r_user_id r; Auth.template := encoded_template;
                Auth.enrolled_at := Auth.utcnow env; Auth.last_used := None |}]
    /\ Auth.biometric_auth st1 = Auth.biometric_auth st
    /\ Auth.user_id user_doc = Auth.r_user_id r
    /\ Auth.email user_doc = Auth.c_email user_data
    /\ Auth.is_active user_doc = true
    /\ Auth.balance user_doc = 1000%Q
    /\ Auth.user_info user_doc = Auth.r_user r.
Proof.
  unfold Auth.register_user.
  destruct (Auth.find_one Auth.email _ _); [discriminate |].
  destruct (negb _); [discriminate |].
  destruct (Auth.get_password_hash _) as [hashed |]; [| discriminate].
  cbv zeta.
  destruct (Auth.encode_fingerprint_template _) as [encoded |] eqn:Eenc; [| discriminate].
  destruct (Auth.create_access_token _ _ _) as [token |]; [| discriminate].
  intros Hr. injection Hr as <- <-. cbn [Auth.r_user_id].
  eexists _, encoded. repeat split; try reflexivity. exact Eenc.
Qed.

(** X26. Whoever has registered can log in with any fingerprint data: when
    the registration returned, the generated id was not in use, and
    decoding the stored template gives back its features, a login for that
    id is answered with a token and the account of the registration
    response, whatever fingerprint the request carries. *)
Theorem registered_user_logs_in_with_any_fingerprint (st st1 : Auth.State)
    (user_data : Auth.UserCreate) (env : Auth.Env) (r : Auth.Registered)
    (fingerprint_data : string) (env' : Auth.Env) (token : string) :
  Auth.register_user st user_data env = (Auth.Returned r, st1) ->
  Auth.find_one Auth.user_id (Auth.users st) (Auth.r_user_id r) = None ->
  Auth.find_one Auth.f_user_id (Auth.fingerprints st) (Auth.r_user_id r) = None ->
  (forall encoded,
     Auth.encode_fingerprint_template
       (Biometric.enroll_fingerprint (Auth.r_user_id r) (Auth.c_fingerprint_data user_data)
                                     (Auth.utcnow env)) = Some encoded ->
     exists stored_template,
       Auth.decode_fingerprint_template encoded = Some stored_template
       /\ Biometric.features stored_template
          = Some (Biometric._extract_features_simulation
                    (Auth.r_user_id r) (Auth.c_fingerprint_data user_data))) ->
  Py.truthy (Py.slice_to
               (Ledger.sha256_hexdigest (Auth.r_user_id r ++ "_fingerprint_features")) 32)
    = true ->
  (- (5 # 100) <= Biometric.variation (Auth.matcher env'))%Q ->
  Auth.create_access_token [("sub", Auth.r_user_id r)]
    (Some Settings.access_token_expire_minutes) (Auth.utcnow env') = Some token ->
  exists st2,
    Auth.login_user st1
      {| Auth.l_user_id := Auth.r_user_id r; Auth.l_fingerprint_data := fingerprint_data |}
      env'
    = (Auth.Returned {| Auth.access_token := token; Auth.token_type := "bearer";
                        Auth.l_user := Auth.r_user r |},
       st2).
Proof.
  intros Hreg Hu Hf Hcodec Hh Hlo Htok.
  destruct (register_user_stores _ _ _ _ _ Hreg)
    as (user_doc & encoded & _ & Henc & Husers & Hfps & _ & Hid & _ & Hact & _ & Hinfo).
  destruct (Hcodec _ Henc) as (stored & Hdec & Hfeat).
  unfold Auth.login_user. cbn [Auth.l_user_id Auth.l_fingerprint_data].
  rewrite Husers, find_one_app, Hu, Hid, String.eqb_refl, Hact. cbn [negb].
  rewrite Hfps, find_one_app, Hf. cbn [Auth.f_user_id].
  rewrite String.eqb_refl. cbn [Auth.template]. rewrite Hdec.
  destruct (stored_features_match (Auth.biometric_auth st1) _ _ _ fingerprint_data
              _ Hfeat Hh Hlo) as (auth' & Hauth).
  rewrite Hauth. cbn [negb]. cbv zeta. cbn [Auth.utcnow]. rewrite Htok, Hinfo.
  eexists. reflexivity.
Qed.

(** X27. An email address registers once: after a registration that
    returned, every further registration with the same address is
    answered 409 and leaves the collections as they are. *)
Theorem registration_rejects_a_taken_email (st st1 : Auth.State)
    (user_data again : Auth.UserCreate) (env env' : Auth.Env) (r : Auth.Registered) :
  Auth.register_user st user_data env = (Auth.Returned r, st1) ->
  Auth.c_email again = Auth.c_email user_data ->
  Auth.register_user st1 again env'
  = (Auth.HTTPException 409 "User with this email already exists", st1).
Proof.
  intros Hreg Hmail.
  destruct (register_user_stores _ _ _ _ _ Hreg)
    as (user_doc & encoded & Hnew & _ & Husers & _ & _ & _ & Hemail & _).
  unfold Auth.register_user. rewrite Husers, find_one_app, Hmail, Hnew, Hemail.
  rewrite String.eqb_refl. reflexivity.
Qed.

End Accounts.

Section Scanner.
Context `{Ledger.Hashlib} `{Auth.Libraries}.
Import Merchant.

Lemma match_customer_skips (skipped rest : list Auth.FingerprintDoc) (position : nat)
    (users : list Auth.UserDoc) (auth : Biometric.BiometricAuth)
    (fingerprint_data : string) (matcher : nat -> Biometric.Env) :
  (forall d, In d skipped -> String.prefix "merchant_" (Auth.f_user_id d) = true) ->
  match_customer (skipped ++ rest) position users auth fingerprint_data matcher
  = match_customer rest (position + List.length skipped) users auth fingerprint_data matcher.
Proof.
  revert position.
  induction skipped as [| d skipped IH]; intros position Hs; cbn [app List.length].
  - rewrite Nat.add_0_r. reflexivity.
  - cbn [match_customer]. rewrite (Hs d (or_introl eq_refl)).
    rewrite IH by (intros d' Hd'; apply Hs; right; exact Hd').
    f_equal. lia.
Qed.

(** The loop stops at the first document that is not a merchant's when
    its template carries the features of its own user id. *)
Lemma match_customer_first (skipped rest : list Auth.FingerprintDoc)
    (doc : Auth.FingerprintDoc) (stored_template : Biometric.Template)
    (enrolled_data : string) (users : list Auth.UserDoc) (auth : Biometric.BiometricAuth)
    (fingerprint_data : string) (matcher : nat -> Biometric.Env) :
  (forall d, In d skipped -> String.prefix "merchant_" (Auth.f_user_id d) = true) ->
  String.prefix "merchant_" (Auth.f_user_id doc) = false ->
  Auth.decode_fingerprint_template (Auth.template doc) = Some stored_template ->
  Biometric.features stored_template
    = Some (Biometric._extract_features_simulation (Auth.f_user_id doc) enrolled_data) ->
  Py.truthy (Py.slice_to
               (Ledger.sha256_hexdigest (Auth.f_user_id doc ++ "_fingerprint_features")) 32)
    = true ->
  (- (5 # 100) <= Biometric.variation (matcher (List.length skipped)))%Q ->
  exists auth',
    match_customer (skipped ++ doc :: rest) 0 users auth fingerprint_data matcher
    = (Some (Auth.find_one Auth.user_id users (Auth.f_user_id doc)), auth').
Proof.
  intros Hs Hdoc Hdec Hfeat Hh Hlo.
  rewrite match_customer_skips by exact Hs. cbn [Nat.add match_customer].
  rewrite Hdoc, Hdec.
  destruct (stored_features_match auth _ _ _ fingerprint_data _ Hfeat Hh Hlo)
    as (auth' & Hauth).
  rewrite Hauth. exists auth'. reflexivity.
Qed.

Lemma Qltb_false (a b : Q) : (b <= a)%Q -> Py.Qltb a b = false.
Proof.
  intros Hle. unfold Py.Qltb. apply negb_false_iff. apply Qle_bool_iff. exact Hle.
Qed.

(** X28. The scanner charges the first enrolled customer, whatever finger
    is on it: when the first fingerprint document that is not a merchant's
    decodes to the features of its own user id, and that user's balance
    covers the amount, a request that returns is a completed payment by
    that user, for any captured fingerprint data. Requests return as long
    as fewer than four transactions are pending on the ledger. *)
Theorem scanner_charges_first_enrolled_customer (fuel : nat) (st : State)
    (skipped rest : list Auth.FingerprintDoc) (doc : Auth.FingerprintDoc)
    (stored_template : Biometric.Template) (enrolled_data : string) (payer : Auth.UserDoc)
    (fingerprint_data : string) (amount : Q) (description : option string)
    (current_merchant : MerchantDoc) (env : Env) :
  Auth.fingerprints (accounts st) = skipped ++ doc :: rest ->
  (forall d, In d skipped -> String.prefix "merchant_" (Auth.f_user_id d) = true) ->
  String.prefix "merchant_" (Auth.f_user_id doc) = false ->
  Auth.decode_fingerprint_template (Auth.template doc) = Some stored_template ->
  Biometric.features stored_template
    = Some (Biometric._extract_features_simulation (Auth.f_user_id doc) enrolled_data) ->
  Py.truthy (Py.slice_to
               (Ledger.sha256_hexdigest (Auth.f_user_id doc ++ "_fingerprint_features")) 32)
    = true ->
  (- (5 # 100) <= Biometric.variation (matcher env (List.length skipped)))%Q ->
  Auth.find_one Auth.user_id (Auth.users (accounts st)) (Auth.f_user_id doc) = Some payer ->
  (amount <= Auth.balance payer)%Q ->
  (forall outcome st',
     capture_customer_fingerprint fuel st fingerprint_data amount description
                                  current_merchant env = Some (outcome, st') ->
     outcome
     = Auth.Returned
         (Completed (Security.generate_transaction_id (uuid_hex env)) (user_name payer)
                    amount (Auth.balance payer - amount)
                    (m_balance current_merchant + amount)))
  /\ ((List.length (Ledger.pending_transactions (ledger st)) < 4)%nat ->
      exists outcome st',
        capture_customer_fingerprint fuel st fingerprint_data amount description
                                     current_merchant env = Some (outcome, st')).
Proof.
  intros Hfps Hs Hdoc Hdec Hfeat Hh Hlo Hpayer Hfunds.
  destruct (match_customer_first skipped rest doc stored_template enrolled_data
              (Auth.users (accounts st)) (Auth.biometric_auth (accounts st))
              fingerprint_data (matcher env) Hs Hdoc Hdec Hfeat Hh Hlo) as (auth' & Hm).
  unfold capture_customer_fingerprint. rewrite Hfps, Hm, Hpayer.
  rewrite (Qltb_false _ _ Hfunds). cbv zeta.
  split.
  - intros outcome st'.
    destruct (Ledger.service_add_transaction _ _ _ _ _ _ _ _ _) as [[ok chain] |];
      [| discriminate].
    intros Hc. injection Hc as <- _. reflexivity.
  - intros Hpending. cbn [ledger set_transactions set_merchants set_accounts].
    unfold Ledger.service_add_transaction. cbv zeta.
    unfold Ledger.add_transaction.
    destruct (negb (Ledger._validate_transaction _ _)).
    + cbn [andb]. eexists _, _. reflexivity.
    + cbn [andb Ledger.pending_transactions Ledger.set_pending].
      rewrite length_app. cbn [List.length].
      destruct (5 <=? _) eqn:E5; [apply Z.leb_le in E5; lia |].
      eexists _, _. reflexivity.
Qed.

(** X29. A completed scanner payment moves the amount between the two
    stored balances: afterwards the payer's document holds the balance it
    had less the amount, the merchant's document holds the balance of the
    token's document plus the amount, and the payer could cover the
    amount; the last stored transaction is this payment. *)
Theorem scanner_payment_moves_the_amount (fuel : nat) (st st' : State)
    (fingerprint_data : string) (amount : Q) (description : option string)
    (current_merchant : MerchantDoc) (env : Env)
    (transaction_id name : string) (charged customer_after merchant_after : Q) :
  capture_customer_fingerprint fuel st fingerprint_data amount description
                               current_merchant env
    = Some (Auth.Returned (Completed transaction_id name charged customer_after
                                     merchant_after), st') ->
  Auth.find_one merchant_id (merchants st) (merchant_id current_merchant)
    = Some current_merchant ->
  exists payer stored,
    Auth.find_one Auth.user_id (Auth.users (accounts st)) (Auth.user_id payer) = Some payer
    /\ (amount <= Auth.balance payer)%Q
    /\ charged = amount
    /\ customer_after = (Auth.balance payer - amount)%Q
    /\ merchant_after = (m_balance current_merchant + amount)%Q
    /\ Auth.find_one Auth.user_id (Auth.users (accounts st')) (Auth.user_id payer)
       = Some (Auth.set_balance customer_after (utcnow env) payer)
    /\ Auth.find_one merchant_id (merchants st') (merchant_id current_merchant)
       = Some (set_m_balance merchant_after (utcnow env) current_merchant)
    /\ last (transactions st') = Some stored
    /\ Merchant.transaction_id stored = transaction_id
    /\ from_user stored = Auth.user_id payer
    /\ t_merchant_id stored = merchant_id current_merchant
    /\ Merchant.amount stored = amount
    /\ status stored = "completed".
Proof.
  unfold capture_customer_fingerprint.
  destruct (match_customer _ _ _ _ _ _) as [[[payer |] |] auth'] eqn:Hm;
    try discriminate.
  destruct (Py.Qltb (Auth.balance payer) amount) eqn:Hlt; [discriminate |].
  cbv zeta.
  destruct (Ledger.service_add_transaction _ _ _ _ _ _ _ _ _) as [[ok chain] |];
    [| discriminate].
  intros Hc Hmerchant. injection Hc as <- <- <- <- <- <-.
  assert (Hfound : Auth.find_one Auth.user_id (Auth.users (accounts st))
                     (Auth.user_id payer) = Some payer).
  { clear - Hm.
    revert Hm. generalize (Auth.biometric_auth (accounts st)). generalize 0%nat.
    induction (Auth.fingerprints (accounts st)) as [| d rest IH];
      intros position auth; cbn [match_customer]; [discriminate |].
    destruct (String.prefix _ _); [apply IH |].
    destruct (Auth.decode_fingerprint_template _); [| apply IH].
    destruct (Biometric.authenticate_fingerprint _ _ _ _ _) as [[|] auth1]; [| apply IH].
    intros Hp. injection Hp as Hp _.
    rewrite <- (find_one_key _ _ _ _ Hp) in Hp. exact Hp. }
  exists payer. eexists. split; [exact Hfound |].
  split.
  { unfold Py.Qltb in Hlt. apply negb_false_iff in Hlt. apply Qle_bool_iff. exact Hlt. }
  do 3 (split; [reflexivity |]).
  cbn [accounts set_ledger set_transactions set_merchants set_accounts merchants
       transactions Auth.users Auth.set_users Auth.set_biometric_auth].
  split; [apply find_one_update_one; [reflexivity | exact Hfound] |].
  split; [apply find_one_update_one; [reflexivity | exact Hmerchant] |].
  split; [apply last_snoc |].
  repeat split; reflexivity.
Qed.

(** X30. The scanner takes a negative amount: with the first enrolled
    customer as in the theorem above and a balance that is not negative,
    the request is answered as a completed payment, the customer's stored
    balance grows by the amount's size, and the ledger records nothing. *)
Theorem scanner_accepts_negative_amounts (fuel : nat) (st : State)
    (skipped rest : list Auth.FingerprintDoc) (doc : Auth.FingerprintDoc)
    (stored_template : Biometric.Template) (enrolled_data : string) (payer : Auth.UserDoc)
    (fingerprint_data : string) (amount : Q) (description : option string)
    (current_merchant : MerchantDoc) (env : Env) :
  Auth.fingerprints (accounts st) = skipped ++ doc :: rest ->
  (forall d, In d skipped -> String.prefix "merchant_" (Auth.f_user_id d) = true) ->
  String.prefix "merchant_" (Auth.f_user_id doc) = false ->
  Auth.decode_fingerprint_template (Auth.template doc) = Some stored_template ->
  Biometric.features stored_template
    = Some (Biometric._extract_features_simulation (Auth.f_user_id doc) enrolled_data) ->
  Py.truthy (Py.slice_to
               (Ledger.sha256_hexdigest (Auth.f_user_id doc ++ "_fingerprint_features")) 32)
    = true ->
  (- (5 # 100) <= Biometric.variation (matcher env (List.length skipped)))%Q ->
  Auth.find_one Auth.user_id (Auth.users (accounts st)) (Auth.f_user_id doc) = Some payer ->
  (0 <= Auth.balance payer)%Q ->
  (amount < 0)%Q ->
  exists st',
    capture_customer_fingerprint fuel st fingerprint_data amount description
                                 current_merchant env
    = Some (Auth.Returned
              (Completed (Security.generate_transaction_id (uuid_hex env))
                         (user_name payer) amount (Auth.balance payer - amount)
                         (m_balance current_merchant + amount)), st')
    /\ ledger st' = ledger st
    /\ (exists stored,
          Auth.find_one Auth.user_id (Auth.users (accounts st')) (Auth.f_user_id doc)
          = Some stored
          /\ (Auth.balance payer < Auth.balance stored)%Q).
Proof.
  intros Hfps Hs Hdoc Hdec Hfeat Hh Hlo Hpayer Hbal Hneg.
  destruct (match_customer_first skipped rest doc stored_template enrolled_data
              (Auth.users (accounts st)) (Auth.biometric_auth (accounts st))
              fingerprint_data (matcher env) Hs Hdoc Hdec Hfeat Hh Hlo) as (auth' & Hm).
  unfold capture_customer_fingerprint. rewrite Hfps, Hm, Hpayer.
  rewrite Qltb_false
    by (apply Qle_trans with (y := 0%Q); [apply Qlt_le_weak; exact Hneg | exact Hbal]).
  cbv zeta.
  assert (Hrej : forall bc from to ty id now clock,
             Ledger.service_add_transaction fuel bc from to amount ty id now clock
             = Some (false, bc)).
  { intros. unfold Ledger.service_add_transaction, Ledger.add_transaction. cbv zeta.
    unfold Ledger._validate_transaction. cbn [Ledger.amount].
    assert (Hgt : Py.Qgtb amount 0 = false).
    { unfold Py.Qgtb. apply negb_false_iff. apply Qle_bool_iff.
      apply Qlt_le_weak. exact Hneg. }
    rewrite Hgt, !andb_false_r. reflexivity. }
  rewrite Hrej. eexists. split; [reflexivity |].
  split; [destruct st; reflexivity |].
  pose proof (find_one_key _ _ _ _ Hpayer) as Hid.
  cbn [accounts set_ledger set_transactions set_merchants set_accounts
       Auth.users Auth.set_users Auth.set_biometric_auth].
  rewrite Hid. eexists. split; [apply find_one_update_one; [reflexivity | exact Hpayer] |].
  cbn [Auth.balance Auth.set_balance].
  rewrite <- (Qplus_0_r (Auth.balance payer)) at 1.
  unfold Qminus. apply Qplus_lt_r.
  apply Qopp_lt_compat in Hneg. exact Hneg.
Qed.

End Scanner.

(** ** Concrete runs of the further properties *)

Section FurtherRuns.
Import Examples.

(** *** The ledger *)

Lemma one_pending_served : @Ledger.service_reachable Json.python_hashlib genesis_time one_pending.
Proof.
  apply (@Ledger.service_next Json.python_hashlib genesis_time fresh_ledger);
    [rewrite fresh_ledger_run; apply Ledger.service_init |].
  apply (@Ledger.service_add Json.python_hashlib fresh_ledger 0 "alice" "bob" 25 "p2p"
           "tx_1" "2024-01-01T00:01:00" clock_single true one_pending).
  vm_compute. reflexivity.
Qed.

(** Witness of X1. *)
Lemma built_chain_validates_witness :
  @Ledger.reachable Json.python_hashlib genesis_time mined_double
  /\ @Ledger.is_chain_valid Json.python_hashlib mined_double = true
  /\ Ledger.is_valid (@Ledger.get_blockchain_info Json.python_hashlib mined_double) = true.
Proof.
  split; [exact mined_double_reachable |].
  exact (@built_chain_validates Json.python_hashlib genesis_time mined_double
           mined_double_reachable).
Defined.

(** Witness of X2. *)
Lemma accepted_ids_are_fresh_witness :
  @Ledger.reachable Json.python_hashlib genesis_time mined_single
  /\ Ledger.ids_fresh mined_single.
Proof.
  split; [exact mined_single_reachable |].
  exact (@accepted_ids_are_fresh Json.python_hashlib genesis_time mined_single
           mined_single_reachable).
Defined.

(** Witness of X3. *)
Lemma recorded_amounts_positive_witness :
  @Ledger.reachable Json.python_hashlib genesis_time mined_single
  /\ (0 < Ledger.amount alice_pays_bob)%Q
  /\ Ledger.from_user alice_pays_bob <> EmptyString
  /\ Ledger.transaction_id alice_pays_bob <> EmptyString.
Proof.
  split; [exact mined_single_reachable |].
  apply (@recorded_amounts_positive Json.python_hashlib genesis_time mined_single
           alice_pays_bob mined_single_reachable).
  right. exists single_block. split; vm_compute; auto.
Defined.

(** Witness of X4. *)
Lemma mining_moves_pending_into_block_witness :
  @Ledger.mine_pending_transactions Json.python_hashlib 1 one_pending "system" clock_single
    = Some (Some single_block, mined_single)
  /\ Ledger.transactions single_block
     = Ledger.pending_transactions one_pending
       ++ [Ledger.reward_transaction one_pending "system" clock_single]
  /\ last (Ledger.chain mined_single) = Some single_block.
Proof.
  split; [exact mined_single_run |].
  destruct (proj2 (@mining_moves_pending_into_block Json.python_hashlib 1 one_pending
                     "system" clock_single (Some single_block) mined_single
                     mined_single_run) single_block eq_refl) as (Ht & Hl & _).
  split; [exact Ht | exact Hl].
Defined.

(** Witness of X5. *)
Lemma auto_mining_bounds_pending_witness :
  @Ledger.service_reachable Json.python_hashlib genesis_time one_pending
  /\ (List.length (Ledger.pending_transactions one_pending) < 5)%nat.
Proof.
  split; [exact one_pending_served |].
  exact (proj1 (@auto_mining_bounds_pending Json.python_hashlib genesis_time one_pending
                  one_pending_served)).
Defined.

(** *** The scorer *)

(** Witness of X7. *)
Lemma unusual_time_means_before_six_witness :
  exists result,
    @Ai.check_try rational_numerics (service_with (constant_forest (1 # 10) 1))
      (night_transaction 100) [] noon = Some result
    /\ In "unusual_time" (Ai.risk_factors result).
Proof.
  destruct (@Ai.check_try rational_numerics (service_with (constant_forest (1 # 10) 1))
              (night_transaction 100) [] noon) as [result |] eqn:Htry;
    [| vm_compute in Htry; discriminate].
  exists result. split; [reflexivity |].
  destruct (@unusual_time_means_before_six rational_numerics _ _ _ _ result Htry)
    as (tx_time & Ht & _ & Hiff).
  apply Hiff. vm_compute in Ht. injection Ht as <-. vm_compute. reflexivity.
Defined.

(** Witness of X8. *)
Lemma large_first_payment_at_night_is_flagged_witness :
  exists result,
    @Ai.check_try rational_numerics (service_with (constant_forest (1 # 10) 1))
      (night_transaction 6000) [] noon = Some result
    /\ Ai.is_anomalous result = true
    /\ Ai.risk_factors result = ["large_amount"; "new_user_large_amount"; "unusual_time"].
Proof.
  destruct (@Ai.check_try rational_numerics (service_with (constant_forest (1 # 10) 1))
              (night_transaction 6000) [] noon) as [result |] eqn:Htry;
    [| vm_compute in Htry; discriminate].
  exists result. split; [reflexivity |].
  apply (@large_first_payment_at_night_is_flagged rational_numerics _ _ _ result
           small_hours Htry).
  - reflexivity.
  - vm_compute. reflexivity.
  - reflexivity.
  - vm_compute. reflexivity.
Defined.

(** Witness of X9. *)
Lemma hourly_velocity_within_daily_witness :
  exists features,
    @Ai.extract_features_try rational_numerics (plain_transaction 100)
      [earlier 30 20; earlier 50 300] noon = Some features
    /\ (nth 14 features 0 <= nth 15 features 0)%Q.
Proof.
  destruct (@Ai.extract_features_try rational_numerics (plain_transaction 100)
              [earlier 30 20; earlier 50 300] noon) as [features |] eqn:Hf;
    [| vm_compute in Hf; discriminate].
  exists features. split; [reflexivity |].
  exact (proj1 (@hourly_velocity_within_daily rational_numerics _ _ _ features Hf)).
Defined.

Lemma width_23_rejects_other_rows (row : list Q) :
  List.length row <> 23%nat ->
  Ai.decision_function (Ai.model (service_with (width_checked_forest 23 (1 # 10) 1))) row
  = None.
Proof.
  intros Hlen. cbn [Ai.decision_function Ai.model service_with width_checked_forest].
  destruct (Nat.eqb_spec (List.length row) 23); [contradiction | reflexivity].
Qed.


(** *** The in-memory orchestrator *)

(** Witness of X11. *)
Lemma fraud_needs_all_three_signals_witness :
  0 <= 3 <= 23
  /\ (snd (Enhanced.detect_fraud "user_12345" 1500 [] 3) <= 6 # 10)%Q.
Proof.
  assert (Hhour : 0 <= 3 <= 23) by lia.
  split; [exact Hhour |].
  exact (proj2 (fraud_needs_all_three_signals "user_12345" 1500 [] 3 Hhour)).
Defined.

(** Witness of X12. *)
Lemma overdraft_stays_within_limit_witness :
  exists r st',
    @Enhanced.p2p_payment digest_of_id stores happy_payment first_key first_env
      = (Enhanced.Returned r, st')
    /\ Enhanced.new_balance r = Some (1000 - 100)%Q.
Proof.
  destruct (@Enhanced.p2p_payment digest_of_id stores happy_payment first_key first_env)
    as [[code detail error_code | r] st'] eqn:Hrun.
  { vm_compute in Hrun. discriminate Hrun. }
  exists r, st'. split; [reflexivity |].
  assert (Hexec : Enhanced.executed r).
  { pose proof Hrun as Hc. vm_compute in Hc. injection Hc as <- _. discriminate. }
  assert (Hsender : Enhanced.users_db stores !! Enhanced.sender_id
                    = Some (account 1000 "Asha" "Rao")).
  { vm_compute. reflexivity. }
  exact (proj1 (@overdraft_stays_within_limit digest_of_id stores happy_payment first_key
                  first_env r st' (account 1000 "Asha" "Rao") Hrun Hexec Hsender)).
Defined.

(** Witness of X13. *)
Lemma failed_payment_moves_no_money_witness :
  exists status_code detail error_code st',
    @Enhanced.p2p_payment digest_of_id stores stray_payment first_key first_env
      = (Enhanced.HTTPException status_code detail error_code, st')
    /\ Enhanced.users_db st' = Enhanced.users_db stores
    /\ Enhanced.blockchain_db st' = Enhanced.blockchain_db stores.
Proof.
  destruct (@Enhanced.p2p_payment digest_of_id stores stray_payment first_key first_env)
    as [[code detail error_code | r] st'] eqn:Hrun;
    [| vm_compute in Hrun; discriminate Hrun].
  exists code, detail, error_code, st'. split; [reflexivity |].
  destruct (@failed_payment_moves_no_money digest_of_id stores stray_payment first_key
              first_env code detail error_code st' Hrun) as (Hu & Hb & _).
  split; [exact Hu | exact Hb].
Defined.

Lemma empty_ledger_consistent : Enhanced.ledger_consistent stores.
Proof. intros i b Hb. destruct i; discriminate Hb. Qed.

(** Witness of X14. *)
Lemma ledger_list_stays_consistent_witness :
  Enhanced.ledger_consistent stores
  /\ Enhanced.ledger_consistent
       (fold_left (@Enhanced.handle digest_of_id)
                  (interleaved
                   ++ [Enhanced.PostP2P happy_payment first_key first_env])
                  stores).
Proof.
  split; [exact empty_ledger_consistent |].
  exact (@ledger_list_stays_consistent digest_of_id stores _ empty_ledger_consistent).
Defined.

(** *** The in-memory collections *)

Lemma no_or_field (item : Database.Document) :
  In item (Database.data merchants_collection) -> item !! "$or" = None.
Proof. intros [<- | [<- | []]]; reflexivity. Qed.

(** Witness of X15. *)
Lemma filter_on_absent_key_selects_nothing_witness :
  (forall item, In item (Database.data merchants_collection) -> item !! "$or" = None)
  /\ @Database.find_one scalar_operators merchants_collection
       (Some [("$or", Database.VList [])]) = Some None
  /\ @Database.count_documents scalar_operators merchants_collection
       (Some [("$or", Database.VList [])]) = Some 0.
Proof.
  split; [exact no_or_field |].
  destruct (@filter_on_absent_key_selects_nothing scalar_operators merchants_collection
              "$or" (Database.VList []) [] no_or_field) as (_ & Hone & Hcount & _).
  split; [exact Hone | exact Hcount].
Defined.

(** Witness of X16. *)
Lemma update_one_set_ignores_inc_witness :
  @Database.first_match scalar_operators (Database.data merchants_collection)
    [("merchant_id", Database.VStr "merchant_0002")]
    = Some (Some ([merchant_document "merchant_0001" 0 0],
                  merchant_document "merchant_0002" 70 70, []))
  /\ (<["updated_at" := Database.VDatetime noon]>
        (Database.update (merchant_document "merchant_0002" 70 70)
                         [("balance", Database.VNum 95)])) !! "total_revenue"
     = merchant_document "merchant_0002" 70 70 !! "total_revenue".
Proof.
  assert (Hfirst : @Database.first_match scalar_operators
                     (Database.data merchants_collection)
                     [("merchant_id", Database.VStr "merchant_0002")]
                   = Some (Some ([merchant_document "merchant_0001" 0 0],
                                 merchant_document "merchant_0002" 70 70, []))).
  { vm_compute. reflexivity. }
  split; [exact Hfirst |].
  pose proof (@update_one_set_ignores_inc scalar_operators merchants_collection
                [("merchant_id", Database.VStr "merchant_0002")]
                [("balance", Database.VNum 95)]
                (Some [("total_revenue", Database.VNum 25)]) [] noon
                [merchant_document "merchant_0001" 0 0]
                [] (merchant_document "merchant_0002" 70 70) Hfirst) as Hupdate.
  cbv zeta in Hupdate. destruct Hupdate as [_ Hkeep].
  apply Hkeep; [discriminate | reflexivity].
Defined.

Lemma no_such_id (item : Database.Document) :
  In item (Database.data merchants_collection) ->
  @Database._matches_filter scalar_operators item
    [("_id", Database.VStr "6f1c0e0a-8a53-4d0b-9a51-5a1f0f8f2c11")] = Some false.
Proof. intros [<- | [<- | []]]; reflexivity. Qed.

(** Witness of X17. *)
Lemma inserted_document_is_found_witness :
  new_document !! "_id" = None
  /\ @Database.find_one scalar_operators
       (snd (Database.insert_one merchants_collection new_document
               "6f1c0e0a-8a53-4d0b-9a51-5a1f0f8f2c11" noon))
       (Some [("_id", Database.VStr "6f1c0e0a-8a53-4d0b-9a51-5a1f0f8f2c11")])
     = Some (Some (Database.stored_document new_document
                     "6f1c0e0a-8a53-4d0b-9a51-5a1f0f8f2c11" noon)).
Proof.
  assert (Hnew : new_document !! "_id" = None) by reflexivity.
  split; [exact Hnew |].
  pose proof (@inserted_document_is_found scalar_operators merchants_collection
                new_document "6f1c0e0a-8a53-4d0b-9a51-5a1f0f8f2c11" noon Hnew eq_refl
                no_such_id) as Hins.
  cbv zeta in Hins. destruct Hins as (_ & _ & _ & Hfound & _). exact Hfound.
Defined.

Lemma document_of_has_no_or (tx : Payments.TransactionDoc) : document_of tx !! "$or" = None.
Proof. reflexivity. Qed.

(** Witness of X18. *)
Lemma in_memory_history_is_empty_witness :
  (forall tx, document_of tx !! "$or" = None)
  /\ List.length (Payments.transactions after_transfer) = 1%nat
  /\ @Payments.find_by_party (@InMemory.storage scalar_operators document_of)
       (Payments.transactions after_transfer) "user_asha" = [].
Proof.
  split; [exact document_of_has_no_or |]. split; [reflexivity |].
  exact (proj1 (@in_memory_history_is_empty scalar_operators document_of after_transfer
                  "user_asha" document_of_has_no_or)).
Defined.

(** *** Fingerprints *)

Lemma asha_descriptor_run :
  Py.truthy (Py.slice_to (@Ledger.sha256_hexdigest Json.python_hashlib
                            ("user_asha" ++ "_fingerprint_features")) 32) = true.
Proof. vm_compute. reflexivity. Qed.

Lemma matcher_env_low : (- (5 # 100) <= Biometric.variation matcher_env)%Q.
Proof. vm_compute. discriminate. Qed.

Lemma matcher_env_high : (Biometric.variation matcher_env <= 5 # 100)%Q.
Proof. vm_compute. discriminate. Qed.

(** Witness of X19. *)
Lemma any_capture_authenticates_enrolled_user_witness :
  Py.truthy (Py.slice_to (@Ledger.sha256_hexdigest Json.python_hashlib
                            ("user_asha" ++ "_fingerprint_features")) 32) = true
  /\ fst (@Biometric.authenticate_fingerprint Json.python_hashlib no_sessions "user_asha"
            (@Biometric.enroll_fingerprint Json.python_hashlib "user_asha"
               "right-index-finger" noon)
            "left-thumb-of-a-stranger" matcher_env) = true.
Proof.
  split; [exact asha_descriptor_run |].
  exact (proj1 (@any_capture_authenticates_enrolled_user Json.python_hashlib no_sessions
                  "user_asha" "right-index-finger" "left-thumb-of-a-stranger" noon
                  matcher_env asha_descriptor_run matcher_env_low matcher_env_high)).
Defined.

Lemma near_template_accepted :
  fst (@Biometric.authenticate_fingerprint Json.python_hashlib no_sessions "user_asha"
         near_template "right-index-finger" matcher_env) = true.
Proof. vm_compute. reflexivity. Qed.

(** Witness of X20. *)
Lemma mismatch_needs_three_quarters_witness :
  fst (@Biometric.authenticate_fingerprint Json.python_hashlib no_sessions "user_asha"
         near_template "right-index-finger" matcher_env) = true
  /\ 3 * Z.of_nat (String.length "g476533747f9348ad5238450c4fd4167")
     <= 4 * Biometric.common_chars "g476533747f9348ad5238450c4fd4167"
              (Py.slice_to (@Ledger.sha256_hexdigest Json.python_hashlib
                              ("user_asha" ++ "_fingerprint_features")) 32).
Proof.
  split; [exact near_template_accepted |].
  apply (@mismatch_needs_three_quarters Json.python_hashlib no_sessions "user_asha"
           near_template "right-index-finger" matcher_env).
  - reflexivity.
  - vm_compute. discriminate.
  - exact matcher_env_high.
  - exact near_template_accepted.
Defined.

(** Witness of X21. *)
Lemma authentication_opens_session_witness :
  Biometric.is_session_active
    (snd (@Biometric.authenticate_fingerprint Json.python_hashlib no_sessions "user_asha"
            (@Biometric.enroll_fingerprint Json.python_hashlib "user_asha"
               "right-index-finger" noon)
            "right-index-finger" matcher_env))
    "user_asha" (noon + Biometric.minutes 30) = true.
Proof.
  apply (@authentication_opens_session Json.python_hashlib no_sessions _ "user_asha"
           (@Biometric.enroll_fingerprint Json.python_hashlib "user_asha"
              "right-index-finger" noon)
           "right-index-finger" matcher_env).
  - vm_compute. reflexivity.
  - vm_compute. discriminate.
Defined.

(** *** Connections *)

Lemma three_connections_distinct : List.NoDup (Realtime.connections three_connections).
Proof.
  repeat (constructor; [cbn; intuition discriminate |]). constructor.
Qed.

(** Witness of X24. *)
Lemma broadcast_drops_dead_connections_witness :
  List.NoDup (Realtime.connections three_connections)
  /\ Realtime.connections (Realtime.broadcast three_connections (Nat.eqb 1))
     = Realtime.delivered (Nat.eqb 1) 0 (Realtime.connections three_connections).
Proof.
  split; [exact three_connections_distinct |].
  exact (proj1 (broadcast_drops_dead_connections three_connections (Nat.eqb 1)
                  three_connections_distinct)).
Defined.

(** *** The payment router *)

(** Witness of X25. *)
Lemma unscored_payments_are_never_flagged_witness :
  exists r st',
    @Payments.process_p2p_payment Json.python_hashlib rational_numerics
      (fits unfitted_forest) party_storage 1
      (collections (width_checked_forest 23 (1 # 10) 1)) (transfer "user_ben" 2000) asha
      router_env = Some (Payments.Returned r, st')
    /\ Payments.anomaly_flagged r = false
    /\ Payments.r_anomaly_score r = Some 0%Q.
Proof.
  destruct (@Payments.process_p2p_payment Json.python_hashlib rational_numerics
              (fits unfitted_forest) party_storage 1
              (collections (width_checked_forest 23 (1 # 10) 1)) (transfer "user_ben" 2000)
              asha router_env) as [[[code detail | r] st'] |] eqn:Hrun.
  { vm_compute in Hrun. discriminate Hrun. }
  2: { vm_compute in Hrun. discriminate Hrun. }
  exists r, st'. split; [reflexivity |].
  pose proof (@unscored_payments_are_never_flagged Json.python_hashlib rational_numerics
                (fits unfitted_forest) party_storage 1
                (collections (width_checked_forest 23 (1 # 10) 1))
                (transfer "user_ben" 2000) asha router_env (Payments.Returned r) st'
                width_23_rejects_other_rows Hrun) as Hscreen.
  cbv beta iota in Hscreen. destruct Hscreen as (_ & Hflag & Hscore & _).
  split; [exact Hflag | exact Hscore].
Defined.

(** *** Accounts and the scanner *)

Lemma asha_registers :
  @Auth.register_user Json.python_hashlib account_libraries no_accounts asha_signup
    signup_env = (Auth.Returned asha_registered, one_account).
Proof. vm_compute. reflexivity. Qed.

Lemma account_descriptor_run :
  Py.truthy (Py.slice_to (@Ledger.sha256_hexdigest Json.python_hashlib
                            ("user_0123456789ab" ++ "_fingerprint_features")) 32) = true.
Proof. vm_compute. reflexivity. Qed.

Lemma codec_keeps_features (user_id data : string) (now : Z) (encoded : string) :
  @Auth.encode_fingerprint_template account_libraries
    (@Biometric.enroll_fingerprint Json.python_hashlib user_id data now) = Some encoded ->
  exists stored_template,
    @Auth.decode_fingerprint_template account_libraries encoded = Some stored_template
    /\ Biometric.features stored_template
       = Some (@Biometric._extract_features_simulation Json.python_hashlib user_id data).
Proof.
  intros Henc.
  cbn [Auth.encode_fingerprint_template account_libraries Biometric.enroll_fingerprint
       Biometric.t_user_id] in Henc.
  injection Henc as <-. eexists. split; reflexivity.
Qed.

(** Witness of X26. *)
Lemma registered_user_logs_in_with_any_fingerprint_witness :
  @Auth.register_user Json.python_hashlib account_libraries no_accounts asha_signup
    signup_env = (Auth.Returned asha_registered, one_account)
  /\ exists st2,
       @Auth.login_user Json.python_hashlib account_libraries one_account
         {| Auth.l_user_id := "user_0123456789ab";
            Auth.l_fingerprint_data := "left-thumb-of-a-stranger" |} signup_env
       = (Auth.Returned {| Auth.access_token := "token-of-user_0123456789ab";
                           Auth.token_type := "bearer";
                           Auth.l_user := Auth.r_user asha_registered |}, st2).
Proof.
  split; [exact asha_registers |].
  exact (@registered_user_logs_in_with_any_fingerprint Json.python_hashlib
           account_libraries no_accounts one_account asha_signup signup_env
           asha_registered "left-thumb-of-a-stranger" signup_env
           "token-of-user_0123456789ab" asha_registers eq_refl eq_refl
           (codec_keeps_features _ _ _) account_descriptor_run matcher_env_low eq_refl).
Defined.

(** Witness of X27. *)
Lemma registration_rejects_a_taken_email_witness :
  @Auth.register_user Json.python_hashlib account_libraries no_accounts asha_signup
    signup_env = (Auth.Returned asha_registered, one_account)
  /\ @Auth.register_user Json.python_hashlib account_libraries one_account asha_signup
       signup_env
     = (Auth.HTTPException 409 "User with this email already exists", one_account).
Proof.
  split; [exact asha_registers |].
  exact (@registration_rejects_a_taken_email Json.python_hashlib account_libraries
           no_accounts one_account asha_signup asha_signup signup_env signup_env
           asha_registered asha_registers eq_refl).
Defined.

Lemma shop_documents_skipped (d : Auth.FingerprintDoc) :
  In d [shop_fingerprint] -> String.prefix "merchant_" (Auth.f_user_id d) = true.
Proof. intros [<- | []]. reflexivity. Qed.

Lemma asha_covers_25 : (25 <= Auth.balance asha_account)%Q.
Proof. vm_compute. discriminate. Qed.

(** Witness of X28. *)
Lemma scanner_charges_first_enrolled_customer_witness :
  Auth.fingerprints (Merchant.accounts shop_floor) = [shop_fingerprint] ++ [asha_fingerprint]
  /\ exists outcome st',
       @Merchant.capture_customer_fingerprint Json.python_hashlib account_libraries 0
         shop_floor "left-thumb-of-a-stranger" 25 None corner_shop scanner_env
       = Some (outcome, st')
       /\ outcome
          = Auth.Returned
              (Merchant.Completed
                 (Security.generate_transaction_id (Merchant.uuid_hex scanner_env))
                 (Merchant.user_name asha_account) 25 (Auth.balance asha_account - 25)
                 (Merchant.m_balance corner_shop + 25)).
Proof.
  split; [reflexivity |].
  destruct (@scanner_charges_first_enrolled_customer Json.python_hashlib account_libraries
              0 shop_floor [shop_fingerprint] [] asha_fingerprint
              (@Biometric.enroll_fingerprint Json.python_hashlib "user_0123456789ab"
                 EmptyString 0)
              EmptyString asha_account "left-thumb-of-a-stranger" 25 None corner_shop
              scanner_env eq_refl shop_documents_skipped eq_refl eq_refl eq_refl
              account_descriptor_run matcher_env_low eq_refl asha_covers_25)
    as [Hpayer Hreturns].
  destruct Hreturns as (outcome & st' & Hrun); [cbn; lia |].
  exists outcome, st'. split; [exact Hrun | exact (Hpayer outcome st' Hrun)].
Defined.

Lemma scan_of_25 :
  @Merchant.capture_customer_fingerprint Json.python_hashlib account_libraries 0
    shop_floor "left-thumb-of-a-stranger" 25 None corner_shop scanner_env
  = Some (Auth.Returned (Merchant.Completed "tx_00000000000000bb" "Asha Rao" 25 975 95),
          after_scan).
Proof. vm_compute. reflexivity. Qed.

(** Witness of X29. *)
Lemma scanner_payment_moves_the_amount_witness :
  @Merchant.capture_customer_fingerprint Json.python_hashlib account_libraries 0
    shop_floor "left-thumb-of-a-stranger" 25 None corner_shop scanner_env
  = Some (Auth.Returned (Merchant.Completed "tx_00000000000000bb" "Asha Rao" 25 975 95),
          after_scan)
  /\ Auth.find_one Merchant.merchant_id (Merchant.merchants after_scan)
       (Merchant.merchant_id corner_shop)
     = Some (Merchant.set_m_balance 95 (Merchant.utcnow scanner_env) corner_shop).
Proof.
  split; [exact scan_of_25 |].
  destruct (@scanner_payment_moves_the_amount Json.python_hashlib account_libraries 0
              shop_floor after_scan "left-thumb-of-a-stranger" 25 None corner_shop
              scanner_env "tx_00000000000000bb" "Asha Rao" 25 975 95 scan_of_25 eq_refl)
    as (payer & stored & _ & _ & _ & _ & _ & _ & Hshop & _).
  exact Hshop.
Defined.

Lemma asha_not_in_debt : (0 <= Auth.balance asha_account)%Q.
Proof. vm_compute. discriminate. Qed.

Lemma refund_is_negative : (- (25) < 0)%Q.
Proof. vm_compute. reflexivity. Qed.

(** Witness of X30. *)
Lemma scanner_accepts_negative_amounts_witness :
  (- (25) < 0)%Q
  /\ exists st',
       @Merchant.capture_customer_fingerprint Json.python_hashlib account_libraries 0
         shop_floor "left-thumb-of-a-stranger" (- (25)) None corner_shop scanner_env
       = Some (Auth.Returned
                 (Merchant.Completed
                    (Security.generate_transaction_id (Merchant.uuid_hex scanner_env))
                    (Merchant.user_name asha_account) (- (25))
                    (Auth.balance asha_account - - (25))
                    (Merchant.m_balance corner_shop + - (25))), st')
       /\ Merchant.ledger st' = Merchant.ledger shop_floor.
Proof.
  split; [exact refund_is_negative |].
  destruct (@scanner_accepts_negative_amounts Json.python_hashlib account_libraries 0
              shop_floor [shop_fingerprint] [] asha_fingerprint
              (@Biometric.enroll_fingerprint Json.python_hashlib "user_0123456789ab"
                 EmptyString 0)
              EmptyString asha_account "left-thumb-of-a-stranger" (- (25))%Q None
              corner_shop scanner_env eq_refl shop_documents_skipped eq_refl eq_refl eq_refl
              account_descriptor_run matcher_env_low eq_refl asha_not_in_debt
              refund_is_negative) as (st' & Hrun & Hledger & _).
  exists st'. split; [exact Hrun | exact Hledger].
Defined.

End FurtherRuns.
